(** * GitHub release downloader: a shallow embedding and its properties

    The development follows [github_release_downloader.py].  Pure helpers
    (string tests, the keyword table, the schedule translation) are Rocq
    functions; everything that touches the network, the file system, the
    clock or the host scheduler runs in a small state-and-exception monad
    over an explicit [World], and leaves a trace of the calls it made. *)

From Stdlib Require Import String Ascii List Bool Arith ZArith Lia.
Import ListNotations.
Local Open Scope string_scope.
Local Open Scope list_scope.
Local Open Scope nat_scope.

Set Implicit Arguments.
Set Warnings "-register-all,-abstract-large-number".

(** ** Python string operations used by the script *)

Module Str.

(** Strings hold text in UTF-8: the characters of ASCII are single bytes
    below 128, and searching for ASCII text in a string is searching for
    its bytes. *)

(** What [str.lower] does to ASCII text: [A-Z] is mapped to [a-z]. *)
Definition lower_ascii (c : ascii) : ascii :=
  let n := nat_of_ascii c in
  if (65 <=? n) && (n <=? 90) then ascii_of_nat (n + 32) else c.

Fixpoint ascii_lower (s : string) : string :=
  match s with
  | EmptyString => EmptyString
  | String c t => String (lower_ascii c) (ascii_lower t)
  end.

(** Is the text ASCII only? *)
Fixpoint is_ascii (s : string) : bool :=
  match s with
  | EmptyString => true
  | String c t => (nat_of_ascii c <? 128) && is_ascii t
  end.

(** [needle in hay] for two strings. *)
Fixpoint contains (needle hay : string) : bool :=
  String.prefix needle hay ||
  match hay with
  | EmptyString => false
  | String _ t => contains needle t
  end.

(** [s.endswith(suffix)]. *)
Fixpoint endswith (s suffix : string) : bool :=
  String.eqb s suffix ||
  match s with
  | EmptyString => false
  | String _ t => endswith t suffix
  end.

(** The one-character string holding a double quote. *)
Definition dquote : string := String (ascii_of_nat 34) EmptyString.

Definition dot : ascii := ascii_of_nat 46.

(** Does the text hold a character other than a dot? *)
Fixpoint has_non_dot (s : string) : bool :=
  match s with
  | EmptyString => false
  | String c t => negb (Ascii.eqb c dot) || has_non_dot t
  end.

(** The text before the last dot (all of it when there is no dot). *)
Fixpoint splitext_root (p : string) : string :=
  match p with
  | EmptyString => EmptyString
  | String c t =>
      if contains "." t then String c (splitext_root t)
      else if Ascii.eqb c dot then EmptyString
      else String c t
  end.

(** [splitext] on a name without directory separators: the name is cut at
    its last dot, unless only dots stand before that dot. *)
Definition splitext_name (name : string) : string :=
  let root := splitext_root name in
  if has_non_dot root then root else name.

(** The directory separators of Windows paths. *)
Definition is_sep (c : ascii) : bool :=
  Ascii.eqb c (ascii_of_nat 92) || Ascii.eqb c (ascii_of_nat 47).

Fixpoint has_sep (s : string) : bool :=
  match s with
  | EmptyString => false
  | String c t => is_sep c || has_sep t
  end.

(** [os.path.splitext(p)[0]]: only the part after the last separator is
    looked at for an extension. *)
Fixpoint splitext0 (p : string) : string :=
  match p with
  | EmptyString => EmptyString
  | String c t =>
      if has_sep t then String c (splitext0 t)
      else if is_sep c then String c (splitext_name t)
      else splitext_name (String c t)
  end.

Definition is_colon (c : ascii) : bool := Ascii.eqb c (ascii_of_nat 58).

(** A folder to which a name is joined with a separator: it is not empty
    and ends neither in a separator nor in a colon. *)
Fixpoint joinable (a : string) : bool :=
  match a with
  | EmptyString => false
  | String c t =>
      match t with
      | EmptyString => negb (is_sep c || is_colon c)
      | String _ _ => joinable t
      end
  end.

(** A relative path without a drive: it is not empty, does not start with
    a separator and has no colon in second place. *)
Definition relative (b : string) : bool :=
  match b with
  | EmptyString => false
  | String c t =>
      negb (is_sep c)
      && match t with
         | String d _ => negb (is_colon d)
         | EmptyString => true
         end
  end.

(** A plain file name: it is not empty and holds neither a separator nor a
    colon. *)
Fixpoint no_sep_colon (n : string) : bool :=
  match n with
  | EmptyString => true
  | String c t => negb (is_sep c || is_colon c) && no_sep_colon t
  end.

Definition plain_name (n : string) : bool :=
  match n with
  | EmptyString => false
  | String _ _ => no_sep_colon n
  end.

(** [os.path.join(a, b)] on Windows.  What it does with drives, roots and
    UNC prefixes is left to the library; the script relies on the one case
    in which a relative [b] is put behind the folder [a]. *)
Class OsPath := {
  path_join : string -> string -> string;
  path_join_relative :
    forall a b, joinable a = true -> relative b = true ->
                path_join a b = (a ++ "\" ++ b)%string
}.

End Str.

(** ** Dates and their renderings *)

Record datetime := mkDatetime {
  year : nat; month : nat; day : nat;
  hour : nat; minute : nat; second : nat; microsecond : nat
}.

(** [datetime.MAXYEAR]: the last year a [datetime] can hold. *)
Definition MAXYEAR : nat := 9999.

Module Fmt.

Definition digit (n : nat) : string :=
  String (ascii_of_nat (48 + n mod 10)) EmptyString.

(** [n] in decimal on exactly [width] digits, zero padded. *)
Fixpoint digits (width n : nat) : string :=
  match width with
  | 0 => EmptyString
  | S w => digits w (n / 10) ++ digit n
  end.

(** [datetime.isoformat()]: the microseconds are printed only when non-zero. *)
Definition isoformat (t : datetime) : string :=
  digits 4 (year t) ++ "-" ++ digits 2 (month t) ++ "-" ++ digits 2 (day t)
  ++ "T" ++ digits 2 (hour t) ++ ":" ++ digits 2 (minute t) ++ ":"
  ++ digits 2 (second t)
  ++ (if microsecond t =? 0 then "" else "." ++ digits 6 (microsecond t)).

(** [(t + timedelta(minutes=1)).strftime('%H:%M')]: only the hour and the
    minute of the sum are printed, so only the time of day is computed.
    The sum itself overflows in the last minute of the year [MAXYEAR];
    that minute is outside what is modelled here. *)
Definition one_minute_later_HM (t : datetime) : string :=
  let m := hour t * 60 + minute t + 1 in
  digits 2 ((m / 60) mod 24) ++ ":" ++ digits 2 (m mod 60).

End Fmt.

(** ** Release metadata and JSON values *)

Record Asset := mkAsset {
  name : string;
  browser_download_url : string
}.

(** The release document; [tag_name] may be missing ([dict.get] supplies
    ['Unknown']), a missing [assets] reads as the empty list. *)
Record Release := mkRelease {
  tag_name : option string;
  assets : list Asset
}.

(** What [json.load] may hand back from the manifest file. *)
Inductive json :=
| JNull
| JBool (b : bool)
| JNum (z : Z)
| JStr (s : string)
| JArr (xs : list json)
| JObj (kvs : list (string * json)).

(** The manifest file on disk: missing, present but not loadable (opening or
    parsing raises), or holding a JSON value. *)
Inductive ManifestFile :=
| Absent
| Unreadable
| Content (j : json).

(** ** Exceptions, contexts, events *)

(** Exception classes the script tells apart; subclasses stand with their
    base ([HTTPError] with [URLError], [FileNotFoundError] with [OSError]). *)
Inductive Exn :=
| URLError | SSLError | OSError | KeyError | TypeError | AttributeError
| ValueError.

Inductive Result (A : Type) :=
| Ret (a : A)
| Raise (e : Exn).
Arguments Ret {A} a.
Arguments Raise {A} e.

(** A TLS context either checks certificates or does not. *)
Inductive Ctx := Verified | Unverified.

(** One entry per outside call: a request for the release document, a file
    retrieval, a run of [schtasks], the final summary line of the log. *)
Inductive Event :=
| EvUrlopen (url : string) (c : Ctx)
| EvUrlretrieve (url destination : string) (c : Ctx)
| EvSchtasks (cmd : list string)
| EvSummary (successful skipped failed : nat).

(** ** The world the script runs in *)

Record World := mkWorld {
  appdata : string;                       (* %APPDATA% *)
  self_path : string;                     (* sys.executable or this file *)
  fs : list string;                       (* paths of existing files *)
  manifest_file : ManifestFile;
  manifest_writable : bool;               (* can manifest.json be written *)
  log_folder_ok : bool;                   (* can the log file be set up *)
  storage_folder_ok : bool;               (* can the downloads folder be made *)
  default_ctx_ok : bool;                  (* ssl.create_default_context works *)
  unverified_ctx_ok : bool;               (* ssl._create_unverified_context works *)
  opener : option Ctx;                    (* urllib's installed global opener *)
  net_release : string -> Ctx -> Result Release;
  net_file : string -> Ctx -> Result unit;
  net_partial : string -> Ctx -> bool;    (* a failed transfer leaves a file *)
  schtasks : list string -> Result Z;     (* return code of a schtasks run *)
  clock : nat -> datetime;                (* successive readings of the clock *)
  ticks : nat                             (* readings taken so far *)
}.

Definition set_fs (l : list string) (w : World) : World :=
  mkWorld (appdata w) (self_path w) l (manifest_file w) (manifest_writable w)
    (log_folder_ok w) (storage_folder_ok w) (default_ctx_ok w)
    (unverified_ctx_ok w) (opener w) (net_release w) (net_file w)
    (net_partial w) (schtasks w) (clock w) (ticks w).

Definition set_manifest_file (m : ManifestFile) (w : World) : World :=
  mkWorld (appdata w) (self_path w) (fs w) m (manifest_writable w)
    (log_folder_ok w) (storage_folder_ok w) (default_ctx_ok w)
    (unverified_ctx_ok w) (opener w) (net_release w) (net_file w)
    (net_partial w) (schtasks w) (clock w) (ticks w).

Definition set_opener (o : option Ctx) (w : World) : World :=
  mkWorld (appdata w) (self_path w) (fs w) (manifest_file w)
    (manifest_writable w) (log_folder_ok w) (storage_folder_ok w)
    (default_ctx_ok w) (unverified_ctx_ok w) o (net_release w) (net_file w)
    (net_partial w) (schtasks w) (clock w) (ticks w).

Definition set_ticks (n : nat) (w : World) : World :=
  mkWorld (appdata w) (self_path w) (fs w) (manifest_file w)
    (manifest_writable w) (log_folder_ok w) (storage_folder_ok w)
    (default_ctx_ok w) (unverified_ctx_ok w) (opener w) (net_release w)
    (net_file w) (net_partial w) (schtasks w) (clock w) n.

(** ** The monad: state, exceptions and a trace *)

Record Out (A : Type) := mkOut {
  result : Result A;
  after : World;
  trace : list Event
}.

Definition M (A : Type) : Type := World -> Out A.

Definition ret {A} (a : A) : M A := fun w => mkOut (Ret a) w [].

Definition raise {A} (e : Exn) : M A := fun w => mkOut (Raise e) w [].

Definition bind {A B} (m : M A) (f : A -> M B) : M B := fun w =>
  match m w with
  | mkOut (Ret a) w1 t1 =>
      match f a w1 with
      | mkOut r w2 t2 => mkOut r w2 (t1 ++ t2)
      end
  | mkOut (Raise e) w1 t1 => mkOut (Raise e) w1 t1
  end.

(** [try: body / except <classes>: handler]: [handler e] is [None] for an
    exception the clause does not name, which then propagates. *)
Definition try_except {A} (body : M A) (handler : Exn -> option (M A)) : M A :=
  fun w =>
    match body w with
    | mkOut (Ret a) w1 t1 => mkOut (Ret a) w1 t1
    | mkOut (Raise e) w1 t1 =>
        match handler e with
        | Some h =>
            match h w1 with
            | mkOut r w2 t2 => mkOut r w2 (t1 ++ t2)
            end
        | None => mkOut (Raise e) w1 t1
        end
    end.

Definition emit (e : Event) : M unit := fun w => mkOut (Ret tt) w [e].

Declare Scope monad_scope.
Delimit Scope monad_scope with monad.
Notation "x <- m ;; k" := (bind m (fun x => k))
  (at level 61, m at next level, right associativity) : monad_scope.
Notation "m ;;; k" := (bind m (fun _ => k))
  (at level 61, right associativity) : monad_scope.
Local Open Scope monad_scope.

(** [except Exception]: every exception is handled. *)
Definition except_Exception {A} (h : M A) : Exn -> option (M A) :=
  fun _ => Some h.

(** [except (urllib.error.URLError, ssl.SSLError)]. *)
Definition is_url_or_ssl_error (e : Exn) : bool :=
  match e with
  | URLError | SSLError => true
  | _ => false
  end.

Definition except_URLError_SSLError {A} (h : M A) : Exn -> option (M A) :=
  fun e => if is_url_or_ssl_error e then Some h else None.

(** [datetime.now()]: the next reading of the clock. *)
Definition datetime_now : M datetime := fun w =>
  mkOut (Ret (clock w (ticks w))) (set_ticks (S (ticks w)) w) [].

(** ** The text functions of the interpreter *)

(** [str.lower] follows the Unicode tables of the interpreter: the Kelvin
    sign has the lower case [k], some characters change length.  The script
    only ever looks at its result, and all that is assumed of it is what it
    does to ASCII text. *)
Class Unicode := {
  str_lower : string -> string;
  str_lower_ascii :
    forall s, Str.is_ascii s = true -> str_lower s = Str.ascii_lower s
}.

(** An interpreter whose tables leave everything outside ASCII alone. *)
#[global] Instance ascii_only : Unicode := {|
  str_lower := Str.ascii_lower;
  str_lower_ascii := fun _ _ => eq_refl
|}.

(** Joining by plain concatenation, which is what [os.path.join] does with
    the folders and file names of the sample runs below. *)
#[global] Instance plain_join : Str.OsPath := {|
  Str.path_join := fun a b => (a ++ "\" ++ b)%string;
  Str.path_join_relative := fun _ _ _ _ => eq_refl
|}.

(** ** Python's operations on the loaded manifest *)

Module Py.

Fixpoint dict_get (kvs : list (string * json)) (k : string) : option json :=
  match kvs with
  | [] => None
  | (k', v) :: rest => if String.eqb k' k then Some v else dict_get rest k
  end.

(** [d[k] = v]: an existing key keeps its place, a new one goes last. *)
Fixpoint dict_set (kvs : list (string * json)) (k : string) (v : json)
    : list (string * json) :=
  match kvs with
  | [] => [(k, v)]
  | (k', v') :: rest =>
      if String.eqb k' k then (k', v) :: rest
      else (k', v') :: dict_set rest k v
  end.

(** [j[k]] for a string [k]. *)
Definition getitem (j : json) (k : string) : M json :=
  match j with
  | JObj kvs =>
      match dict_get kvs k with
      | Some v => ret v
      | None => raise KeyError
      end
  | _ => raise TypeError
  end.

Definition is_str (s : string) (j : json) : bool :=
  match j with
  | JStr t => String.eqb t s
  | _ => false
  end.

(** [s in j] for a string [s]: an element of a list, a key of a dict, a
    substring of a string; other values are not iterable. *)
Definition contains (j : json) (s : string) : M bool :=
  match j with
  | JArr xs => ret (existsb (is_str s) xs)
  | JObj kvs => ret (existsb (fun kv => String.eqb (fst kv) s) kvs)
  | JStr t => ret (Str.contains s t)
  | _ => raise TypeError
  end.

(** [j.append(v)]: only lists have it. *)
Definition append (j v : json) : M json :=
  match j with
  | JArr xs => ret (JArr (xs ++ [v]))
  | _ => raise AttributeError
  end.

(** [j[k] = v] for a string [k]: only dicts accept it. *)
Definition setitem (j : json) (k : string) (v : json) : M json :=
  match j with
  | JObj kvs => ret (JObj (dict_set kvs k v))
  | _ => raise TypeError
  end.

(** The manifest seen after the object stored under [k] was changed in
    place into [v]. *)
Definition store (j : json) (k : string) (v : json) : json :=
  match j with
  | JObj kvs => JObj (dict_set kvs k v)
  | _ => j
  end.

End Py.

(** ** Sample worlds *)

Module Sample.

(** A clock that advances one second per reading. *)
Definition clock_from (s0 : nat) (n : nat) : datetime :=
  mkDatetime 2025 12 11 8 ((s0 + n) / 60) ((s0 + n) mod 60) 0.

Definition wifi : Asset :=
  mkAsset "wifi-driver.exe" "https://example.invalid/wifi-driver.exe".
Definition notes : Asset :=
  mkAsset "notes.pdf" "https://example.invalid/notes.pdf".
Definition security : Asset :=
  mkAsset "security-patch.exe" "https://example.invalid/security-patch.exe".

Definition v21 : Release := mkRelease (Some "v2.1") [wifi; notes; security].

(** A healthy machine: empty storage, no manifest, everything reachable. *)
Definition healthy (r : Release) : World :=
  mkWorld "C:\Users\u\AppData\Roaming" "C:\tools\downloader.exe" []
    Absent true true true true true None
    (fun _ _ => Ret r) (fun _ _ => Ret tt) (fun _ _ => false)
    (fun _ => Ret 0%Z)
    (clock_from 0) 0.

(** TLS interception: requests that check certificates fail, the others
    go through. *)
Definition intercepted (r : Release) : World :=
  mkWorld "C:\Users\u\AppData\Roaming" "C:\tools\downloader.exe" []
    Absent true true true true true None
    (fun _ c => match c with Verified => Raise URLError | Unverified => Ret r end)
    (fun _ c => match c with Verified => Raise SSLError | Unverified => Ret tt end)
    (fun _ _ => false) (fun _ => Ret 0%Z) (clock_from 0) 0.

(** A machine on which the default TLS context cannot be built. *)
Definition no_default_ctx (r : Release) : World :=
  mkWorld "C:\Users\u\AppData\Roaming" "C:\tools\downloader.exe" []
    Absent true true true false true None
    (fun _ _ => Ret r) (fun _ _ => Ret tt) (fun _ _ => false)
    (fun _ => Ret 0%Z)
    (clock_from 0) 0.

(** No network at all. *)
Definition offline : World :=
  mkWorld "C:\Users\u\AppData\Roaming" "C:\tools\downloader.exe" []
    Absent true true true true true None
    (fun _ _ => Raise URLError) (fun _ _ => Raise URLError)
    (fun _ _ => false) (fun _ => Ret 0%Z) (clock_from 0) 0.

Definition storage : string :=
  "C:\Users\u\AppData\Roaming\GitHubReleaseDownloader\downloads".

(** The manifest file was replaced by the JSON text of an empty list, and
    the wifi driver is already in the storage folder. *)
Definition foreign_manifest (r : Release) : World :=
  mkWorld "C:\Users\u\AppData\Roaming" "C:\tools\downloader.exe"
    [Str.path_join storage "wifi-driver.exe"]
    (Content (JArr [])) true true true true true None
    (fun _ _ => Ret r) (fun _ _ => Ret tt) (fun _ _ => false)
    (fun _ => Ret 0%Z)
    (clock_from 0) 0.

(** Every download works except that of the security patch. *)
Definition flaky (r : Release) : World :=
  mkWorld "C:\Users\u\AppData\Roaming" "C:\tools\downloader.exe" []
    Absent true true true true true None
    (fun _ _ => Ret r)
    (fun url _ => if String.eqb url (browser_download_url security)
                  then Raise URLError else Ret tt)
    (fun _ _ => false) (fun _ => Ret 0%Z) (clock_from 0) 0.


(** The log file cannot be set up. *)
Definition no_log : World :=
  mkWorld "C:\Users\u\AppData\Roaming" "C:\tools\downloader.exe" []
    Absent true false true true true None
    (fun _ _ => Raise URLError) (fun _ _ => Raise URLError)
    (fun _ _ => false) (fun _ => Ret 0%Z) (clock_from 0) 0.

End Sample.

(** * The script *)

Section Script.

Context {U : Unicode} {P : Str.OsPath}.

(** ** Keyword table and schedule translation *)

(** [load_keyword_mappings]: a dict literal, iterated in insertion order. *)
Definition load_keyword_mappings : list (string * string) :=
  [ ("host", "At Logon");
    ("drivers", "Weekly (Sunday 3 AM)");
    ("nvme", "Once (1 min after install)");
    ("telemetry", "Daily (12:00 PM)");
    ("power", "At System Startup (Boot)");
    ("vga", "At Logon");
    ("chipset", "Monthly (1st of Month)");
    ("audio", "At Logon");
    ("wifi", "Every 4 Hours");
    ("thermal", "Every 1 Hour");
    ("security", "Daily (4:00 AM)");
    ("bridge", "At System Startup");
    ("usb", "Daily (6:00 PM)");
    ("soc", "Weekly (Saturday 11 PM)");
    ("broker", "Weekly (Monday 8 AM)") ].

(** The inner loop of [main] (lines 402-408): the schedule of the first
    table entry whose keyword occurs in the lower-cased file name. *)
Fixpoint first_keyword (filename_lower : string)
    (items : list (string * string)) : option string :=
  match items with
  | [] => None
  | (keyword, sched) :: rest =>
      if Str.contains keyword filename_lower then Some sched
      else first_keyword filename_lower rest
  end.

Definition find_schedule (filename : string) : option string :=
  first_keyword (str_lower filename) load_keyword_mappings.

Definition default_args : list string := ["/SC"; "DAILY"; "/ST"; "08:00"].

(** [parse_schedule_to_cmd]; only the ['once'] branch reads the clock. *)
Definition parse_schedule_to_cmd (schedule : string) : M (list string) :=
  let schedule_lower := str_lower schedule in
  let has := fun p => Str.contains p schedule_lower in
  if has "at logon" then ret ["/SC"; "ONLOGON"]
  else if has "at system startup" || has "boot" then ret ["/SC"; "ONSYSTEMSTART"]
  else if has "weekly" then
    if has "sunday" then ret ["/SC"; "WEEKLY"; "/D"; "SUN"; "/ST"; "03:00"]
    else if has "saturday" then ret ["/SC"; "WEEKLY"; "/D"; "SAT"; "/ST"; "23:00"]
    else if has "monday" then ret ["/SC"; "WEEKLY"; "/D"; "MON"; "/ST"; "08:00"]
    else ret ["/SC"; "WEEKLY"; "/ST"; "08:00"]
  else if has "monthly" then ret ["/SC"; "MONTHLY"; "/D"; "1"; "/ST"; "08:00"]
  else if has "every 4 hours" then ret ["/SC"; "HOURLY"; "/MO"; "4"]
  else if has "every 1 hour" || has "every hour" then ret ["/SC"; "HOURLY"]
  else if has "once" then
    now <- datetime_now ;;
    ret ["/SC"; "ONCE"; "/ST"; Fmt.one_minute_later_HM now]
  else if has "12:00 pm" || has "12:00pm" then ret ["/SC"; "DAILY"; "/ST"; "12:00"]
  else if has "4:00 am" || has "4:00am" then ret ["/SC"; "DAILY"; "/ST"; "04:00"]
  else if has "6:00 pm" || has "6:00pm" then ret ["/SC"; "DAILY"; "/ST"; "18:00"]
  else ret default_args.


(** ** Primitive operations on the world *)

(** [os.path.exists(path)] for a path in the storage folder. *)
Definition path_exists (path : string) : M bool := fun w =>
  mkOut (Ret (existsb (String.eqb path) (fs w))) w [].

Definition ssl_create_default_context : M Ctx := fun w =>
  if default_ctx_ok w then ret Verified w else raise SSLError w.

Definition ssl_create_unverified_context : M Ctx := fun w =>
  if unverified_ctx_ok w then ret Unverified w else raise SSLError w.

(** The context a request runs under when none is passed: that of the
    installed global opener, and urllib's default (verifying) one when no
    opener was installed. *)
Definition opener_ctx (w : World) : Ctx :=
  match opener w with
  | Some c => c
  | None => Verified
  end.

(** [urlopen(req, timeout=10, context=c)] followed by reading and decoding
    the body: one request, whose outcome the network decides. *)
Definition urlopen_json (url : string) (context : option Ctx) : M Release :=
  fun w =>
    let c := match context with
             | Some c => c
             | None => opener_ctx w
             end in
    mkOut (net_release w url c) w [EvUrlopen url c].

(** [urllib.request.install_opener(opener)]. *)
Definition install_opener (c : Ctx) : M unit := fun w =>
  mkOut (Ret tt) (set_opener (Some c) w) [].

(** [urllib.request.urlretrieve(url, destination)]: one request through the
    global opener; on success the file exists at [destination].  A transfer
    that fails after the destination was opened leaves a file there. *)
Definition urlretrieve (url destination : string) : M unit := fun w =>
  let c := opener_ctx w in
  match net_file w url c with
  | Ret _ =>
      mkOut (Ret tt) (set_fs (destination :: fs w) w)
        [EvUrlretrieve url destination c]
  | Raise e =>
      mkOut (Raise e)
        (if net_partial w url c then set_fs (destination :: fs w) w else w)
        [EvUrlretrieve url destination c]
  end.

(** [subprocess.run(cmd, ...)] for a [schtasks] command line. *)
Definition subprocess_run (cmd : list string) : M Z := fun w =>
  mkOut (schtasks w cmd) w [EvSchtasks cmd].

(** ** The functions of the script *)

Definition setup_logging : M unit := fun w =>
  if log_folder_ok w then ret tt w else raise OSError w.

Definition create_ssl_context : M (option Ctx) :=
  try_except
    (context <- ssl_create_default_context ;; ret (Some context))
    (except_Exception
       (try_except
          (context <- ssl_create_unverified_context ;; ret (Some context))
          (except_Exception (ret None)))).

Definition app_folder (w : World) : string :=
  Str.path_join (appdata w) "GitHubReleaseDownloader".

Definition get_storage_folder : M string := fun w =>
  if storage_folder_ok w
  then ret (Str.path_join (app_folder w) "downloads") w
  else raise OSError w.

Definition empty_manifest : json :=
  JObj [("downloaded_releases", JArr []); ("files", JObj [])].

(** [json.load] on the opened manifest file. *)
Definition json_load_manifest : M json := fun w =>
  match manifest_file w with
  | Content j => ret j w
  | Absent => raise OSError w
  | Unreadable => raise ValueError w
  end.

Definition manifest_exists : M bool := fun w =>
  mkOut (Ret (match manifest_file w with Absent => false | _ => true end)) w [].

Definition load_manifest : M json :=
  present <- manifest_exists ;;
  if present then
    try_except json_load_manifest (except_Exception (ret empty_manifest))
  else ret empty_manifest.

(** Creating the folder, opening the file and [json.dump], taken as one
    step that either writes the whole manifest or fails before the file is
    opened.  A write that fails after the file was opened, and leaves it
    cut short, is not modelled; the properties below that speak of the
    file after a save assume that the file can be written. *)
Definition write_manifest (manifest : json) : M unit := fun w =>
  if manifest_writable w
  then mkOut (Ret tt) (set_manifest_file (Content manifest) w) []
  else raise OSError w.

Definition save_manifest (manifest : json) : M unit :=
  try_except (write_manifest manifest) (except_Exception (ret tt)).

Definition release_url (owner repo : string) : string :=
  ("https://api.github.com/repos/" ++ owner ++ "/" ++ repo
   ++ "/releases/latest")%string.

Definition fetch_latest_release (owner repo : string) : M (option Release) :=
  try_except
    (let url := release_url owner repo in
     ssl_context <- create_ssl_context ;;
     try_except
       (data <- urlopen_json url ssl_context ;; ret (Some data))
       (except_URLError_SSLError
          (unverified_context <- ssl_create_unverified_context ;;
           data <- urlopen_json url (Some unverified_context) ;;
           ret (Some data))))
    (except_Exception (ret None)).

Definition download_file (url destination : string) : M bool :=
  try_except
    (ssl_context <- create_ssl_context ;;
     try_except
       (match ssl_context with
        | Some c => install_opener c
        | None => ret tt
        end ;;;
        urlretrieve url destination)
       (except_URLError_SSLError
          (unverified_context <- ssl_create_unverified_context ;;
           install_opener unverified_context ;;;
           urlretrieve url destination)) ;;;
     ret true)
    (except_Exception (ret false)).

(** Truth value of an optional string: [None] and [''] are false. *)
Definition truthy (schedule : option string) : option string :=
  match schedule with
  | Some EmptyString => None
  | other => other
  end.

Definition create_scheduled_task (executable_path task_name : string)
    (schedule : option string) : M bool :=
  try_except
    (subprocess_run ["schtasks"; "/Delete"; "/TN"; task_name; "/F"] ;;;
     schedule_args <- match truthy schedule with
                      | Some s => parse_schedule_to_cmd s
                      | None => ret default_args
                      end ;;
     let cmd :=
       ["schtasks"; "/Create"; "/TN"; task_name;
        "/TR"; (Str.dquote ++ executable_path ++ Str.dquote)%string]
       ++ schedule_args ++ ["/F"] in
     returncode <- subprocess_run cmd ;;
     ret (Z.eqb returncode 0))
    (except_Exception (ret false)).

Definition self_task_name : string := "GitHubReleaseDownloader".

(** [sys.executable] when frozen, the absolute path of this file otherwise. *)
Definition current_executable : M string := fun w =>
  mkOut (Ret (self_path w)) w [].

Definition schedule_self : M bool :=
  try_except
    (executable_path <- current_executable ;;
     let task_name := self_task_name in
     subprocess_run ["schtasks"; "/Delete"; "/TN"; task_name; "/F"] ;;;
     let cmd :=
       if Str.endswith executable_path ".py" then
         ["schtasks"; "/Create"; "/TN"; task_name;
          "/TR"; ("pythonw " ++ Str.dquote ++ executable_path
                  ++ Str.dquote)%string;
          "/SC"; "DAILY"; "/ST"; "08:00"; "/F"]
       else
         ["schtasks"; "/Create"; "/TN"; task_name;
          "/TR"; (Str.dquote ++ executable_path ++ Str.dquote)%string;
          "/SC"; "DAILY"; "/ST"; "08:00"; "/F"] in
     returncode <- subprocess_run cmd ;;
     ret (Z.eqb returncode 0))
    (except_Exception (ret false)).

(** ** The orchestrator *)

Definition owner : string := "YashasSingh".
Definition repo : string := "cybersecurity".

Definition release_tag_of (release_info : Release) : string :=
  match tag_name release_info with
  | Some t => t
  | None => "Unknown"
  end.

(** [asset['name'].lower().endswith('.exe')]. *)
Definition is_exe (asset : Asset) : bool :=
  Str.endswith (str_lower (name asset)) ".exe".

Definition task_name_of (filename : string) : string :=
  ("SystemUpdate_" ++ Str.splitext0 filename)%string.

Record Counts := mkCounts {
  successful : nat;
  skipped : nat;
  failed : nat
}.

(** The body of the download loop (lines 397-425) for one asset. *)
Definition process_asset (storage_folder : string) (asset : Asset)
    (c : Counts) : M Counts :=
  let download_url := browser_download_url asset in
  let filename := name asset in
  let destination := Str.path_join storage_folder filename in
  let schedule := find_schedule filename in
  present <- path_exists destination ;;
  if present then
    create_scheduled_task destination (task_name_of filename) schedule ;;;
    ret (mkCounts (successful c) (skipped c + 1) (failed c))
  else
    ok <- download_file download_url destination ;;
    if ok then
      create_scheduled_task destination (task_name_of filename) schedule ;;;
      ret (mkCounts (successful c + 1) (skipped c) (failed c))
    else ret (mkCounts (successful c) (skipped c) (failed c + 1)).

(** [for asset in exe_assets: ...] *)
Fixpoint download_assets (storage_folder : string) (exe_assets : list Asset)
    (c : Counts) : M Counts :=
  match exe_assets with
  | [] => ret c
  | asset :: rest =>
      c' <- process_asset storage_folder asset c ;;
      download_assets storage_folder rest c'
  end.

Definition file_entry (release_tag : string) (now : datetime) : json :=
  JObj [("release", JStr release_tag);
        ("downloaded", JStr (Fmt.isoformat now))].

(** Lines 432-436: the entry is built first (reading the clock), then
    [manifest['files']] is looked up and assigned into. *)
Fixpoint record_files (release_tag : string) (exe_assets : list Asset)
    (manifest : json) : M json :=
  match exe_assets with
  | [] => ret manifest
  | asset :: rest =>
      now <- datetime_now ;;
      files <- Py.getitem manifest "files" ;;
      files' <- Py.setitem files (name asset) (file_entry release_tag now) ;;
      record_files release_tag rest (Py.store manifest "files" files')
  end.

(** Lines 428-437. *)
Definition update_manifest (release_tag : string) (exe_assets : list Asset)
    (c : Counts) : M unit :=
  manifest <- load_manifest ;;
  if (0 <? successful c) || (0 <? skipped c) then
    releases <- Py.getitem manifest "downloaded_releases" ;;
    present <- Py.contains releases release_tag ;;
    manifest1 <-
      (if negb present then
         releases <- Py.getitem manifest "downloaded_releases" ;;
         releases' <- Py.append releases (JStr release_tag) ;;
         ret (Py.store manifest "downloaded_releases" releases')
       else ret manifest) ;;
    manifest2 <- record_files release_tag exe_assets manifest1 ;;
    save_manifest manifest2
  else ret tt.

(** The [try] block of [main].  The release document is taken to be a
    non-empty JSON object, so [not release_info] holds exactly when the
    fetch returned [None]. *)
Definition main_body : M bool :=
  schedule_self ;;;
  release_info <- fetch_latest_release owner repo ;;
  match release_info with
  | None => ret false
  | Some release_info =>
      let release_tag := release_tag_of release_info in
      storage_folder <- get_storage_folder ;;
      let exe_assets := filter is_exe (assets release_info) in
      match exe_assets with
      | [] => ret false
      | _ :: _ =>
          c <- download_assets storage_folder exe_assets (mkCounts 0 0 0) ;;
          update_manifest release_tag exe_assets c ;;;
          emit (EvSummary (successful c) (skipped c) (failed c)) ;;;
          ret (failed c =? 0)
      end
  end.

Definition main : M bool :=
  setup_logging ;;;
  try_except main_body (except_Exception (ret false)).

(** [if __name__ == "__main__": main()]: the value of [main] is dropped;
    the interpreter exits with 0 when [main] returns and with 1 when an
    exception escapes it. *)
Definition script_exit_status (w : World) : Z :=
  match result (main w) with
  | Ret _ => 0%Z
  | Raise _ => 1%Z
  end.


(** ** Notions used to state the properties *)

(** The keywords of the table, in the order in which it lists them. *)
Definition keyword_order : list string :=
  ["host"; "drivers"; "nvme"; "telemetry"; "power"; "vga"; "chipset";
   "audio"; "wifi"; "thermal"; "security"; "bridge"; "usb"; "soc"; "broker"].

(** A file name contains a keyword when its lower-cased form does. *)
Definition mentions (filename keyword : string) : bool :=
  Str.contains keyword (str_lower filename).

(** The phrases [parse_schedule_to_cmd] looks for at its top level. *)
Definition recognised_phrases : list string :=
  ["at logon"; "at system startup"; "boot"; "weekly"; "monthly";
   "every 4 hours"; "every 1 hour"; "every hour"; "once";
   "12:00 pm"; "12:00pm"; "4:00 am"; "4:00am"; "6:00 pm"; "6:00pm"].

Definition matches_no_pattern (schedule : string) : Prop :=
  forall p, In p recognised_phrases ->
            Str.contains p (str_lower schedule) = false.

(** The weekly forms, chosen by the day named in the description. *)
Definition weekly_args (schedule_lower : string) : list string :=
  if Str.contains "sunday" schedule_lower
  then ["/SC"; "WEEKLY"; "/D"; "SUN"; "/ST"; "03:00"]
  else if Str.contains "saturday" schedule_lower
  then ["/SC"; "WEEKLY"; "/D"; "SAT"; "/ST"; "23:00"]
  else if Str.contains "monday" schedule_lower
  then ["/SC"; "WEEKLY"; "/D"; "MON"; "/ST"; "08:00"]
  else ["/SC"; "WEEKLY"; "/ST"; "08:00"].

(** The translation as an ordered rule list: the phrases that trigger a
    rule, and the arguments the rule produces. *)
Definition schedule_rules : list (list string * (string -> M (list string))) :=
  [ (["at logon"], fun _ => ret ["/SC"; "ONLOGON"]);
    (["at system startup"; "boot"], fun _ => ret ["/SC"; "ONSYSTEMSTART"]);
    (["weekly"], fun sl => ret (weekly_args sl));
    (["monthly"], fun _ => ret ["/SC"; "MONTHLY"; "/D"; "1"; "/ST"; "08:00"]);
    (["every 4 hours"], fun _ => ret ["/SC"; "HOURLY"; "/MO"; "4"]);
    (["every 1 hour"; "every hour"], fun _ => ret ["/SC"; "HOURLY"]);
    (["once"], fun _ =>
       bind datetime_now
         (fun now => ret ["/SC"; "ONCE"; "/ST"; Fmt.one_minute_later_HM now]));
    (["12:00 pm"; "12:00pm"], fun _ => ret ["/SC"; "DAILY"; "/ST"; "12:00"]);
    (["4:00 am"; "4:00am"], fun _ => ret ["/SC"; "DAILY"; "/ST"; "04:00"]);
    (["6:00 pm"; "6:00pm"], fun _ => ret ["/SC"; "DAILY"; "/ST"; "18:00"]) ].

(** First rule, in list order, one of whose phrases occurs in the text. *)
Fixpoint first_rule (rules : list (list string * (string -> M (list string))))
    (schedule_lower : string) : M (list string) :=
  match rules with
  | [] => ret default_args
  | (phrases, produce) :: rest =>
      if existsb (fun p => Str.contains p schedule_lower) phrases
      then produce schedule_lower
      else first_rule rest schedule_lower
  end.

(** The context of the first attempt of a network operation: what
    [create_ssl_context] hands out, and the installed opener's when it
    hands out nothing. *)
Definition first_attempt_ctx (w : World) : Ctx :=
  if default_ctx_ok w then Verified
  else if unverified_ctx_ok w then Unverified
  else opener_ctx w.

(** The release document [fetch_latest_release] ends up with. *)
Definition fetched (w : World) : option Release :=
  match result (fetch_latest_release owner repo w) with
  | Ret r => r
  | Raise _ => None
  end.

(** A trace holds no run of [schtasks]. *)
Definition no_schtasks (tr : list Event) : Prop :=
  forall cmd, ~ In (EvSchtasks cmd) tr.

(** The world [w] with its mutable parts other than the manifest replaced:
    the existing files, the installed opener and the clock position. *)
Definition touch (l : list string) (o : option Ctx) (t : nat) (w : World)
    : World :=
  set_ticks t (set_opener o (set_fs l w)).

(** Every event of the trace is a run of [schtasks]. *)
Definition only_schtasks (tr : list Event) : Prop :=
  forall e, In e tr -> exists cmd, e = EvSchtasks cmd.

Definition total (c : Counts) : nat := successful c + skipped c + failed c.

(** Where an asset is stored. *)
Definition destination_of (storage_folder : string) (asset : Asset) : string :=
  Str.path_join storage_folder (name asset).

(** What happens to one asset, as decided by the state the loop is in. *)
Inductive Outcome := Skipped | Downloaded | Failed.

Definition file_present (path : string) (w : World) : bool :=
  existsb (String.eqb path) (fs w).

Definition download_ok (url destination : string) (w : World) : bool :=
  match result (download_file url destination w) with
  | Ret b => b
  | Raise _ => false
  end.

Definition asset_outcome (storage_folder : string) (asset : Asset)
    (w : World) : Outcome :=
  if file_present (destination_of storage_folder asset) w then Skipped
  else if download_ok (browser_download_url asset)
            (destination_of storage_folder asset) w
  then Downloaded else Failed.

Definition count (o : Outcome) (c : Counts) : Counts :=
  match o with
  | Skipped => mkCounts (successful c) (skipped c + 1) (failed c)
  | Downloaded => mkCounts (successful c + 1) (skipped c) (failed c)
  | Failed => mkCounts (successful c) (skipped c) (failed c + 1)
  end.

(** The manifest [load_manifest] hands to the run. *)
Definition loaded (mf : ManifestFile) : json :=
  match mf with
  | Content j => j
  | Absent | Unreadable => empty_manifest
  end.

(** The persisted format: an object with a list under
    ["downloaded_releases"] and an object under ["files"]. *)
Definition manifest_shape_ok (m : json) : bool :=
  match m with
  | JObj kvs =>
      match Py.dict_get kvs "downloaded_releases", Py.dict_get kvs "files" with
      | Some (JArr _), Some (JObj _) => true
      | _, _ => false
      end
  | _ => false
  end.

(** The list of processed releases after a run recorded [release_tag]. *)
Definition add_release (release_tag : string) (releases : list json)
    : list json :=
  if existsb (Py.is_str release_tag) releases then releases
  else releases ++ [JStr release_tag].

(** The ["files"] mapping after the entries of [exe_assets] were written,
    the [i]-th with the clock reading number [t + i]. *)
Fixpoint set_entries (release_tag : string) (exe_assets : list Asset)
    (clk : nat -> datetime) (t : nat) (files : list (string * json))
    : list (string * json) :=
  match exe_assets with
  | [] => files
  | asset :: rest =>
      set_entries release_tag rest clk (S t)
        (Py.dict_set files (name asset) (file_entry release_tag (clk t)))
  end.

(** A manifest entry, a manifest and a manifest file with the download
    time stamps blanked out. *)
Definition strip_entry (v : json) : json :=
  match v with
  | JObj fields =>
      JObj (map (fun kv => if String.eqb (fst kv) "downloaded"
                           then (fst kv, JNull) else kv) fields)
  | _ => v
  end.





(** The assets a run works on. *)
Definition qualifying (r : Release) : list Asset :=
  filter is_exe (assets r).

Definition storage_of (w : World) : string :=
  Str.path_join (app_folder w) "downloads".

(** The manifest lists [release_tag] among the processed releases. *)
Definition records_release (mf : ManifestFile) (release_tag : string) : Prop :=
  exists kvs drs,
    mf = Content (JObj kvs)
    /\ Py.dict_get kvs "downloaded_releases" = Some (JArr drs)
    /\ In (JStr release_tag) drs.

(** The manifest has an entry for the file name. *)
Definition has_entry (mf : ManifestFile) (filename : string) : Prop :=
  exists kvs fl e,
    mf = Content (JObj kvs)
    /\ Py.dict_get kvs "files" = Some (JObj fl)
    /\ Py.dict_get fl filename = Some e.

(** The summary line of the log. *)
Definition summary_of (c : Counts) : Event :=
  EvSummary (successful c) (skipped c) (failed c).

(** A manifest entry of [release_tag] without its time stamp. *)
Definition blank_entry (release_tag : string) : json :=
  JObj [("release", JStr release_tag); ("downloaded", JNull)].

(** Every asset of the list has an entry of [release_tag] in the mapping. *)
Definition covered (release_tag : string) (exe_assets : list Asset)
    (files : list (string * json)) : Prop :=
  forall a, In a exe_assets ->
            exists v, Py.dict_get files (name a) = Some v
                      /\ strip_entry v = blank_entry release_tag.

(** ** Further notions: scheduler commands, frames, manifest errors *)

(** The two command lines the script hands to [schtasks]. *)
Definition delete_cmd (task_name : string) : list string :=
  ["schtasks"; "/Delete"; "/TN"; task_name; "/F"].

Definition create_cmd (task_name action : string)
    (schedule_args : list string) : list string :=
  ["schtasks"; "/Create"; "/TN"; task_name; "/TR"; action]
  ++ schedule_args ++ ["/F"].

Definition quoted (path : string) : string :=
  (Str.dquote ++ path ++ Str.dquote)%string.

(** The schedule arguments [create_scheduled_task] computes in state [w],
    and the clock position it leaves. *)
Definition schedule_args_of (schedule : option string) (w : World)
    : list string :=
  match truthy schedule with
  | Some s =>
      match result (parse_schedule_to_cmd s w) with
      | Ret args => args
      | Raise _ => default_args
      end
  | None => default_args
  end.

Definition schedule_ticks_of (schedule : option string) (w : World) : nat :=
  match truthy schedule with
  | Some s => ticks (after (parse_schedule_to_cmd s w))
  | None => ticks w
  end.

(** The action of the self-scheduling task: scripts are run through
    [pythonw], anything else directly. *)
Definition self_action (executable_path : string) : string :=
  if Str.endswith executable_path ".py"
  then ("pythonw " ++ quoted executable_path)%string
  else quoted executable_path.

Definition daily_8 : list string := ["/SC"; "DAILY"; "/ST"; "08:00"].

(** The schedule types [schtasks] is asked for. *)
Definition schedule_types : list string :=
  ["ONLOGON"; "ONSYSTEMSTART"; "WEEKLY"; "MONTHLY"; "HOURLY"; "ONCE"; "DAILY"].



(** An action that only looks at its arguments: the same result in every
    state, no state change, no outside call. *)
Definition pure_action {A} (m : M A) : Prop :=
  exists r, forall w, m w = mkOut r w [].

(** An action that at most reads the clock. *)
Definition clock_only {A} (m : M A) : Prop :=
  forall w, exists r t, m w = mkOut r (set_ticks t w) [] /\ ticks w <= t.

(** An action that at most reads the clock and replaces the manifest file,
    and that replaces the file only when it returns and the file can be
    written. *)
Definition manifest_local {A} (m : M A) : Prop :=
  forall w, exists r mf t,
    m w = mkOut r (set_manifest_file mf (set_ticks t w)) []
    /\ ticks w <= t
    /\ (forall e, r = Raise e -> mf = manifest_file w)
    /\ (manifest_writable w = false -> mf = manifest_file w).

(** What a run started in state [w] may do to the outside world: ask for
    the latest release of the fixed repository; retrieve an executable
    asset of the release it was given to the path [os.path.join] makes of
    the storage folder and the asset's name, which is the file of that
    name in [<APPDATA>\GitHubReleaseDownloader\downloads] when the name is a
    plain file name and [APPDATA] a folder path that ends neither in a
    separator nor in a colon; delete or create its own task or the task of
    such an asset; and report counters that add up to the number of these
    assets. *)
Definition allowed (w : World) (e : Event) : Prop :=
  match e with
  | EvUrlopen url _ =>
      url = "https://api.github.com/repos/YashasSingh/cybersecurity/releases/latest"
  | EvUrlretrieve url dest _ =>
      exists r a,
        fetched w = Some r /\ In a (assets r) /\ is_exe a = true /\
        url = browser_download_url a /\
        dest = Str.path_join (storage_of w) (name a) /\
        (Str.joinable (appdata w) = true ->
         Str.plain_name (name a) = true ->
         dest = (appdata w ++ "\GitHubReleaseDownloader\downloads\"
                 ++ name a)%string)
  | EvSchtasks cmd =>
      exists task,
        (cmd = delete_cmd task \/
         exists action args, cmd = create_cmd task action args) /\
        (task = "GitHubReleaseDownloader" \/
         exists r a, fetched w = Some r /\ In a (assets r) /\
                     is_exe a = true /\ task = task_name_of (name a))
  | EvSummary s k f =>
      exists r, fetched w = Some r /\ s + k + f = length (qualifying r)
  end.

(** The world with another scheduler. *)
Definition set_schtasks (s : list string -> Result Z) (w : World) : World :=
  mkWorld (appdata w) (self_path w) (fs w) (manifest_file w)
    (manifest_writable w) (log_folder_ok w) (storage_folder_ok w)
    (default_ctx_ok w) (unverified_ctx_ok w) (opener w) (net_release w)
    (net_file w) (net_partial w) s (clock w) (ticks w).

(** The world in which the manifest file can, or cannot, be written. *)
Definition set_manifest_writable (b : bool) (w : World) : World :=
  mkWorld (appdata w) (self_path w) (fs w) (manifest_file w) b
    (log_folder_ok w) (storage_folder_ok w) (default_ctx_ok w)
    (unverified_ctx_ok w) (opener w) (net_release w) (net_file w)
    (net_partial w) (schtasks w) (clock w) (ticks w).

(** [w'] is [w] with another scheduler, another answer to whether the
    manifest file can be written, and another clock position. *)
Definition rescheduled (w w' : World) : Prop :=
  exists s b t, w' = set_manifest_writable b (set_schtasks s (set_ticks t w)).

(** The events of a trace that are not runs of [schtasks]. *)
Definition is_schtasks (e : Event) : bool :=
  match e with
  | EvSchtasks _ => true
  | _ => false
  end.

Definition non_scheduler_events (tr : list Event) : list Event :=
  filter (fun e => negb (is_schtasks e)) tr.

(** The exception a result carries, if any. *)
Definition error_of {A} (r : Result A) : option Exn :=
  match r with
  | Ret _ => None
  | Raise e => Some e
  end.

(** What recording a file entry in manifest [m] raises. *)
Definition files_error (m : json) : option Exn :=
  match m with
  | JObj kvs =>
      match Py.dict_get kvs "files" with
      | Some (JObj _) => None
      | Some _ => Some TypeError
      | None => Some KeyError
      end
  | _ => Some TypeError
  end.

(** What stands behind the last separator of a path (all of it when there
    is none). *)
Fixpoint after_last_sep (s : string) : string :=
  match s with
  | EmptyString => EmptyString
  | String c t =>
      if Str.has_sep t then after_last_sep t
      else if Str.is_sep c then t
      else String c t
  end.

(** * Properties *)

(** ** Schedule resolution *)

Lemma first_keyword_split (fl : string) (pre post : list (string * string))
    (k d : string) :
  Str.contains k fl = true ->
  (forall k' d', In (k', d') pre -> Str.contains k' fl = false) ->
  first_keyword fl (pre ++ (k, d) :: post) = Some d.
Proof.
  intros Hk Hpre. induction pre as [|[k' d'] pre IH]; simpl.
  - now rewrite Hk.
  - rewrite (Hpre k' d') by (left; reflexivity).
    apply IH. intros k'' d'' Hin. apply (Hpre k'' d''). now right.
Qed.

Lemma first_keyword_none (fl : string) (items : list (string * string)) :
  (forall k d, In (k, d) items -> Str.contains k fl = false) ->
  first_keyword fl items = None.
Proof.
  induction items as [|[k d] items IH]; simpl; intros H.
  - reflexivity.
  - rewrite (H k d) by (left; reflexivity).
    apply IH. intros k' d' Hin. apply (H k' d'). now right.
Qed.

(** C3: the table lists its fifteen keywords in the fixed order; a file name
    resolves to the description of the first table entry whose keyword its
    lower-cased form contains, whatever other keywords it contains and
    wherever they stand in the name; with "usb" and "wifi" both present (and
    no keyword listed before "wifi") the answer is the wifi entry, "Every 4
    Hours"; a name containing no keyword resolves to nothing. *)
Theorem find_schedule_table_order :
  map fst load_keyword_mappings = keyword_order /\
  (forall filename pre k d post,
      load_keyword_mappings = pre ++ (k, d) :: post ->
      mentions filename k = true ->
      (forall k' d', In (k', d') pre -> mentions filename k' = false) ->
      find_schedule filename = Some d) /\
  (forall filename,
      mentions filename "usb" = true ->
      mentions filename "wifi" = true ->
      (forall k' d', In (k', d') (firstn 8 load_keyword_mappings) ->
                     mentions filename k' = false) ->
      find_schedule filename = Some "Every 4 Hours") /\
  (forall filename,
      (forall k d, In (k, d) load_keyword_mappings ->
                   mentions filename k = false) ->
      find_schedule filename = None).
Proof.
  repeat split.
  - intros filename pre k d post Htab Hk Hpre.
    unfold find_schedule. rewrite Htab.
    now apply first_keyword_split.
  - intros filename _ Hwifi Hpre.
    unfold find_schedule.
    change load_keyword_mappings with
      (firstn 8 load_keyword_mappings
       ++ ("wifi", "Every 4 Hours") :: skipn 9 load_keyword_mappings).
    now apply first_keyword_split.
  - intros filename Hnone. unfold find_schedule.
    now apply first_keyword_none.
Qed.


(** ** Schedule translation *)

Ltac phrase_absent H p :=
  let Hp := fresh "Hp" in
  assert (Hp : Str.contains p (str_lower _) = false)
    by (apply H; simpl; tauto);
  rewrite Hp; clear Hp.

(** C5: "Weekly (Sunday 3 AM)" is translated to the weekly/Sunday/03:00
    arguments, in every state and without touching it; a description that
    contains none of the recognised phrases gets the default daily 08:00
    arguments; and the translation is the first rule, in the fixed order,
    one of whose phrases occurs in the lower-cased description. *)
Theorem parse_schedule_to_cmd_rules :
  (forall w,
      parse_schedule_to_cmd "Weekly (Sunday 3 AM)" w
      = mkOut (Ret ["/SC"; "WEEKLY"; "/D"; "SUN"; "/ST"; "03:00"]) w []) /\
  (forall schedule w,
      matches_no_pattern schedule ->
      parse_schedule_to_cmd schedule w
      = mkOut (Ret ["/SC"; "DAILY"; "/ST"; "08:00"]) w []) /\
  (forall schedule w,
      parse_schedule_to_cmd schedule w
      = first_rule schedule_rules (str_lower schedule) w).
Proof.
  split; [|split].
  - intros w. unfold parse_schedule_to_cmd.
    rewrite (@str_lower_ascii U "Weekly (Sunday 3 AM)" eq_refl).
    reflexivity.
  - intros schedule w H. unfold parse_schedule_to_cmd.
    phrase_absent H "at logon". phrase_absent H "at system startup".
    phrase_absent H "boot". phrase_absent H "weekly".
    phrase_absent H "monthly". phrase_absent H "every 4 hours".
    phrase_absent H "every 1 hour". phrase_absent H "every hour".
    phrase_absent H "once". phrase_absent H "12:00 pm".
    phrase_absent H "12:00pm". phrase_absent H "4:00 am".
    phrase_absent H "4:00am". phrase_absent H "6:00 pm".
    phrase_absent H "6:00pm". reflexivity.
  - intros schedule w.
    unfold parse_schedule_to_cmd, schedule_rules, first_rule, weekly_args,
      existsb.
    repeat match goal with
           | |- context [Str.contains ?p (str_lower schedule)] =>
               destruct (Str.contains p (str_lower schedule)); simpl;
               try reflexivity
           end.
Qed.


(** ** The monad *)

Lemma out_eta {A} (o : Out A) : o = mkOut (result o) (after o) (trace o).
Proof. now destruct o. Qed.

Lemma out_Ret_inj {A} (a a' : A) (w w' : World) (t t' : list Event) :
  mkOut (Ret a) w t = mkOut (Ret a') w' t' -> a = a' /\ w = w' /\ t = t'.
Proof. intros H. now inversion H. Qed.

Lemma bind_out_Ret {A B} (m : M A) (f : A -> M B) (w w1 w2 : World) (a : A)
    (r : Result B) (t1 t2 : list Event) :
  m w = mkOut (Ret a) w1 t1 ->
  f a w1 = mkOut r w2 t2 ->
  bind m f w = mkOut r w2 (t1 ++ t2).
Proof. intros H1 H2. unfold bind. now rewrite H1, H2. Qed.

Lemma bind_out_Raise {A B} (m : M A) (f : A -> M B) (w w1 : World) (e : Exn)
    (t1 : list Event) :
  m w = mkOut (Raise e) w1 t1 ->
  bind m f w = mkOut (Raise e) w1 t1.
Proof. intros H. unfold bind. now rewrite H. Qed.

Lemma bind_silent {A B} (m : M A) (f : A -> M B) (w w1 : World) (a : A) :
  m w = mkOut (Ret a) w1 [] ->
  bind m f w = f a w1.
Proof.
  intros H. unfold bind. rewrite H. now destruct (f a w1).
Qed.

Lemma try_out_Ret {A} (body : M A) (h : Exn -> option (M A)) (w w1 : World)
    (a : A) (t1 : list Event) :
  body w = mkOut (Ret a) w1 t1 ->
  try_except body h w = mkOut (Ret a) w1 t1.
Proof. intros H. unfold try_except. now rewrite H. Qed.

Lemma try_out_Raise {A} (body : M A) (h : Exn -> option (M A)) (k : M A)
    (w w1 w2 : World) (e : Exn) (r : Result A) (t1 t2 : list Event) :
  body w = mkOut (Raise e) w1 t1 ->
  h e = Some k ->
  k w1 = mkOut r w2 t2 ->
  try_except body h w = mkOut r w2 (t1 ++ t2).
Proof. intros H Hh Hk. unfold try_except. now rewrite H, Hh, Hk. Qed.

Lemma try_except_Exception_out {A} (body : M A) (a : A) (w w1 : World)
    (r : Result A) (tr : list Event) :
  body w = mkOut r w1 tr ->
  try_except body (except_Exception (ret a)) w
  = mkOut (Ret (match r with Ret b => b | Raise _ => a end)) w1 tr.
Proof.
  intros H. unfold try_except. rewrite H.
  destruct r; cbn; rewrite ?app_nil_r; reflexivity.
Qed.

Lemma bind_current_executable {B} (f : string -> M B) (w : World) :
  bind current_executable f w = f (self_path w) w.
Proof.
  unfold bind, current_executable. now destruct (f (self_path w) w).
Qed.

(** ** TLS contexts and the two network operations *)

Lemma create_ssl_context_eq (w : World) :
  create_ssl_context w
  = mkOut (Ret (if default_ctx_ok w then Some Verified
                else if unverified_ctx_ok w then Some Unverified
                else None)) w [].
Proof.
  unfold create_ssl_context, try_except, bind, ssl_create_default_context,
    ssl_create_unverified_context, except_Exception.
  destruct (default_ctx_ok w) eqn:Hd; destruct (unverified_ctx_ok w) eqn:Hu;
    cbn; rewrite ?Hd, ?Hu; cbn; rewrite ?Hd, ?Hu; reflexivity.
Qed.

Ltac munfold :=
  unfold try_except, bind, ret, raise, emit, except_Exception,
    except_URLError_SSLError, urlopen_json, urlretrieve, install_opener,
    subprocess_run, path_exists, ssl_create_default_context,
    ssl_create_unverified_context, datetime_now, opener_ctx in *.

Ltac break_world w :=
  destruct w as [ad sp files mf mw lok sok dok uok op nr nf np st ck tk].

(** [fetch_latest_release] never raises and leaves the world as it was. *)
Lemma fetch_latest_release_eq (o r : string) (w : World) :
  let url := release_url o r in
  let c1 := first_attempt_ctx w in
  fetch_latest_release o r w
  = match net_release w url c1 with
    | Ret d => mkOut (Ret (Some d)) w [EvUrlopen url c1]
    | Raise e =>
        if is_url_or_ssl_error e && unverified_ctx_ok w then
          mkOut (Ret (match net_release w url Unverified with
                      | Ret d => Some d
                      | Raise _ => None
                      end)) w
            [EvUrlopen url c1; EvUrlopen url Unverified]
        else mkOut (Ret None) w [EvUrlopen url c1]
    end.
Proof.
  intros url c1. subst url c1. break_world w.
  unfold fetch_latest_release, first_attempt_ctx, opener_ctx.
  generalize (release_url o r). intros url.
  unfold create_ssl_context. munfold. cbn.
  destruct (nr url Verified) as [dv|ev] eqn:EV;
    destruct (nr url Unverified) as [du|eu] eqn:EU;
    destruct dok, uok; try destruct op as [[|]|]; cbn;
    rewrite ?EV, ?EU; cbn; try reflexivity;
    try destruct ev; try destruct eu; cbn; rewrite ?EV, ?EU; cbn;
    reflexivity.
Qed.

(** [download_file] never raises; it changes the installed opener and, on
    success, the set of existing files; a failed attempt may leave a file. *)
Lemma download_file_eq (url dest : string) (w : World) :
  let c1 := first_attempt_ctx w in
  let w1 := if default_ctx_ok w || unverified_ctx_ok w
            then set_opener (Some c1) w else w in
  let fs1 := if net_partial w url c1 then dest :: fs w else fs w in
  download_file url dest w
  = match net_file w url c1 with
    | Ret _ =>
        mkOut (Ret true) (set_fs (dest :: fs w) w1)
          [EvUrlretrieve url dest c1]
    | Raise e =>
        if is_url_or_ssl_error e && unverified_ctx_ok w then
          match net_file w url Unverified with
          | Ret _ =>
              mkOut (Ret true)
                (set_fs (dest :: fs1) (set_opener (Some Unverified) w1))
                [EvUrlretrieve url dest c1; EvUrlretrieve url dest Unverified]
          | Raise _ =>
              mkOut (Ret false)
                (set_fs (if net_partial w url Unverified
                         then dest :: fs1 else fs1)
                   (set_opener (Some Unverified) w1))
                [EvUrlretrieve url dest c1; EvUrlretrieve url dest Unverified]
          end
        else mkOut (Ret false) (set_fs fs1 w1) [EvUrlretrieve url dest c1]
    end.
Proof.
  intros c1 w1 fs1. subst c1 w1 fs1. break_world w.
  unfold download_file, first_attempt_ctx, create_ssl_context.
  munfold. cbn.
  destruct (nf url Verified) as [dv|ev] eqn:EV;
    destruct (nf url Unverified) as [du|eu] eqn:EU;
    destruct (np url Verified) eqn:PV;
    destruct (np url Unverified) eqn:PU;
    destruct dok, uok; try destruct op as [[|]|]; cbn;
    rewrite ?EV, ?EU, ?PV, ?PU; cbn; try reflexivity;
    try destruct ev; try destruct eu; cbn;
    rewrite ?EV, ?EU, ?PV, ?PU; cbn; rewrite ?EV, ?EU, ?PV, ?PU; cbn;
    reflexivity.
Qed.


(** C4 (amended): when the TLS contexts can be built, a fetch and a download
    make their first attempt with the certificate-checking context; a first
    attempt that succeeds is the only one; a first attempt that fails with a
    transport or certificate error is followed by exactly one attempt with
    the non-checking context, whose success is the operation's success
    (after two attempts) and whose failure makes the operation report
    failure ([None], [False]) without raising; any other failure of the first
    attempt is reported as failure at once. *)
Theorem network_retry_policy (w : World) (url dest : string) :
  default_ctx_ok w = true ->
  unverified_ctx_ok w = true ->
  ((exists rest,
       trace (fetch_latest_release owner repo w)
       = EvUrlopen (release_url owner repo) Verified :: rest) /\
   (forall r,
       net_release w (release_url owner repo) Verified = Ret r ->
       result (fetch_latest_release owner repo w) = Ret (Some r) /\
       trace (fetch_latest_release owner repo w)
       = [EvUrlopen (release_url owner repo) Verified]) /\
   (forall e,
       net_release w (release_url owner repo) Verified = Raise e ->
       is_url_or_ssl_error e = true ->
       trace (fetch_latest_release owner repo w)
       = [EvUrlopen (release_url owner repo) Verified;
          EvUrlopen (release_url owner repo) Unverified] /\
       (forall r,
           net_release w (release_url owner repo) Unverified = Ret r ->
           result (fetch_latest_release owner repo w) = Ret (Some r)) /\
       (forall e',
           net_release w (release_url owner repo) Unverified = Raise e' ->
           result (fetch_latest_release owner repo w) = Ret None)) /\
   (forall e,
       net_release w (release_url owner repo) Verified = Raise e ->
       is_url_or_ssl_error e = false ->
       result (fetch_latest_release owner repo w) = Ret None /\
       trace (fetch_latest_release owner repo w)
       = [EvUrlopen (release_url owner repo) Verified]))
  /\
  ((exists rest,
       trace (download_file url dest w)
       = EvUrlretrieve url dest Verified :: rest) /\
   (net_file w url Verified = Ret tt ->
       result (download_file url dest w) = Ret true /\
       trace (download_file url dest w) = [EvUrlretrieve url dest Verified]) /\
   (forall e,
       net_file w url Verified = Raise e ->
       is_url_or_ssl_error e = true ->
       trace (download_file url dest w)
       = [EvUrlretrieve url dest Verified; EvUrlretrieve url dest Unverified] /\
       (net_file w url Unverified = Ret tt ->
           result (download_file url dest w) = Ret true) /\
       (forall e',
           net_file w url Unverified = Raise e' ->
           result (download_file url dest w) = Ret false)) /\
   (forall e,
       net_file w url Verified = Raise e ->
       is_url_or_ssl_error e = false ->
       result (download_file url dest w) = Ret false /\
       trace (download_file url dest w) = [EvUrlretrieve url dest Verified])).
Proof.
  intros Hd Hu. split.
  - pose proof (fetch_latest_release_eq owner repo w) as E. cbv zeta in E.
    unfold first_attempt_ctx in E. rewrite Hd, Hu in E.
    generalize dependent (release_url owner repo). intros furl E.
    repeat split; try intros r Hr.
    + rewrite E. destruct (net_release w furl Verified) as [r|e];
        [|destruct (is_url_or_ssl_error e)]; cbn; eexists; reflexivity.
    + rewrite E, H. reflexivity.
    + rewrite E, H. reflexivity.
    + rewrite E, H, H0. reflexivity.
    + rewrite E, H, H0, Hr. reflexivity.
    + rewrite E, H, H0, Hr. reflexivity.
    + rewrite E, H, H0. reflexivity.
    + rewrite E, H, H0. reflexivity.
  - pose proof (download_file_eq url dest w) as E. cbv zeta in E.
    unfold first_attempt_ctx in E. rewrite Hd, Hu in E. cbn [orb] in E.
    repeat split; try intros r Hr; try intros Hr.
    + rewrite E. destruct (net_file w url Verified) as [r|e];
        [|destruct (is_url_or_ssl_error e);
          [destruct (net_file w url Unverified)|]]; cbn; eexists; reflexivity.
    + rewrite E, H. reflexivity.
    + rewrite E, H. reflexivity.
    + rewrite E, H, H0. cbn.
      destruct (net_file w url Unverified); reflexivity.
    + rewrite E, H, H0, Hr. reflexivity.
    + rewrite E, H, H0, Hr. reflexivity.
    + rewrite E, H, H0. reflexivity.
    + rewrite E, H, H0. reflexivity.
Qed.


(** ** Framing: what an operation leaves alone *)

Lemma touch_same (w : World) : touch (fs w) (opener w) (ticks w) w = w.
Proof. now destruct w. Qed.

Lemma touch_touch (l l' : list string) (o o' : option Ctx) (t t' : nat)
    (w : World) :
  touch l' o' t' (touch l o t w) = touch l' o' t' w.
Proof. reflexivity. Qed.

Lemma set_ticks_touch (w : World) (t : nat) :
  set_ticks t w = touch (fs w) (opener w) t w.
Proof. now destruct w. Qed.

(** ** The scheduler side *)

Lemma parse_schedule_to_cmd_spec (s : string) (w : World) :
  exists args t,
    parse_schedule_to_cmd s w = mkOut (Ret args) (set_ticks t w) []
    /\ ticks w <= t.
Proof.
  assert (Hw : forall a : list string,
             mkOut (Ret a) w [] = mkOut (Ret a) (set_ticks (ticks w) w) [])
    by (intros a; now destruct w).
  unfold parse_schedule_to_cmd.
  repeat match goal with
         | |- context [Str.contains ?p (str_lower s)] =>
             destruct (Str.contains p (str_lower s)); cbn [orb]
         end;
    try (eexists; exists (ticks w); split; [apply (Hw _) | lia]).
  all: eexists; exists (S (ticks w)); split; [reflexivity | lia].
Qed.

Lemma only_schtasks_app (t1 t2 : list Event) :
  only_schtasks t1 -> only_schtasks t2 -> only_schtasks (t1 ++ t2).
Proof.
  intros H1 H2 e Hin. apply in_app_or in Hin. destruct Hin; auto.
Qed.

Lemma only_schtasks_nil : only_schtasks [].
Proof. intros e []. Qed.

Lemma only_schtasks_one (cmd : list string) : only_schtasks [EvSchtasks cmd].
Proof. intros e [<-|[]]. now exists cmd. Qed.

(** [create_scheduled_task] never raises; it may advance the clock (the
    ['once'] schedule) and only runs [schtasks]. *)
Lemma create_scheduled_task_spec (p n : string) (s : option string)
    (w : World) :
  exists b t tr,
    create_scheduled_task p n s w = mkOut (Ret b) (set_ticks t w) tr
    /\ ticks w <= t /\ only_schtasks tr.
Proof.
  assert (Hw : set_ticks (ticks w) w = w) by now destruct w.
  unfold create_scheduled_task.
  set (del := ["schtasks"; "/Delete"; "/TN"; n; "/F"]).
  assert (Hargs : exists args t,
             (match truthy s with
              | Some s' => parse_schedule_to_cmd s'
              | None => ret default_args
              end) w = mkOut (Ret args) (set_ticks t w) [] /\ ticks w <= t).
  { destruct (truthy s) as [s'|].
    - apply parse_schedule_to_cmd_spec.
    - exists default_args, (ticks w). rewrite Hw. split; [reflexivity|lia]. }
  destruct Hargs as (args & t & Hargs & Hle).
  destruct (schtasks w del) as [z|e] eqn:Edel.
  - set (cmd := ["schtasks"; "/Create"; "/TN"; n; "/TR";
                 (Str.dquote ++ p ++ Str.dquote)%string] ++ args ++ ["/F"]).
    assert (Hst : schtasks (set_ticks t w) cmd = schtasks w cmd)
      by now destruct w.
    destruct (schtasks w cmd) as [rc|e] eqn:Ecmd.
    + exists (Z.eqb rc 0), t. eexists. split; [|split; [exact Hle|]].
      * apply try_out_Ret.
        eapply bind_out_Ret;
          [unfold subprocess_run; rewrite Edel; reflexivity|].
        eapply bind_out_Ret; [exact Hargs|].
        eapply bind_out_Ret;
          [unfold subprocess_run; fold cmd; rewrite Hst; reflexivity
          |reflexivity].
      * repeat apply only_schtasks_app;
          first [apply only_schtasks_one | apply only_schtasks_nil].
    + exists false, t. eexists. split; [|split; [exact Hle|]].
      * eapply try_out_Raise; [| reflexivity | reflexivity].
        eapply bind_out_Ret;
          [unfold subprocess_run; rewrite Edel; reflexivity|].
        eapply bind_out_Ret; [exact Hargs|].
        eapply bind_out_Raise.
        unfold subprocess_run; fold cmd; rewrite Hst; reflexivity.
      * repeat apply only_schtasks_app;
          first [apply only_schtasks_one | apply only_schtasks_nil].
  - exists false, (ticks w). eexists. rewrite Hw.
    split; [|split; [lia|]].
    + eapply try_out_Raise; [| reflexivity | reflexivity].
      eapply bind_out_Raise.
      unfold subprocess_run; rewrite Edel; reflexivity.
    + repeat apply only_schtasks_app;
        first [apply only_schtasks_one | apply only_schtasks_nil].
Qed.

(** [schedule_self] never raises and leaves the world as it was. *)
Lemma schedule_self_spec (w : World) :
  exists b tr, schedule_self w = mkOut (Ret b) w tr /\ only_schtasks tr.
Proof.
  unfold schedule_self.
  match goal with
  | |- context [try_except ?body _ _] =>
      assert (Hbody : exists r tr, body w = mkOut r w tr /\ only_schtasks tr)
  end.
  { rewrite bind_current_executable. cbv zeta.
    set (del := ["schtasks"; "/Delete"; "/TN"; self_task_name; "/F"]).
    match goal with
    | |- context [bind (subprocess_run del)
                    (fun _ => bind (subprocess_run ?c) _)] =>
        set (cmd := c)
    end.
    destruct (schtasks w del) as [z|e] eqn:Edel.
    - destruct (schtasks w cmd) as [rc|e] eqn:Ecmd.
      + eexists. eexists. split.
        * eapply bind_out_Ret;
            [unfold subprocess_run; rewrite Edel; reflexivity|].
          eapply bind_out_Ret;
            [unfold subprocess_run; rewrite Ecmd; reflexivity|reflexivity].
        * repeat apply only_schtasks_app;
            first [apply only_schtasks_one | apply only_schtasks_nil].
      + eexists. eexists. split.
        * eapply bind_out_Ret;
            [unfold subprocess_run; rewrite Edel; reflexivity|].
          eapply bind_out_Raise.
          unfold subprocess_run; rewrite Ecmd; reflexivity.
        * repeat apply only_schtasks_app;
            first [apply only_schtasks_one | apply only_schtasks_nil].
    - eexists. eexists. split.
      + eapply bind_out_Raise.
        unfold subprocess_run; rewrite Edel; reflexivity.
      + apply only_schtasks_one. }
  destruct Hbody as (r & tr & Hbody & Htr).
  eexists. exists tr. split; [|exact Htr].
  eapply try_except_Exception_out. exact Hbody.
Qed.

(** ** The download loop *)

(** [download_file] returns a boolean; it runs no [schtasks]; it removes no
    file and creates none but the destination, which exists after a
    success (and may exist, incomplete, after a failure). *)
Lemma download_file_spec (url dest : string) (w : World) :
  exists (b : bool) files o tr,
    download_file url dest w
    = mkOut (Ret b) (touch files o (ticks w) w) tr
    /\ no_schtasks tr
    /\ incl (fs w) files
    /\ (forall p, In p files -> p = dest \/ In p (fs w))
    /\ (b = true -> In dest files).
Proof.
  rewrite download_file_eq. cbv zeta.
  assert (Hns1 : forall c, no_schtasks [EvUrlretrieve url dest c])
    by (intros c cmd [H|[]]; discriminate H).
  assert (Hns2 : forall c c', no_schtasks [EvUrlretrieve url dest c;
                                           EvUrlretrieve url dest c'])
    by (intros c c' cmd [H|[H|[]]]; discriminate H).
  set (o1 := if default_ctx_ok w || unverified_ctx_ok w
             then Some (first_attempt_ctx w) else opener w).
  assert (Hw1 : (if default_ctx_ok w || unverified_ctx_ok w
                 then set_opener (Some (first_attempt_ctx w)) w else w)
                = touch (fs w) o1 (ticks w) w).
  { subst o1. destruct (default_ctx_ok w || unverified_ctx_ok w);
      destruct w; reflexivity. }
  rewrite Hw1.
  assert (Hfiles : forall l, incl (fs w) l ->
            (forall p, In p l -> p = dest \/ In p (fs w)) ->
            incl (fs w) (dest :: l)
            /\ (forall p, In p (dest :: l) -> p = dest \/ In p (fs w))).
  { intros l Hi Ho. split.
    - intros p Hp. right. now apply Hi.
    - intros p [<-|Hp]; [now left|now apply Ho]. }
  assert (H0 : incl (fs w) (fs w)
               /\ (forall p, In p (fs w) -> p = dest \/ In p (fs w)))
    by (split; [apply incl_refl|intros p Hp; now right]).
  set (fs1 := if net_partial w url (first_attempt_ctx w)
              then dest :: fs w else fs w).
  assert (H1 : incl (fs w) fs1
               /\ (forall p, In p fs1 -> p = dest \/ In p (fs w))).
  { subst fs1. destruct (net_partial w url (first_attempt_ctx w));
      [apply Hfiles; apply H0|exact H0]. }
  destruct (net_file w url (first_attempt_ctx w)) as [[]|e].
  - exists true, (dest :: fs w), o1. eexists.
    split; [reflexivity|]. split; [apply Hns1|].
    destruct (Hfiles (fs w) (proj1 H0) (proj2 H0)) as [Ha Hb].
    repeat split; [exact Ha|exact Hb|intros _; now left].
  - destruct (is_url_or_ssl_error e && unverified_ctx_ok w).
    + destruct (net_file w url Unverified) as [[]|e'].
      * exists true, (dest :: fs1), (Some Unverified). eexists.
        split; [reflexivity|]. split; [apply Hns2|].
        destruct (Hfiles fs1 (proj1 H1) (proj2 H1)) as [Ha Hb].
        repeat split; [exact Ha|exact Hb|intros _; now left].
      * exists false, (if net_partial w url Unverified
                       then dest :: fs1 else fs1), (Some Unverified).
        eexists.
        split; [reflexivity|]. split; [apply Hns2|].
        destruct (net_partial w url Unverified).
        -- destruct (Hfiles fs1 (proj1 H1) (proj2 H1)) as [Ha Hb].
           repeat split; [exact Ha|exact Hb|discriminate].
        -- repeat split; [apply H1|apply H1|discriminate].
    + exists false, fs1, o1. eexists.
      split; [reflexivity|]. split; [apply Hns1|].
      repeat split; [apply H1|apply H1|discriminate].
Qed.

Lemma no_schtasks_app_nil (tr : list Event) :
  no_schtasks tr -> no_schtasks ([] ++ tr ++ []).
Proof. intros H. cbn. now rewrite app_nil_r. Qed.

(** One turn of the loop: it returns, updates the matching counter, removes
    no file and creates none but the asset's own, leaves the files as they
    are when the asset is skipped, has the asset's file in place after a
    download, and runs no [schtasks] for a failure. *)
Lemma process_asset_spec (st : string) (a : Asset) (c : Counts) (w : World) :
  exists files o t tr,
    process_asset st a c w
    = mkOut (Ret (count (asset_outcome st a w) c)) (touch files o t w) tr
    /\ ticks w <= t
    /\ (asset_outcome st a w = Failed -> no_schtasks tr /\ t = ticks w)
    /\ incl (fs w) files
    /\ (forall p, In p files -> p = destination_of st a \/ In p (fs w))
    /\ (asset_outcome st a w = Downloaded -> In (destination_of st a) files)
    /\ (asset_outcome st a w = Skipped -> files = fs w).
Proof.
  unfold process_asset, asset_outcome, download_ok, file_present.
  fold (destination_of st a).
  set (dest := destination_of st a).
  destruct (existsb (String.eqb dest) (fs w)) eqn:Hex.
  - destruct (create_scheduled_task_spec dest (task_name_of (name a))
                (find_schedule (name a)) w) as (b & t & tr & Hc & Hle & _).
    exists (fs w), (opener w), t. eexists.
    split; [|split; [exact Hle|split; [discriminate|]]].
    + eapply bind_out_Ret;
        [unfold path_exists; rewrite Hex; reflexivity|].
      eapply bind_out_Ret; [exact Hc|].
      rewrite set_ticks_touch. reflexivity.
    + repeat split; [apply incl_refl|intros p Hp; now right|discriminate].
  - destruct (download_file_spec (browser_download_url a) dest w)
      as (b & files & o & tr & Hd & Hns & Hincl & Honly & Hdest).
    rewrite Hd. cbn [result].
    destruct b.
    + set (w1 := touch files o (ticks w) w) in *.
      destruct (create_scheduled_task_spec dest (task_name_of (name a))
                  (find_schedule (name a)) w1)
        as (b & t & tr' & Hc & Hle & _).
      exists files, o, t. eexists.
      split; [|split; [exact Hle|split; [discriminate|]]].
      * eapply bind_out_Ret;
          [unfold path_exists; rewrite Hex; reflexivity|].
        eapply bind_out_Ret; [exact Hd|].
        eapply bind_out_Ret; [exact Hc|].
        reflexivity.
      * repeat split; [exact Hincl|exact Honly|now intros _; apply Hdest
                      |discriminate].
    + exists files, o, (ticks w). eexists.
      split; [|split; [lia|split]].
      * eapply bind_out_Ret;
          [unfold path_exists; rewrite Hex; reflexivity|].
        eapply bind_out_Ret; [exact Hd|]. reflexivity.
      * intros _. split; [|reflexivity]. now apply no_schtasks_app_nil.
      * repeat split; [exact Hincl|exact Honly|discriminate|discriminate].
Qed.

Lemma file_present_In (p : string) (w : World) :
  file_present p w = true -> In p (fs w).
Proof.
  unfold file_present. intros H. apply existsb_exists in H.
  destruct H as (x & Hin & Heq). apply String.eqb_eq in Heq. now subst x.
Qed.

Lemma In_file_present (p : string) (w : World) :
  In p (fs w) -> file_present p w = true.
Proof.
  intros H. unfold file_present. apply existsb_exists.
  exists p. split; [exact H|apply String.eqb_refl].
Qed.

Lemma total_count (o : Outcome) (c : Counts) : total (count o c) = S (total c).
Proof. destruct o; unfold total; cbn; lia. Qed.

(** The loop returns for every list of assets: each asset is counted
    exactly once, files are only added, and when no failure is counted
    every asset's file exists afterwards. *)
Lemma download_assets_spec (st : string) (l : list Asset) :
  forall (c : Counts) (w : World),
  exists c' files o t tr,
    download_assets st l c w = mkOut (Ret c') (touch files o t w) tr
    /\ total c' = total c + length l
    /\ ticks w <= t
    /\ incl (fs w) files
    /\ failed c <= failed c'
    /\ (failed c' = failed c ->
        forall a, In a l -> In (destination_of st a) files).
Proof.
  induction l as [|a l IH]; intros c w.
  - exists c, (fs w), (opener w), (ticks w), [].
    rewrite touch_same. repeat split; try lia.
    + cbn. lia.
    + apply incl_refl.
    + intros _ a [].
  - destruct (process_asset_spec st a c w)
      as (f1 & o1 & t1 & tr1 & Hp & Hle1 & _ & Hi1 & _ & Hd1 & Hs1).
    set (w1 := touch f1 o1 t1 w) in Hp.
    destruct (IH (count (asset_outcome st a w) c) w1)
      as (c' & files & o & t & tr & Hl & Htot & Hle & Hincl & Hf & Hall).
    exists c', files, o, t. eexists.
    split; [|repeat split].
    + cbn [download_assets]. eapply bind_out_Ret; [exact Hp|].
      rewrite Hl. subst w1. rewrite touch_touch. reflexivity.
    + rewrite Htot, total_count. cbn. lia.
    + subst w1. cbn in Hle. lia.
    + intros p Hin. apply Hincl. subst w1. cbn. now apply Hi1.
    + destruct (asset_outcome st a w); cbn in Hf; lia.
    + intros Heq b [<-|Hin].
      * apply Hincl. subst w1. cbn.
        destruct (asset_outcome st a w) eqn:Ho.
        -- apply Hi1. unfold asset_outcome in Ho.
           destruct (file_present (destination_of st a) w) eqn:Hpres;
             [now apply file_present_In|].
           destruct (download_ok _ _ w); discriminate Ho.
        -- now apply Hd1.
        -- cbn in Hf. lia.
      * apply Hall; [|exact Hin].
        destruct (asset_outcome st a w); cbn in Hf |- *; lia.
Qed.



(** ** The manifest *)

Lemma load_manifest_eq (w : World) :
  load_manifest w = mkOut (Ret (loaded (manifest_file w))) w [].
Proof.
  unfold load_manifest, bind, manifest_exists, try_except, json_load_manifest,
    except_Exception, ret, raise.
  destruct (manifest_file w) eqn:E; cbn; rewrite ?E; reflexivity.
Qed.

Lemma save_manifest_eq (m : json) (w : World) :
  save_manifest m w
  = mkOut (Ret tt)
      (if manifest_writable w then set_manifest_file (Content m) w else w) [].
Proof.
  unfold save_manifest, try_except, write_manifest, except_Exception, ret,
    raise.
  destruct (manifest_writable w); reflexivity.
Qed.

Lemma dict_get_set_same (kvs : list (string * json)) (k : string) (v : json) :
  Py.dict_get (Py.dict_set kvs k v) k = Some v.
Proof.
  induction kvs as [|[k' v'] kvs IH]; cbn.
  - now rewrite String.eqb_refl.
  - destruct (String.eqb k' k) eqn:E; cbn; rewrite E; [reflexivity|exact IH].
Qed.

Lemma dict_get_set_other (kvs : list (string * json)) (k k0 : string)
    (v : json) :
  k0 <> k -> Py.dict_get (Py.dict_set kvs k v) k0 = Py.dict_get kvs k0.
Proof.
  intros Hne. induction kvs as [|[k' v'] kvs IH]; cbn.
  - destruct (String.eqb k k0) eqn:E; [|reflexivity].
    apply String.eqb_eq in E. congruence.
  - destruct (String.eqb k' k) eqn:E; cbn.
    + apply String.eqb_eq in E. subst k'.
      destruct (String.eqb k k0) eqn:E0; [|reflexivity].
      apply String.eqb_eq in E0. congruence.
    + destruct (String.eqb k' k0); [reflexivity|exact IH].
Qed.

Lemma dict_set_set (kvs : list (string * json)) (k : string) (v v' : json) :
  Py.dict_set (Py.dict_set kvs k v) k v' = Py.dict_set kvs k v'.
Proof.
  induction kvs as [|[k0 v0] kvs IH]; cbn.
  - now rewrite String.eqb_refl.
  - destruct (String.eqb k0 k) eqn:E; cbn; rewrite E; [reflexivity|].
    now rewrite IH.
Qed.

Lemma dict_set_same (kvs : list (string * json)) (k : string) (v : json) :
  Py.dict_get kvs k = Some v -> Py.dict_set kvs k v = kvs.
Proof.
  induction kvs as [|[k0 v0] kvs IH]; cbn; [discriminate|].
  destruct (String.eqb k0 k); intros H.
  - now inversion H.
  - f_equal. now apply IH.
Qed.

(** Writing the entries: the loop reads the clock once per asset and never
    raises when ["files"] holds an object. *)
Lemma record_files_eq (tag : string) (exe : list Asset) :
  forall (kvs fl : list (string * json)) (w : World),
    Py.dict_get kvs "files" = Some (JObj fl) ->
    record_files tag exe (JObj kvs) w
    = mkOut
        (Ret (JObj (Py.dict_set kvs "files"
                      (JObj (set_entries tag exe (clock w) (ticks w) fl)))))
        (set_ticks (ticks w + length exe) w) [].
Proof.
  induction exe as [|a exe IH]; intros kvs fl w Hfl.
  - cbn. unfold ret. rewrite (dict_set_same _ _ Hfl), Nat.add_0_r.
    now destruct w.
  - cbn [record_files]. etransitivity.
    { eapply bind_out_Ret; [reflexivity|].
      eapply bind_out_Ret;
        [unfold Py.getitem; rewrite Hfl; reflexivity|].
      eapply bind_out_Ret; [reflexivity|].
      cbn [Py.store]. apply IH. apply dict_get_set_same. }
    rewrite dict_set_set. cbn [set_entries length app].
    destruct w; unfold set_ticks; cbn. do 2 f_equal. lia.
Qed.

(** With nothing downloaded and nothing skipped the manifest is only read. *)
Lemma update_manifest_idle (tag : string) (exe : list Asset) (c : Counts)
    (w : World) :
  successful c = 0 -> skipped c = 0 ->
  update_manifest tag exe c w = mkOut (Ret tt) w [].
Proof.
  intros Hs Hk. unfold update_manifest.
  erewrite bind_silent by apply load_manifest_eq.
  rewrite Hs, Hk. reflexivity.
Qed.

(** The update on a manifest of the persisted format. *)
Lemma update_manifest_eq (tag : string) (exe : list Asset) (c : Counts)
    (w : World) (kvs : list (string * json)) (drs : list json)
    (fl : list (string * json)) :
  loaded (manifest_file w) = JObj kvs ->
  Py.dict_get kvs "downloaded_releases" = Some (JArr drs) ->
  Py.dict_get kvs "files" = Some (JObj fl) ->
  (0 <? successful c) || (0 <? skipped c) = true ->
  update_manifest tag exe c w
  = mkOut (Ret tt)
      (let m := JObj (Py.dict_set
                        (Py.dict_set kvs "downloaded_releases"
                           (JArr (add_release tag drs)))
                        "files"
                        (JObj (set_entries tag exe (clock w) (ticks w) fl))) in
       let w' := set_ticks (ticks w + length exe) w in
       if manifest_writable w then set_manifest_file (Content m) w' else w')
      [].
Proof.
  intros Hload Hdr Hfl Hpos. unfold update_manifest.
  erewrite bind_silent by apply load_manifest_eq.
  rewrite Hpos, Hload.
  erewrite bind_silent by (unfold Py.getitem; rewrite Hdr; reflexivity).
  erewrite bind_silent by reflexivity.
  assert (H1 : (if negb (existsb (Py.is_str tag) drs)
                then
                  bind (Py.getitem (JObj kvs) "downloaded_releases")
                    (fun releases =>
                       bind (Py.append releases (JStr tag))
                         (fun releases' =>
                            ret (Py.store (JObj kvs) "downloaded_releases"
                                   releases')))
                else ret (JObj kvs)) w
               = mkOut (Ret (JObj (Py.dict_set kvs "downloaded_releases"
                                     (JArr (add_release tag drs))))) w []).
  { unfold add_release.
    destruct (existsb (Py.is_str tag) drs); cbn [negb].
    - rewrite (dict_set_same _ _ Hdr). reflexivity.
    - erewrite bind_silent
        by (unfold Py.getitem; rewrite Hdr; reflexivity).
      erewrite bind_silent by reflexivity. reflexivity. }
  erewrite bind_silent by exact H1.
  erewrite bind_silent
    by (apply record_files_eq with (fl := fl);
        rewrite dict_get_set_other by discriminate; exact Hfl).
  rewrite save_manifest_eq. cbn. destruct w; reflexivity.
Qed.

(** What the written entries look like. *)
Lemma set_entries_other (tag : string) (exe : list Asset)
    (clk : nat -> datetime) (k : string) :
  forall (t : nat) (fl : list (string * json)),
    (forall a, In a exe -> name a <> k) ->
    Py.dict_get (set_entries tag exe clk t fl) k = Py.dict_get fl k.
Proof.
  induction exe as [|a exe IH]; intros t fl H; cbn; [reflexivity|].
  rewrite IH by (intros b Hb; apply H; now right).
  apply dict_get_set_other. intros ->. now apply (H a); [left|].
Qed.

Lemma set_entries_in (tag : string) (exe : list Asset)
    (clk : nat -> datetime) (k : string) :
  forall (t : nat) (fl : list (string * json)),
    (exists a, In a exe /\ name a = k) ->
    exists n, t <= n < t + length exe /\
              Py.dict_get (set_entries tag exe clk t fl) k
              = Some (file_entry tag (clk n)).
Proof.
  induction exe as [|a0 exe IH]; intros t fl (a & Hin & Hk);
    [contradiction|].
  cbn [set_entries length].
  destruct (existsb (fun b => String.eqb (name b) k) exe) eqn:Hex.
  - apply existsb_exists in Hex. destruct Hex as (b & Hb & Heq).
    apply String.eqb_eq in Heq.
    destruct (IH (S t) (Py.dict_set fl (name a0) (file_entry tag (clk t))))
      as (n & Hn & Hget); [now exists b|].
    exists n. split; [lia|exact Hget].
  - assert (Hrest : forall b, In b exe -> name b <> k).
    { intros b Hb Hbk.
      assert (Ht : existsb (fun b => String.eqb (name b) k) exe = true)
        by (apply existsb_exists; exists b; split;
            [exact Hb|now apply String.eqb_eq]).
      congruence. }
    destruct Hin as [<-|Hin]; [|now destruct (Hrest a Hin)].
    exists t. split; [lia|].
    rewrite set_entries_other by exact Hrest.
    rewrite Hk. apply dict_get_set_same.
Qed.

Lemma is_str_In (tag : string) (drs : list json) :
  existsb (Py.is_str tag) drs = true <-> In (JStr tag) drs.
Proof.
  rewrite existsb_exists. split.
  - intros (j & Hin & Hj). destruct j; try discriminate.
    cbn in Hj. apply String.eqb_eq in Hj. now subst.
  - intros Hin. exists (JStr tag). split; [exact Hin|].
    cbn. apply String.eqb_refl.
Qed.

Lemma add_release_In (tag : string) (drs : list json) :
  In (JStr tag) (add_release tag drs).
Proof.
  unfold add_release. destruct (existsb (Py.is_str tag) drs) eqn:E.
  - now apply is_str_In.
  - apply in_or_app. right. now left.
Qed.


(** C10 (amended): with nothing downloaded and nothing skipped the manifest
    file is left as it is.  Otherwise, when the loaded manifest has the
    persisted format, the update returns normally and hands to the
    best-effort save a manifest in which the release tag was appended to
    [downloaded_releases] only if absent, every qualifying asset has an
    entry with this tag and a clock reading of this run, and all other
    entries and keys are as before; when the file can be written, that is
    what it holds afterwards.  When the loaded manifest is not an object,
    or is an object without the key [downloaded_releases], the update
    raises and nothing is written. *)
Theorem update_manifest_effect :
  (forall tag exe c w,
      successful c + skipped c = 0 ->
      update_manifest tag exe c w = mkOut (Ret tt) w []) /\
  (forall tag exe c w kvs drs fl,
      loaded (manifest_file w) = JObj kvs ->
      Py.dict_get kvs "downloaded_releases" = Some (JArr drs) ->
      Py.dict_get kvs "files" = Some (JObj fl) ->
      0 < successful c + skipped c ->
      exists kvs' fl',
        result (update_manifest tag exe c w) = Ret tt
        /\ trace (update_manifest tag exe c w) = []
        /\ (manifest_writable w = true ->
            after (update_manifest tag exe c w)
            = set_manifest_file (Content (JObj kvs'))
                (set_ticks (ticks w + length exe) w))
        /\ Py.dict_get kvs' "downloaded_releases"
           = Some (JArr (add_release tag drs))
        /\ Py.dict_get kvs' "files" = Some (JObj fl')
        /\ (forall k, k <> "downloaded_releases" -> k <> "files" ->
                      Py.dict_get kvs' k = Py.dict_get kvs k)
        /\ (forall a, In a exe ->
                      exists n, ticks w <= n < ticks w + length exe /\
                                Py.dict_get fl' (name a)
                                = Some (file_entry tag (clock w n)))
        /\ (forall k, (forall a, In a exe -> name a <> k) ->
                      Py.dict_get fl' k = Py.dict_get fl k)) /\
  (forall tag exe c w,
      0 < successful c + skipped c ->
      (forall kvs, loaded (manifest_file w) = JObj kvs ->
                   Py.dict_get kvs "downloaded_releases" = None) ->
      exists e, update_manifest tag exe c w = mkOut (Raise e) w []) /\
  (forall tag drs,
      (In (JStr tag) drs -> add_release tag drs = drs) /\
      (~ In (JStr tag) drs -> add_release tag drs = drs ++ [JStr tag])).
Proof.
  assert (Hcond : forall c, 0 < successful c + skipped c ->
                            (0 <? successful c) || (0 <? skipped c) = true).
  { intros c H. destruct (successful c); destruct (skipped c); cbn in *;
      try reflexivity; lia. }
  split; [|split; [|split]].
  - intros tag exe c w H. apply update_manifest_idle; lia.
  - intros tag exe c w kvs drs fl Hload Hdr Hfl Hpos.
    exists (Py.dict_set
              (Py.dict_set kvs "downloaded_releases"
                 (JArr (add_release tag drs)))
              "files" (JObj (set_entries tag exe (clock w) (ticks w) fl))),
      (set_entries tag exe (clock w) (ticks w) fl).
    rewrite (@update_manifest_eq tag exe c w kvs drs fl Hload Hdr Hfl
               (Hcond c Hpos)).
    cbv zeta. cbn [result trace after].
    split; [reflexivity|]. split; [reflexivity|].
    split; [intros Hw; now rewrite Hw|].
    split; [|split; [|split; [|split]]].
    + rewrite dict_get_set_other by discriminate. apply dict_get_set_same.
    + apply dict_get_set_same.
    + intros k Hk1 Hk2.
      rewrite dict_get_set_other by auto.
      apply dict_get_set_other. auto.
    + intros a Hin. apply set_entries_in. now exists a.
    + intros k Hk. now apply set_entries_other.
  - intros tag exe c w Hpos Hshape. unfold update_manifest.
    erewrite bind_silent by apply load_manifest_eq.
    rewrite (Hcond c Hpos).
    destruct (loaded (manifest_file w)) as [| | | | |kvs] eqn:Hl.
    6:{ exists KeyError. apply bind_out_Raise. unfold Py.getitem.
        now rewrite (Hshape kvs eq_refl). }
    all: exists TypeError; apply bind_out_Raise; reflexivity.
  - intros tag drs. unfold add_release.
    destruct (existsb (Py.is_str tag) drs) eqn:E; split; intros H; auto.
    + apply is_str_In in E. contradiction.
    + apply is_str_In in H. congruence.
Qed.


(** C8: [load_manifest] returns in every state of the manifest file, without
    touching anything; when the file is missing or cannot be parsed it
    returns the empty manifest with its two keys, and the manifest update
    of the run then goes through. *)
Theorem load_manifest_resilient :
  (forall w, exists j, load_manifest w = mkOut (Ret j) w []) /\
  (forall w,
      manifest_file w = Absent \/ manifest_file w = Unreadable ->
      load_manifest w
      = mkOut (Ret (JObj [("downloaded_releases", JArr []);
                          ("files", JObj [])])) w []) /\
  (forall w tag exe c,
      manifest_file w = Absent \/ manifest_file w = Unreadable ->
      result (update_manifest tag exe c w) = Ret tt).
Proof.
  split; [|split].
  - intros w. eexists. apply load_manifest_eq.
  - intros w [H|H]; rewrite load_manifest_eq, H; reflexivity.
  - intros w tag exe c H.
    assert (Hl : loaded (manifest_file w) = empty_manifest)
      by (destruct H as [H|H]; rewrite H; reflexivity).
    destruct ((0 <? successful c) || (0 <? skipped c)) eqn:Hpos.
    + erewrite update_manifest_eq; [reflexivity|exact Hl| | |exact Hpos];
        reflexivity.
    + apply orb_false_iff in Hpos. destruct Hpos as [Hs Hk].
      apply Nat.ltb_ge in Hs, Hk.
      rewrite update_manifest_idle by lia. reflexivity.
Qed.


(** ** The whole run *)

Lemma fetch_out (w : World) :
  exists trf,
    fetch_latest_release owner repo w = mkOut (Ret (fetched w)) w trf.
Proof.
  unfold fetched. rewrite fetch_latest_release_eq. cbv zeta.
  destruct (net_release w (release_url owner repo) (first_attempt_ctx w))
    as [d|e]; [eexists; reflexivity|].
  destruct (is_url_or_ssl_error e && unverified_ctx_ok w);
    eexists; reflexivity.
Qed.


(** The [try] block of [main], step by step. *)
Lemma main_body_run (w : World) :
  exists rb w' tr,
    main_body w = mkOut rb w' tr /\
    match fetched w with
    | None => rb = Ret false /\ w' = w
    | Some r =>
        if storage_folder_ok w then
          match qualifying r with
          | [] => rb = Ret false /\ w' = w
          | _ :: _ =>
              exists c w1 tr1 ru tru pre,
                download_assets (storage_of w) (qualifying r)
                  (mkCounts 0 0 0) w = mkOut (Ret c) w1 tr1
                /\ update_manifest (release_tag_of r) (qualifying r) c w1
                   = mkOut ru w' tru
                /\ rb = match ru with
                        | Ret _ => Ret (failed c =? 0)
                        | Raise e => Raise e
                        end
                /\ tr = pre ++ tr1 ++ tru ++
                        match ru with
                        | Ret _ => [summary_of c]
                        | Raise _ => []
                        end
          end
        else rb = Raise OSError /\ w' = w
    end.
Proof.
  destruct (schedule_self_spec w) as (b0 & tr0 & Hs & _).
  destruct (fetch_out w) as (trf & Hf).
  unfold main_body.
  destruct (fetched w) as [r|] eqn:Hfetched.
  2:{ eexists. eexists. eexists. split; [|split; reflexivity].
      eapply bind_out_Ret; [exact Hs|].
      eapply bind_out_Ret; [exact Hf|]. reflexivity. }
  destruct (storage_folder_ok w) eqn:Hst.
  2:{ eexists. eexists. eexists. split; [|split; reflexivity].
      eapply bind_out_Ret; [exact Hs|].
      eapply bind_out_Ret; [exact Hf|].
      eapply bind_out_Raise.
      unfold get_storage_folder. rewrite Hst. reflexivity. }
  assert (Hg : get_storage_folder w = mkOut (Ret (storage_of w)) w [])
    by (unfold get_storage_folder; rewrite Hst; reflexivity).
  unfold qualifying.
  destruct (filter is_exe (assets r)) as [|a exe] eqn:Hq.
  { eexists. eexists. eexists. split; [|split; reflexivity].
    eapply bind_out_Ret; [exact Hs|].
    eapply bind_out_Ret; [exact Hf|].
    eapply bind_out_Ret; [exact Hg|].
    cbv zeta. rewrite Hq. reflexivity. }
  destruct (download_assets_spec (storage_of w) (a :: exe) (mkCounts 0 0 0) w)
    as (c & files & o & t & tr1 & Hl & _).
  set (w1 := touch files o t w) in *.
  destruct (update_manifest (release_tag_of r) (a :: exe) c w1)
    as [ru w2 tru] eqn:Hu.
  destruct ru as [u|e].
  - eexists. exists w2. eexists. split.
    + eapply bind_out_Ret; [exact Hs|].
      eapply bind_out_Ret; [exact Hf|].
      eapply bind_out_Ret; [exact Hg|].
      cbv zeta. rewrite Hq.
      eapply bind_out_Ret; [exact Hl|].
      eapply bind_out_Ret; [exact Hu|].
      eapply bind_out_Ret; reflexivity.
    + exists c, w1, tr1, (Ret u), tru, (tr0 ++ trf).
      repeat split; try assumption.
      cbn. rewrite <- !app_assoc. reflexivity.
  - eexists. exists w2. eexists. split.
    + eapply bind_out_Ret; [exact Hs|].
      eapply bind_out_Ret; [exact Hf|].
      eapply bind_out_Ret; [exact Hg|].
      cbv zeta. rewrite Hq.
      eapply bind_out_Ret; [exact Hl|].
      eapply bind_out_Raise. exact Hu.
    + exists c, w1, tr1, (Raise e), tru, (tr0 ++ trf).
      repeat split; try assumption.
      cbn. rewrite <- !app_assoc, !app_nil_r. reflexivity.
Qed.

Lemma main_eq (w : World) :
  main w
  = if log_folder_ok w then
      mkOut (Ret (match result (main_body w) with
                  | Ret b => b
                  | Raise _ => false
                  end)) (after (main_body w)) (trace (main_body w))
    else mkOut (Raise OSError) w [].
Proof.
  unfold main, setup_logging.
  destruct (log_folder_ok w) eqn:Hlog.
  - erewrite bind_silent by (cbv beta; rewrite Hlog; reflexivity).
    apply try_except_Exception_out. apply out_eta.
  - apply bind_out_Raise. cbv beta. rewrite Hlog. reflexivity.
Qed.

Lemma shape_ok_inv (m : json) :
  manifest_shape_ok m = true ->
  exists kvs drs fl,
    m = JObj kvs
    /\ Py.dict_get kvs "downloaded_releases" = Some (JArr drs)
    /\ Py.dict_get kvs "files" = Some (JObj fl).
Proof.
  destruct m as [| | | | |kvs]; try discriminate. cbn.
  destruct (Py.dict_get kvs "downloaded_releases") as [[| | | |drs|]|] eqn:Hd;
    try discriminate.
  destruct (Py.dict_get kvs "files") as [[| | | | |fl]|] eqn:Hf;
    try discriminate.
  intros _. now exists kvs, drs, fl.
Qed.

(** On a manifest of the persisted format the update always returns. *)
Lemma update_manifest_returns (tag : string) (exe : list Asset) (c : Counts)
    (w : World) :
  manifest_shape_ok (loaded (manifest_file w)) = true ->
  result (update_manifest tag exe c w) = Ret tt.
Proof.
  intros Hok. destruct (shape_ok_inv _ Hok) as (kvs & drs & fl & Hl & Hd & Hf).
  destruct ((0 <? successful c) || (0 <? skipped c)) eqn:Hpos.
  - erewrite update_manifest_eq; [reflexivity|exact Hl|exact Hd|exact Hf|].
    exact Hpos.
  - apply orb_false_iff in Hpos. destruct Hpos as [Hs Hk].
    apply Nat.ltb_ge in Hs, Hk.
    rewrite update_manifest_idle by lia. reflexivity.
Qed.


(** C6 (amended): a run whose log could be set up returns a boolean: False
    when the release cannot be fetched, False when the storage folder cannot
    be created, False when no asset name ends in ".exe" (in any case), and
    otherwise, with the counters the download loop produced, False when the
    manifest update raises and else the truth of [failed == 0]; on a
    manifest of the persisted format (or a missing or unparsable file) the
    update does not raise, so the outcome is exactly [failed == 0]. *)
Theorem main_outcome (w : World) :
  log_folder_ok w = true ->
  exists b,
    result (main w) = Ret b /\
    match fetched w with
    | None => b = false
    | Some r =>
        if storage_folder_ok w then
          match qualifying r with
          | [] => b = false
          | _ :: _ =>
              exists c w1 tr1,
                download_assets (storage_of w) (qualifying r)
                  (mkCounts 0 0 0) w = mkOut (Ret c) w1 tr1
                /\ b = match result (update_manifest (release_tag_of r)
                                       (qualifying r) c w1) with
                       | Ret _ => failed c =? 0
                       | Raise _ => false
                       end
                /\ (manifest_shape_ok (loaded (manifest_file w)) = true ->
                    b = (failed c =? 0))
          end
        else b = false
    end.
Proof.
  intros Hlog. rewrite main_eq, Hlog. cbn [result].
  destruct (main_body_run w) as (rb & w' & tr & Hb & Hcase).
  rewrite Hb. cbn [result]. eexists. split; [reflexivity|].
  destruct (fetched w) as [r|]; [|now destruct Hcase as [-> _]].
  destruct (storage_folder_ok w); [|now destruct Hcase as [-> _]].
  destruct (qualifying r) as [|a exe]; [now destruct Hcase as [-> _]|].
  destruct Hcase as (c & w1 & tr1 & ru & tru & pre & Hl & Hu & -> & _).
  exists c, w1, tr1. split; [exact Hl|]. rewrite Hu. cbn [result].
  split; [now destruct ru|].
  intros Hok.
  destruct (download_assets_spec (storage_of w) (a :: exe) (mkCounts 0 0 0) w)
    as (c' & files & o & t & tr1' & Hl' & _).
  rewrite Hl' in Hl. inversion Hl; subst c' w1 tr1'.
  assert (Hr : result (update_manifest (release_tag_of r) (a :: exe) c
                         (touch files o t w)) = Ret tt)
    by (apply update_manifest_returns; exact Hok).
  rewrite Hu in Hr. cbn in Hr. now rewrite Hr.
Qed.


(** ** The exit status *)


(** C7 (amended): the exit status does not reflect the outcome of the run.
    It is 0 whenever [main] returns, whether it returns True or False, and
    it is 1 exactly when an exception escapes [main], which happens only
    when the log cannot be set up. *)
Theorem exit_status_ignores_outcome (w : World) :
  script_exit_status w = (if log_folder_ok w then 0 else 1)%Z /\
  (forall b, result (main w) = Ret b -> script_exit_status w = 0%Z) /\
  (exists b, result (main w) = if log_folder_ok w then Ret b
                               else Raise OSError).
Proof.
  unfold script_exit_status. rewrite main_eq.
  destruct (log_folder_ok w); cbn [result].
  - split; [reflexivity|]. split; [reflexivity|]. eexists; reflexivity.
  - split; [reflexivity|]. split; [discriminate|]. now exists false.
Qed.


(** ** What the manifest records *)


(** ** Two runs in a row *)

Lemma strip_file_entry (tag : string) (t : datetime) :
  strip_entry (file_entry tag t) = blank_entry tag.
Proof. reflexivity. Qed.




Lemma set_entries_covered (tag : string) (exe : list Asset)
    (clk : nat -> datetime) (t : nat) (fl : list (string * json)) :
  covered tag exe (set_entries tag exe clk t fl).
Proof.
  intros a Hin.
  destruct (@set_entries_in tag exe clk (name a) t fl) as (n & _ & Hget);
    [now exists a|].
  eexists. split; [exact Hget|apply strip_file_entry].
Qed.



Lemma main_returns_log_ok (w : World) (b : bool) :
  result (main w) = Ret b -> log_folder_ok w = true.
Proof.
  rewrite main_eq. destruct (log_folder_ok w); [reflexivity|discriminate].
Qed.

(** What a successful run leaves behind. *)
Lemma first_run_state (w0 : World) (r : Release) :
  result (main w0) = Ret true ->
  fetched w0 = Some r ->
  manifest_shape_ok (loaded (manifest_file w0)) = true ->
  manifest_writable w0 = true ->
  exists kvs1 fl1 drs1,
    qualifying r <> []
    /\ (forall a, In a (qualifying r) ->
                  In (destination_of (storage_of w0) a) (fs (after (main w0))))
    /\ manifest_file (after (main w0))
       = Content (JObj (Py.dict_set kvs1 "files" (JObj fl1)))
    /\ Py.dict_get kvs1 "downloaded_releases" = Some (JArr drs1)
    /\ In (JStr (release_tag_of r)) drs1
    /\ covered (release_tag_of r) (qualifying r) fl1.
Proof.
  intros Hres Hf Hshape Hwr.
  pose proof (main_returns_log_ok _ Hres) as Hlog.
  rewrite main_eq, Hlog in *. cbn [result after] in *.
  destruct (main_body_run w0) as (rb & w1' & tr & Hb & Hcase).
  rewrite Hb in *. cbn [result after] in *.
  rewrite Hf in Hcase.
  destruct (storage_folder_ok w0);
    [|destruct Hcase as [-> _]; discriminate Hres].
  destruct (qualifying r) as [|a l] eqn:Hq;
    [destruct Hcase as [-> _]; discriminate Hres|].
  destruct Hcase as (c & w1 & tr1 & ru & tru & pre & Hl & Hu & -> & _).
  destruct ru as [u|e]; [|discriminate Hres].
  assert (Hfail : failed c = 0)
    by (inversion Hres as [H0]; now apply Nat.eqb_eq in H0).
  destruct (download_assets_spec (storage_of w0) (a :: l) (mkCounts 0 0 0) w0)
    as (c' & files & o & t & tr1' & Hl' & Htot & _ & _ & _ & Hall).
  rewrite Hl' in Hl. destruct (out_Ret_inj Hl) as (-> & <- & <-). clear Hl.
  destruct (shape_ok_inv _ Hshape) as (kvs & drs & fl & Hload & Hd & Hfl).
  assert (Hpos : (0 <? successful c) || (0 <? skipped c) = true).
  { unfold total in Htot. cbn in Htot.
    destruct (successful c); destruct (skipped c); cbn; try reflexivity.
    lia. }
  pose proof (@update_manifest_eq (release_tag_of r) (a :: l) c
                (touch files o t w0) kvs drs fl Hload Hd Hfl Hpos) as Hu'.
  rewrite Hu' in Hu. cbv zeta in Hu.
  change (manifest_writable (touch files o t w0))
    with (manifest_writable w0) in Hu.
  rewrite Hwr in Hu.
  pose proof (f_equal (@after unit) Hu) as Hw1'. cbn [after] in Hw1'.
  subst w1'. clear Hu Hu'.
  exists (Py.dict_set kvs "downloaded_releases"
            (JArr (add_release (release_tag_of r) drs))).
  eexists. exists (add_release (release_tag_of r) drs).
  split; [discriminate|]. split; [|split; [|split; [|split]]].
  - intros b Hb'. cbn. apply Hall; [cbn; lia|exact Hb'].
  - reflexivity.
  - apply dict_get_set_same.
  - apply add_release_In.
  - apply set_entries_covered.
Qed.






(** ** Where the events and the final state of a compound action come from *)

Lemma bind_trace_inv {A B} (m : M A) (f : A -> M B) (w : World) (e : Event) :
  In e (trace (bind m f w)) ->
  In e (trace (m w)) \/
  exists a, result (m w) = Ret a /\ In e (trace (f a (after (m w)))).
Proof.
  unfold bind. destruct (m w) as [[a|ex] w1 t1]; cbn.
  - destruct (f a w1) as [r w2 t2] eqn:E. cbn. intros H.
    apply in_app_or in H. destruct H as [H|H]; [now left|].
    right. exists a. rewrite E. now split.
  - now left.
Qed.

Lemma try_trace_inv {A} (body : M A) (h : Exn -> option (M A)) (w : World)
    (e : Event) :
  In e (trace (try_except body h w)) ->
  In e (trace (body w)) \/
  exists ex k, result (body w) = Raise ex /\ h ex = Some k
               /\ In e (trace (k (after (body w)))).
Proof.
  unfold try_except. destruct (body w) as [[a|ex] w1 t1]; cbn.
  - now left.
  - destruct (h ex) as [k|] eqn:Hh; cbn; [|now left].
    destruct (k w1) as [r w2 t2] eqn:E. cbn. intros H.
    apply in_app_or in H. destruct H as [H|H]; [now left|].
    right. exists ex, k. rewrite E. now repeat split.
Qed.

Lemma bind_out {A B} (m : M A) (f : A -> M B) (w : World) :
  bind m f w
  = match result (m w) with
    | Ret a =>
        mkOut (result (f a (after (m w)))) (after (f a (after (m w))))
          (trace (m w) ++ trace (f a (after (m w))))
    | Raise e => mkOut (Raise e) (after (m w)) (trace (m w))
    end.
Proof.
  unfold bind. destruct (m w) as [[a|ex] w1 t1]; cbn; [|reflexivity].
  now destruct (f a w1).
Qed.

(** ** More on the scheduler side *)

Lemma schedule_args_spec (s : option string) (w : World) :
  (match truthy s with
   | Some s' => parse_schedule_to_cmd s'
   | None => ret default_args
   end) w
  = mkOut (Ret (schedule_args_of s w)) (set_ticks (schedule_ticks_of s w) w) []
  /\ ticks w <= schedule_ticks_of s w.
Proof.
  unfold schedule_args_of, schedule_ticks_of.
  destruct (truthy s) as [s'|].
  - destruct (parse_schedule_to_cmd_spec s' w) as (args & t & H & Hle).
    rewrite H. cbn. split; [reflexivity|exact Hle].
  - split; [|lia]. unfold ret. now destruct w.
Qed.

Lemma create_scheduled_task_eq (p n : string) (s : option string) (w : World) :
  create_scheduled_task p n s w
  = match schtasks w (delete_cmd n) with
    | Raise _ => mkOut (Ret false) w [EvSchtasks (delete_cmd n)]
    | Ret _ =>
        mkOut
          (Ret (match schtasks w (create_cmd n (quoted p)
                                    (schedule_args_of s w)) with
                | Ret rc => Z.eqb rc 0
                | Raise _ => false
                end))
          (set_ticks (schedule_ticks_of s w) w)
          [EvSchtasks (delete_cmd n);
           EvSchtasks (create_cmd n (quoted p) (schedule_args_of s w))]
    end.
Proof.
  destruct (schedule_args_spec s w) as [Hargs _].
  unfold create_scheduled_task. fold (delete_cmd n).
  destruct (schtasks w (delete_cmd n)) as [z|e] eqn:Edel.
  - set (cmd := create_cmd n (quoted p) (schedule_args_of s w)).
    assert (Hst : schtasks (set_ticks (schedule_ticks_of s w) w) cmd
                  = schtasks w cmd) by now destruct w.
    destruct (schtasks w cmd) as [rc|e] eqn:Ecmd.
    + change [EvSchtasks (delete_cmd n); EvSchtasks cmd]
        with ([EvSchtasks (delete_cmd n)] ++ [] ++ [EvSchtasks cmd] ++ []).
      apply try_out_Ret.
      eapply bind_out_Ret;
        [unfold subprocess_run; rewrite Edel; reflexivity|].
      eapply bind_out_Ret; [exact Hargs|].
      eapply bind_out_Ret;
        [unfold subprocess_run; fold (quoted p);
         fold (create_cmd n (quoted p) (schedule_args_of s w)); fold cmd;
         rewrite Hst; reflexivity
        |reflexivity].
    + change [EvSchtasks (delete_cmd n); EvSchtasks cmd]
        with (([EvSchtasks (delete_cmd n)] ++ [] ++ [EvSchtasks cmd]) ++ []).
      eapply try_out_Raise; [| reflexivity | reflexivity].
      eapply bind_out_Ret;
        [unfold subprocess_run; rewrite Edel; reflexivity|].
      eapply bind_out_Ret; [exact Hargs|].
      eapply bind_out_Raise.
      unfold subprocess_run; fold (quoted p);
        fold (create_cmd n (quoted p) (schedule_args_of s w)); fold cmd;
        rewrite Hst; reflexivity.
  - change [EvSchtasks (delete_cmd n)]
      with ([EvSchtasks (delete_cmd n)] ++ []).
    eapply try_out_Raise; [| reflexivity | reflexivity].
    eapply bind_out_Raise.
    unfold subprocess_run; rewrite Edel; reflexivity.
Qed.

Lemma schedule_self_eq (w : World) :
  schedule_self w
  = match schtasks w (delete_cmd self_task_name) with
    | Raise _ => mkOut (Ret false) w [EvSchtasks (delete_cmd self_task_name)]
    | Ret _ =>
        mkOut
          (Ret (match schtasks w (create_cmd self_task_name
                                    (self_action (self_path w)) daily_8) with
                | Ret rc => Z.eqb rc 0
                | Raise _ => false
                end))
          w
          [EvSchtasks (delete_cmd self_task_name);
           EvSchtasks (create_cmd self_task_name
                         (self_action (self_path w)) daily_8)]
    end.
Proof.
  unfold schedule_self.
  match goal with
  | |- try_except ?body _ _ = _ =>
      assert (Hbody :
        body w
        = match schtasks w (delete_cmd self_task_name) with
          | Raise e => mkOut (Raise e) w [EvSchtasks (delete_cmd self_task_name)]
          | Ret _ =>
              mkOut
                (match schtasks w (create_cmd self_task_name
                                     (self_action (self_path w)) daily_8) with
                 | Ret rc => Ret (Z.eqb rc 0)
                 | Raise e => Raise e
                 end)
                w
                [EvSchtasks (delete_cmd self_task_name);
                 EvSchtasks (create_cmd self_task_name
                               (self_action (self_path w)) daily_8)]
          end)
  end.
  { rewrite bind_current_executable. cbv zeta.
    fold (delete_cmd self_task_name). fold (quoted (self_path w)).
    assert (Hcmd :
      (if Str.endswith (self_path w) ".py"
       then ["schtasks"; "/Create"; "/TN"; self_task_name; "/TR";
             ("pythonw " ++ quoted (self_path w))%string;
             "/SC"; "DAILY"; "/ST"; "08:00"; "/F"]
       else ["schtasks"; "/Create"; "/TN"; self_task_name; "/TR";
             quoted (self_path w); "/SC"; "DAILY"; "/ST"; "08:00"; "/F"])
      = create_cmd self_task_name (self_action (self_path w)) daily_8).
    { unfold self_action. now destruct (Str.endswith (self_path w) ".py"). }
    rewrite Hcmd.
    set (cmd := create_cmd self_task_name (self_action (self_path w)) daily_8).
    destruct (schtasks w (delete_cmd self_task_name)) as [z|e] eqn:Edel.
    - destruct (schtasks w cmd) as [rc|e] eqn:Ecmd.
      + change [EvSchtasks (delete_cmd self_task_name); EvSchtasks cmd]
          with ([EvSchtasks (delete_cmd self_task_name)]
                ++ [EvSchtasks cmd] ++ []).
        eapply bind_out_Ret;
          [unfold subprocess_run; rewrite Edel; reflexivity|].
        eapply bind_out_Ret;
          [unfold subprocess_run; rewrite Ecmd; reflexivity|reflexivity].
      + change [EvSchtasks (delete_cmd self_task_name); EvSchtasks cmd]
          with ([EvSchtasks (delete_cmd self_task_name)]
                ++ [EvSchtasks cmd]).
        eapply bind_out_Ret;
          [unfold subprocess_run; rewrite Edel; reflexivity|].
        eapply bind_out_Raise.
        unfold subprocess_run; rewrite Ecmd; reflexivity.
    - eapply bind_out_Raise.
      unfold subprocess_run; rewrite Edel; reflexivity. }
  destruct (schtasks w (delete_cmd self_task_name)) as [z|e].
  - destruct (schtasks w (create_cmd self_task_name
                            (self_action (self_path w)) daily_8)) as [rc|e];
      erewrite try_except_Exception_out by exact Hbody; reflexivity.
  - erewrite try_except_Exception_out by exact Hbody. reflexivity.
Qed.

(** X3: [create_scheduled_task] never raises.  Its first outside call is
    always [schtasks /Delete /TN <task> /F]; when that run cannot be
    started, no [/Create] is attempted, the function returns False and the
    state is as before. *)
Theorem create_scheduled_task_deletes_first (p n : string)
    (s : option string) (w : World) :
  exists b rest,
    result (create_scheduled_task p n s w) = Ret b /\
    trace (create_scheduled_task p n s w) = EvSchtasks (delete_cmd n) :: rest /\
    (forall e, schtasks w (delete_cmd n) = Raise e ->
               b = false /\ rest = [] /\
               after (create_scheduled_task p n s w) = w).
Proof.
  rewrite create_scheduled_task_eq.
  destruct (schtasks w (delete_cmd n)) as [z|e0].
  - eexists. eexists. split; [reflexivity|]. split; [reflexivity|].
    intros e H. discriminate H.
  - exists false, []. repeat split.
Qed.


(** X4: before the year 9999, when the [/Delete] run returns, whatever its
    exit code, exactly one [/Create] run follows, for the same task name,
    with the quoted executable path as action, the schedule arguments and
    a final [/F]; the function returns True exactly when that run exits
    with code 0.  Without a schedule (None or the empty string) the
    arguments are the daily 08:00 default and the clock is not read; with
    one they are what [parse_schedule_to_cmd] returns.  (In the last
    minute of the year 9999 adding a minute to the clock reading
    overflows, which the translation above leaves out.) *)
Theorem create_scheduled_task_reports_create_status (p n : string)
    (s : option string) (w : World) (z : Z) :
  year (clock w (ticks w)) < MAXYEAR ->
  schtasks w (delete_cmd n) = Ret z ->
  exists args,
    trace (create_scheduled_task p n s w)
    = [EvSchtasks (delete_cmd n); EvSchtasks (create_cmd n (quoted p) args)] /\
    (result (create_scheduled_task p n s w) = Ret true <->
     schtasks w (create_cmd n (quoted p) args) = Ret 0%Z) /\
    (truthy s = None ->
     args = ["/SC"; "DAILY"; "/ST"; "08:00"] /\
     after (create_scheduled_task p n s w) = w) /\
    (forall s', truthy s = Some s' ->
                result (parse_schedule_to_cmd s' w) = Ret args).
Proof.
  intros _ Hdel. rewrite create_scheduled_task_eq, Hdel.
  exists (schedule_args_of s w). cbn [result trace after].
  split; [reflexivity|]. split; [|split].
  - destruct (schtasks w (create_cmd n (quoted p) (schedule_args_of s w)))
      as [rc|e].
    + split; intros H.
      * inversion H as [H1]. apply Z.eqb_eq in H1. now subst rc.
      * inversion H. reflexivity.
    + split; intros H; discriminate H.
  - intros Hs. unfold schedule_args_of, schedule_ticks_of. rewrite Hs.
    split; [reflexivity|]. now destruct w.
  - intros s' Hs. unfold schedule_args_of. rewrite Hs.
    destruct (parse_schedule_to_cmd_spec s' w) as (args & t & H & _).
    rewrite H. reflexivity.
Qed.


(** X5: [schedule_self] never raises and changes nothing in the state.
    It first deletes the task [GitHubReleaseDownloader]; if that run
    returns, it creates the task anew, always daily at 08:00, with the
    program's own path as action, run through [pythonw] exactly when the
    path ends in [.py] (in lower case); it returns True exactly when the
    creating run exits with code 0.  If the deleting run cannot be started
    nothing is created and it returns False. *)
Theorem schedule_self_commands (w : World) :
  after (schedule_self w) = w /\
  exists b rest,
    result (schedule_self w) = Ret b /\
    trace (schedule_self w)
    = EvSchtasks ["schtasks"; "/Delete"; "/TN"; "GitHubReleaseDownloader"; "/F"]
      :: rest /\
    (forall e, schtasks w (delete_cmd self_task_name) = Raise e ->
               b = false /\ rest = []) /\
    (forall z, schtasks w (delete_cmd self_task_name) = Ret z ->
       let action := if Str.endswith (self_path w) ".py"
                     then ("pythonw " ++ quoted (self_path w))%string
                     else quoted (self_path w) in
       let cmd := ["schtasks"; "/Create"; "/TN"; "GitHubReleaseDownloader";
                   "/TR"; action; "/SC"; "DAILY"; "/ST"; "08:00"; "/F"] in
       rest = [EvSchtasks cmd] /\
       (b = true <-> schtasks w cmd = Ret 0%Z)).
Proof.
  rewrite schedule_self_eq.
  destruct (schtasks w (delete_cmd self_task_name)) as [z0|e0].
  - split; [reflexivity|]. eexists. eexists.
    split; [reflexivity|]. split; [reflexivity|]. split.
    + intros e H. discriminate H.
    + intros z _. cbv zeta. split; [reflexivity|].
      change (create_cmd self_task_name (self_action (self_path w)) daily_8)
        with ["schtasks"; "/Create"; "/TN"; "GitHubReleaseDownloader"; "/TR";
              self_action (self_path w); "/SC"; "DAILY"; "/ST"; "08:00"; "/F"].
      unfold self_action.
      match goal with
      | |- context [schtasks w ?c] => destruct (schtasks w c) as [rc|e]
      end.
      * split; intros H.
        -- apply Z.eqb_eq in H. now subst rc.
        -- inversion H. reflexivity.
      * split; intros H; discriminate H.
  - split; [reflexivity|]. exists false, [].
    split; [reflexivity|]. split; [reflexivity|]. split.
    + intros e _. now split.
    + intros z H. discriminate H.
Qed.


(** ** TLS contexts *)

(** X1: [create_ssl_context] never raises, touches nothing and makes no
    outside call.  It hands out the certificate-checking context whenever
    that can be built, the non-checking one exactly when only that one can
    be built, and nothing exactly when neither can. *)
Theorem create_ssl_context_prefers_verification (w : World) :
  exists c,
    create_ssl_context w = mkOut (Ret c) w [] /\
    (c = Some Verified <-> default_ctx_ok w = true) /\
    (c = Some Unverified <->
     default_ctx_ok w = false /\ unverified_ctx_ok w = true) /\
    (c = None <-> default_ctx_ok w = false /\ unverified_ctx_ok w = false).
Proof.
  rewrite create_ssl_context_eq.
  destruct (default_ctx_ok w), (unverified_ctx_ok w); eexists;
    (split; [reflexivity|]); repeat split;
    solve [congruence | intros [? ?]; congruence | intros; congruence].
Qed.

(** ** Saving and loading the manifest *)

(** X2: [save_manifest] never raises, whether or not the file can be
    written: the error is swallowed.  It makes no outside call, and the
    manifest file is the only thing it can change. *)
Theorem save_manifest_never_raises (m : json) (w : World) :
  result (save_manifest m w) = Ret tt /\
  trace (save_manifest m w) = [] /\
  set_manifest_file (manifest_file w) (after (save_manifest m w)) = w.
Proof.
  rewrite save_manifest_eq. cbn [result trace after].
  split; [reflexivity|]. split; [reflexivity|].
  destruct (manifest_writable w); now destruct w.
Qed.


(** ** The two network operations in any environment *)

(** X6: in every environment, also when no TLS context can be built,
    [fetch_latest_release] returns (it never raises), leaves the state
    exactly as it was, and makes one or two requests, all of them to the
    latest-release address of the repository; a release it returns is one
    the network delivered on one of these requests. *)
Theorem fetch_latest_release_is_contained (o r : string) (w : World) :
  exists res tr,
    fetch_latest_release o r w = mkOut (Ret res) w tr /\
    1 <= length tr <= 2 /\
    (forall e, In e tr ->
       exists c,
         e = EvUrlopen ("https://api.github.com/repos/" ++ o ++ "/" ++ r
                        ++ "/releases/latest")%string c) /\
    (forall d, res = Some d ->
       exists c, In (EvUrlopen (release_url o r) c) tr /\
                 net_release w (release_url o r) c = Ret d).
Proof.
  rewrite fetch_latest_release_eq. cbv zeta.
  fold (release_url o r).
  set (url := release_url o r). set (c1 := first_attempt_ctx w).
  destruct (net_release w url c1) as [d|e] eqn:E1.
  - eexists. eexists. split; [reflexivity|]. split; [cbn; lia|]. split.
    + intros e [<-|[]]. now exists c1.
    + intros d' H. inversion H; subst d'. exists c1. split; [now left|exact E1].
  - destruct (is_url_or_ssl_error e && unverified_ctx_ok w).
    + eexists. eexists. split; [reflexivity|]. split; [cbn; lia|]. split.
      * intros e' [<-|[<-|[]]]; eexists; reflexivity.
      * intros d' H.
        destruct (net_release w url Unverified) as [d|e2] eqn:E2;
          [|discriminate H].
        inversion H; subst d'. exists Unverified.
        split; [right; now left|exact E2].
    + eexists. eexists. split; [reflexivity|]. split; [cbn; lia|]. split.
      * intros e' [<-|[]]. now exists c1.
      * intros d' H. discriminate H.
Qed.


(** X7: [download_file] changes the process-wide opener as a side effect
    and does not restore it.  After a single attempt the installed opener
    is the context that was created for it (the opener is left alone only
    when no context could be created); after a second attempt the
    installed opener is the one without certificate checks, whether or not
    the download then worked. *)
Theorem download_file_leaves_opener (url dest : string) (w : World) :
  exists b c1,
    result (download_file url dest w) = Ret b /\
    ((trace (download_file url dest w) = [EvUrlretrieve url dest c1] /\
      opener (after (download_file url dest w))
      = if default_ctx_ok w || unverified_ctx_ok w then Some c1
        else opener w)
     \/
     (trace (download_file url dest w)
      = [EvUrlretrieve url dest c1; EvUrlretrieve url dest Unverified] /\
      opener (after (download_file url dest w)) = Some Unverified)).
Proof.
  rewrite download_file_eq. cbv zeta.
  set (c1 := first_attempt_ctx w).
  destruct (net_file w url c1) as [[]|e].
  - exists true, c1. split; [reflexivity|]. left. split; [reflexivity|].
    destruct (default_ctx_ok w || unverified_ctx_ok w); reflexivity.
  - destruct (is_url_or_ssl_error e && unverified_ctx_ok w).
    + destruct (net_file w url Unverified) as [[]|e'].
      * exists true, c1. split; [reflexivity|]. right. now split.
      * exists false, c1. split; [reflexivity|]. right. now split.
    + exists false, c1. split; [reflexivity|]. left. split; [reflexivity|].
      destruct (default_ctx_ok w || unverified_ctx_ok w); reflexivity.
Qed.

(** ** The schedule translation as a whole *)

(** X8: before the year 9999, whatever the description,
    [parse_schedule_to_cmd] returns without raising and makes no outside
    call; the arguments start with [/SC] and one of the seven schedule
    types, followed by at most four more words; the state is untouched
    except that the ONCE form reads the clock once.  (In the last minute
    of the year 9999 adding a minute to the clock reading overflows, which
    the translation above leaves out.) *)
Theorem parse_schedule_to_cmd_well_formed (s : string) (w : World) :
  year (clock w (ticks w)) < MAXYEAR ->
  exists ty rest,
    result (parse_schedule_to_cmd s w) = Ret ("/SC" :: ty :: rest) /\
    In ty schedule_types /\
    length rest <= 4 /\
    trace (parse_schedule_to_cmd s w) = [] /\
    after (parse_schedule_to_cmd s w)
    = (if String.eqb ty "ONCE" then set_ticks (S (ticks w)) w else w).
Proof.
  intros _. unfold parse_schedule_to_cmd, schedule_types.
  repeat match goal with
         | |- context [Str.contains ?p (str_lower s)] =>
             destruct (Str.contains p (str_lower s)); cbn [orb]
         end;
    eexists; eexists; (split; [reflexivity|]);
    (split; [cbn; tauto|]); (split; [cbn; lia|]);
    (split; reflexivity).
Qed.




(** ** Actions by what they can touch *)

Lemma pure_ret {A} (a : A) : pure_action (ret a).
Proof. now exists (Ret a). Qed.

Lemma pure_raise {A} (e : Exn) : pure_action (@raise A e).
Proof. now exists (Raise e). Qed.

Lemma pure_bind {A B} (m : M A) (f : A -> M B) :
  pure_action m -> (forall a, pure_action (f a)) -> pure_action (bind m f).
Proof.
  intros [r Hm] Hf. destruct r as [a|e].
  - destruct (Hf a) as [r' Hfa]. exists r'. intros w.
    unfold bind. now rewrite Hm, Hfa.
  - exists (Raise e). intros w. unfold bind. now rewrite Hm.
Qed.

Lemma pure_getitem (j : json) (k : string) : pure_action (Py.getitem j k).
Proof.
  destruct j as [| | | | |kvs]; cbn; try apply pure_raise.
  destruct (Py.dict_get kvs k); [apply pure_ret|apply pure_raise].
Qed.

Lemma pure_contains (j : json) (s : string) : pure_action (Py.contains j s).
Proof. destruct j; cbn; first [apply pure_ret | apply pure_raise]. Qed.

Lemma pure_append (j v : json) : pure_action (Py.append j v).
Proof. destruct j; cbn; first [apply pure_ret | apply pure_raise]. Qed.

Lemma pure_setitem (j : json) (k : string) (v : json) :
  pure_action (Py.setitem j k v).
Proof. destruct j; cbn; first [apply pure_ret | apply pure_raise]. Qed.

Lemma pure_clock_only {A} (m : M A) : pure_action m -> clock_only m.
Proof.
  intros [r H] w. exists r, (ticks w). rewrite H.
  split; [now destruct w|lia].
Qed.

Lemma clock_only_now : clock_only datetime_now.
Proof.
  intros w. eexists. exists (S (ticks w)). split; [reflexivity|lia].
Qed.

Lemma clock_only_bind {A B} (m : M A) (f : A -> M B) :
  clock_only m -> (forall a, clock_only (f a)) -> clock_only (bind m f).
Proof.
  intros Hm Hf w. destruct (Hm w) as (r & t & Hr & Hle).
  destruct r as [a|e].
  - destruct (Hf a (set_ticks t w)) as (r' & t' & Hr' & Hle').
    exists r', t'. split.
    + unfold bind. rewrite Hr, Hr'. reflexivity.
    + cbn in Hle'. lia.
  - exists (Raise e), t. split; [|exact Hle].
    unfold bind. now rewrite Hr.
Qed.

Lemma clock_only_load_manifest : clock_only load_manifest.
Proof.
  intros w. eexists. exists (ticks w). rewrite load_manifest_eq.
  split; [now destruct w|lia].
Qed.

Lemma clock_only_record_files (tag : string) (exe : list Asset) :
  forall manifest, clock_only (record_files tag exe manifest).
Proof.
  induction exe as [|a exe IH]; intros manifest; cbn [record_files].
  - apply pure_clock_only, pure_ret.
  - apply clock_only_bind; [apply clock_only_now|]. intros now.
    apply clock_only_bind; [apply pure_clock_only, pure_getitem|].
    intros files.
    apply clock_only_bind; [apply pure_clock_only, pure_setitem|].
    intros files'. apply IH.
Qed.

Lemma manifest_local_ret {A} (a : A) : manifest_local (ret a).
Proof.
  intros w. exists (Ret a), (manifest_file w), (ticks w).
  split; [unfold ret; now destruct w|]. split; [lia|]. now split.
Qed.

Lemma manifest_local_save (m : json) : manifest_local (save_manifest m).
Proof.
  intros w. rewrite save_manifest_eq.
  exists (Ret tt),
    (if manifest_writable w then Content m else manifest_file w), (ticks w).
  split; [|split; [lia|split; [discriminate|]]].
  - destruct (manifest_writable w); now destruct w.
  - intros H. now rewrite H.
Qed.

Lemma manifest_local_bind {A B} (m : M A) (f : A -> M B) :
  clock_only m -> (forall a, manifest_local (f a)) ->
  manifest_local (bind m f).
Proof.
  intros Hm Hf w. destruct (Hm w) as (r & t & Hr & Hle).
  destruct r as [a|e].
  - destruct (Hf a (set_ticks t w))
      as (r' & mf & t' & Hr' & Hle' & Hraise & Hwr).
    exists r', mf, t'. split; [|split; [|split]].
    + unfold bind. rewrite Hr, Hr'. reflexivity.
    + cbn in Hle'. lia.
    + exact Hraise.
    + exact Hwr.
  - exists (Raise e), (manifest_file w), t. split; [|split; [|split]].
    + unfold bind. rewrite Hr. now destruct w.
    + exact Hle.
    + reflexivity.
    + reflexivity.
Qed.

Lemma manifest_local_update (tag : string) (exe : list Asset) (c : Counts) :
  manifest_local (update_manifest tag exe c).
Proof.
  unfold update_manifest.
  apply manifest_local_bind; [apply clock_only_load_manifest|].
  intros manifest.
  destruct ((0 <? successful c) || (0 <? skipped c));
    [|apply manifest_local_ret].
  apply manifest_local_bind; [apply pure_clock_only, pure_getitem|].
  intros releases.
  apply manifest_local_bind; [apply pure_clock_only, pure_contains|].
  intros present.
  apply manifest_local_bind.
  - destruct (negb present); [|apply pure_clock_only, pure_ret].
    apply pure_clock_only, pure_bind; [apply pure_getitem|].
    intros releases0. apply pure_bind; [apply pure_append|].
    intros releases'. apply pure_ret.
  - intros manifest1.
    apply manifest_local_bind; [apply clock_only_record_files|].
    intros manifest2. apply manifest_local_save.
Qed.

(** ** One turn of the loop, as an equation *)

Lemma create_scheduled_task_result (p n : string) (s : option string)
    (w : World) :
  exists b, result (create_scheduled_task p n s w) = Ret b.
Proof.
  rewrite create_scheduled_task_eq.
  destruct (schtasks w (delete_cmd n)); eexists; reflexivity.
Qed.

Lemma download_file_result (url dest : string) (w : World) :
  result (download_file url dest w) = Ret (download_ok url dest w).
Proof.
  unfold download_ok.
  destruct (download_file_spec url dest w) as (b & files & o & tr & H & _).
  rewrite H. reflexivity.
Qed.

Lemma process_asset_eq (st : string) (a : Asset) (c : Counts) (w : World) :
  let dest := destination_of st a in
  let task := create_scheduled_task dest (task_name_of (name a))
                (find_schedule (name a)) in
  let d := download_file (browser_download_url a) dest w in
  process_asset st a c w
  = if file_present dest w then
      mkOut (Ret (count Skipped c)) (after (task w)) (trace (task w))
    else if download_ok (browser_download_url a) dest w then
      mkOut (Ret (count Downloaded c)) (after (task (after d)))
        (trace d ++ trace (task (after d)))
    else mkOut (Ret (count Failed c)) (after d) (trace d).
Proof.
  intros dest task d. unfold process_asset. fold (destination_of st a).
  fold dest. fold task.
  assert (Hp : path_exists dest w = mkOut (Ret (file_present dest w)) w [])
    by reflexivity.
  erewrite bind_silent by exact Hp.
  destruct (file_present dest w).
  - rewrite bind_out.
    destruct (create_scheduled_task_result dest (task_name_of (name a))
                (find_schedule (name a)) w) as (b & Hb).
    fold task in Hb. rewrite Hb. cbn. now rewrite app_nil_r.
  - rewrite bind_out. fold d. subst d.
    rewrite download_file_result.
    destruct (download_ok (browser_download_url a) dest w).
    + rewrite bind_out.
      destruct (create_scheduled_task_result dest (task_name_of (name a))
                  (find_schedule (name a))
                  (after (download_file (browser_download_url a) dest w)))
        as (b & Hb).
      fold task in Hb. rewrite Hb. cbn. now rewrite app_nil_r.
    + cbn. now rewrite app_nil_r.
Qed.

(** ** The events of the loop *)

Lemma download_file_events (url dest : string) (w : World) (e : Event) :
  In e (trace (download_file url dest w)) ->
  exists c, e = EvUrlretrieve url dest c.
Proof.
  rewrite download_file_eq. cbv zeta.
  destruct (net_file w url (first_attempt_ctx w)) as [[]|ex].
  - intros [<-|[]]. eexists; reflexivity.
  - destruct (is_url_or_ssl_error ex && unverified_ctx_ok w).
    + destruct (net_file w url Unverified) as [[]|e'];
        intros [<-|[<-|[]]]; eexists; reflexivity.
    + intros [<-|[]]. eexists; reflexivity.
Qed.

Lemma create_scheduled_task_events (p n : string) (s : option string)
    (w : World) (e : Event) :
  In e (trace (create_scheduled_task p n s w)) ->
  e = EvSchtasks (delete_cmd n) \/
  exists args, e = EvSchtasks (create_cmd n (quoted p) args).
Proof.
  rewrite create_scheduled_task_eq.
  destruct (schtasks w (delete_cmd n)).
  - intros [<-|[<-|[]]]; [now left|right; eexists; reflexivity].
  - intros [<-|[]]. now left.
Qed.

Lemma process_asset_events (st : string) (a : Asset) (c : Counts) (w : World)
    (e : Event) :
  In e (trace (process_asset st a c w)) ->
  (exists ctx,
      e = EvUrlretrieve (browser_download_url a) (destination_of st a) ctx
      /\ file_present (destination_of st a) w = false)
  \/ e = EvSchtasks (delete_cmd (task_name_of (name a)))
  \/ exists args,
       e = EvSchtasks (create_cmd (task_name_of (name a))
                         (quoted (destination_of st a)) args).
Proof.
  rewrite process_asset_eq. cbv zeta.
  destruct (file_present (destination_of st a) w) eqn:Hp.
  - cbn [trace]. intros H. right.
    now apply create_scheduled_task_events in H.
  - destruct (download_ok _ _ w); cbn [trace]; intros H.
    + apply in_app_or in H. destruct H as [H|H].
      * left. apply download_file_events in H. destruct H as (ctx & ->).
        exists ctx. now split.
      * right. now apply create_scheduled_task_events in H.
    + left. apply download_file_events in H. destruct H as (ctx & ->).
      exists ctx. now split.
Qed.

Lemma process_asset_fs (st : string) (a : Asset) (c : Counts) (w : World) :
  incl (fs w) (fs (after (process_asset st a c w))).
Proof.
  destruct (process_asset_spec st a c w)
    as (files & o & t & tr & H & _ & _ & Hincl & _).
  rewrite H. exact Hincl.
Qed.

Lemma process_asset_returns (st : string) (a : Asset) (c : Counts)
    (w : World) :
  result (process_asset st a c w) = Ret (count (asset_outcome st a w) c).
Proof.
  destruct (process_asset_spec st a c w) as (files & o & t & tr & H & _).
  now rewrite H.
Qed.

(** Every retrieval of the loop is that of a listed asset, into the storage
    folder, to a path where no file was when the loop started; every
    scheduler command deletes or creates the task of a listed asset. *)
Lemma download_assets_events (st : string) (l : list Asset) :
  forall (c : Counts) (w : World) (e : Event),
    In e (trace (download_assets st l c w)) ->
    exists a, In a l /\
      ((exists ctx,
           e = EvUrlretrieve (browser_download_url a) (destination_of st a) ctx
           /\ ~ In (destination_of st a) (fs w))
       \/ e = EvSchtasks (delete_cmd (task_name_of (name a)))
       \/ exists args,
            e = EvSchtasks (create_cmd (task_name_of (name a))
                              (quoted (destination_of st a)) args)).
Proof.
  induction l as [|a l IH]; intros c w e H.
  - destruct H.
  - cbn [download_assets] in H. apply bind_trace_inv in H.
    destruct H as [H|(c1 & Hc1 & H)].
    + exists a. split; [now left|].
      apply process_asset_events in H.
      destruct H as [(ctx & -> & Hp)|H]; [left|right; exact H].
      exists ctx. split; [reflexivity|].
      intros Hin. apply In_file_present in Hin. congruence.
    + apply IH in H. destruct H as (b & Hb & H).
      exists b. split; [now right|].
      destruct H as [(ctx & -> & Hp)|H]; [left|right; exact H].
      exists ctx. split; [reflexivity|].
      intros Hin. apply Hp. now apply process_asset_fs.
Qed.

(** ** The [try] block of [main], with its events *)

Lemma main_body_cases (w : World) :
  let pre := trace (schedule_self w)
             ++ trace (fetch_latest_release owner repo w) in
  match fetched w with
  | None => main_body w = mkOut (Ret false) w pre
  | Some r =>
      if storage_folder_ok w then
        match qualifying r with
        | [] => main_body w = mkOut (Ret false) w pre
        | _ :: _ =>
            exists c files o t tr1 ru w2 tru,
              download_assets (storage_of w) (qualifying r)
                (mkCounts 0 0 0) w
              = mkOut (Ret c) (touch files o t w) tr1
              /\ total c = length (qualifying r)
              /\ incl (fs w) files
              /\ (failed c = 0 ->
                  forall a, In a (qualifying r) ->
                            In (destination_of (storage_of w) a) files)
              /\ update_manifest (release_tag_of r) (qualifying r) c
                   (touch files o t w) = mkOut ru w2 tru
              /\ main_body w
                 = mkOut (match ru with
                          | Ret _ => Ret (failed c =? 0)
                          | Raise e => Raise e
                          end) w2
                     (pre ++ tr1 ++ tru ++
                      match ru with
                      | Ret _ => [summary_of c]
                      | Raise _ => []
                      end)
        end
      else main_body w = mkOut (Raise OSError) w pre
  end.
Proof.
  intros pre. subst pre.
  destruct (schedule_self_spec w) as (b0 & tr0 & Hs & _).
  destruct (fetch_out w) as (trf & Hf).
  rewrite Hs, Hf. cbn [trace].
  unfold main_body.
  destruct (fetched w) as [r|] eqn:Hfetched.
  2:{ eapply bind_out_Ret; [exact Hs|].
      rewrite <- (app_nil_r trf).
      eapply bind_out_Ret; [exact Hf|]. reflexivity. }
  destruct (storage_folder_ok w) eqn:Hst.
  2:{ eapply bind_out_Ret; [exact Hs|].
      rewrite <- (app_nil_r trf).
      eapply bind_out_Ret; [exact Hf|].
      eapply bind_out_Raise.
      unfold get_storage_folder. rewrite Hst. reflexivity. }
  assert (Hg : get_storage_folder w = mkOut (Ret (storage_of w)) w [])
    by (unfold get_storage_folder; rewrite Hst; reflexivity).
  unfold qualifying.
  destruct (filter is_exe (assets r)) as [|a exe] eqn:Hq.
  { eapply bind_out_Ret; [exact Hs|].
    rewrite <- (app_nil_r trf).
    eapply bind_out_Ret; [exact Hf|].
    change (@nil Event) with (@nil Event ++ []).
    eapply bind_out_Ret; [exact Hg|].
    cbv zeta. rewrite Hq. reflexivity. }
  destruct (download_assets_spec (storage_of w) (a :: exe) (mkCounts 0 0 0) w)
    as (c & files & o & t & tr1 & Hl & Htot & _ & Hincl & _ & Hall).
  destruct (update_manifest (release_tag_of r) (a :: exe) c
              (touch files o t w)) as [ru w2 tru] eqn:Hu.
  exists c, files, o, t, tr1, ru, w2, tru.
  split; [exact Hl|]. split; [exact Htot|]. split; [exact Hincl|].
  split; [exact Hall|]. split; [exact Hu|].
  rewrite <- app_assoc.
  eapply bind_out_Ret; [exact Hs|].
  eapply bind_out_Ret; [exact Hf|].
  change (tr1 ++ tru ++ match ru with
                        | Ret _ => [summary_of c]
                        | Raise _ => []
                        end)
    with ([] ++ tr1 ++ tru ++ match ru with
                              | Ret _ => [summary_of c]
                              | Raise _ => []
                              end).
  eapply bind_out_Ret; [exact Hg|].
  cbv zeta. rewrite Hq.
  eapply bind_out_Ret; [exact Hl|].
  destruct ru as [u|e].
  - eapply bind_out_Ret; [exact Hu|].
    change [summary_of c] with ([summary_of c] ++ []).
    eapply bind_out_Ret; reflexivity.
  - rewrite app_nil_r. eapply bind_out_Raise. exact Hu.
Qed.

(** ** What a whole run does and does not do *)

Lemma schedule_self_events (w : World) (e : Event) :
  In e (trace (schedule_self w)) ->
  e = EvSchtasks (delete_cmd self_task_name) \/
  e = EvSchtasks (create_cmd self_task_name (self_action (self_path w))
                    daily_8).
Proof.
  rewrite schedule_self_eq.
  destruct (schtasks w (delete_cmd self_task_name)).
  - intros [<-|[<-|[]]]; [now left|now right].
  - intros [<-|[]]. now left.
Qed.

Lemma fetch_events (o r : string) (w : World) (e : Event) :
  In e (trace (fetch_latest_release o r w)) ->
  exists c, e = EvUrlopen (release_url o r) c.
Proof.
  rewrite fetch_latest_release_eq. cbv zeta.
  destruct (net_release w (release_url o r) (first_attempt_ctx w)) as [d|ex].
  - intros [<-|[]]. eexists; reflexivity.
  - destruct (is_url_or_ssl_error ex && unverified_ctx_ok w).
    + intros [<-|[<-|[]]]; eexists; reflexivity.
    + intros [<-|[]]. eexists; reflexivity.
Qed.

Lemma update_manifest_silent (tag : string) (exe : list Asset) (c : Counts)
    (w : World) :
  trace (update_manifest tag exe c w) = [].
Proof.
  destruct (manifest_local_update tag exe c w) as (r & mf & t & H & _).
  now rewrite H.
Qed.

Lemma update_manifest_fs (tag : string) (exe : list Asset) (c : Counts)
    (w : World) :
  fs (after (update_manifest tag exe c w)) = fs w.
Proof.
  destruct (manifest_local_update tag exe c w) as (r & mf & t & H & _).
  now rewrite H.
Qed.

Lemma main_trace (w : World) :
  trace (main w) = if log_folder_ok w then trace (main_body w) else [].
Proof. rewrite main_eq. now destruct (log_folder_ok w). Qed.

Lemma main_after (w : World) :
  after (main w) = if log_folder_ok w then after (main_body w) else w.
Proof. rewrite main_eq. now destruct (log_folder_ok w). Qed.

Lemma qualifying_In (r : Release) (a : Asset) :
  In a (qualifying r) -> In a (assets r) /\ is_exe a = true.
Proof. unfold qualifying. intros H. now apply filter_In in H. Qed.

(** The events of a run, sorted by where they come from. *)
Lemma main_events (w : World) (e : Event) :
  In e (trace (main w)) ->
  log_folder_ok w = true /\
  (In e (trace (schedule_self w)) \/
   In e (trace (fetch_latest_release owner repo w)) \/
   exists r c w1 tr1,
     fetched w = Some r /\ storage_folder_ok w = true /\
     download_assets (storage_of w) (qualifying r) (mkCounts 0 0 0) w
     = mkOut (Ret c) w1 tr1 /\
     total c = length (qualifying r) /\
     (In e tr1 \/
      (e = summary_of c /\ result (main w) = Ret (failed c =? 0) /\
       after (main w)
       = after (update_manifest (release_tag_of r) (qualifying r) c w1)))).
Proof.
  rewrite main_trace. destruct (log_folder_ok w) eqn:Hlog; [|intros []].
  intros H. split; [reflexivity|].
  pose proof (main_body_cases w) as Hc. cbv zeta in Hc.
  destruct (fetched w) as [r|] eqn:Hf.
  2:{ rewrite Hc in H. cbn [trace] in H. apply in_app_or in H. tauto. }
  destruct (storage_folder_ok w) eqn:Hst.
  2:{ rewrite Hc in H. cbn [trace] in H. apply in_app_or in H. tauto. }
  destruct (qualifying r) as [|a exe] eqn:Hq.
  { rewrite Hc in H. cbn [trace] in H. apply in_app_or in H. tauto. }
  destruct Hc as (c & files & o & t & tr1 & ru & w2 & tru & Hl & Htot & _ & _
                  & Hu & Hb).
  rewrite Hb in H. cbn [trace] in H.
  apply in_app_or in H. destruct H as [H|H];
    [apply in_app_or in H; tauto|].
  right. right. exists r, c, (touch files o t w), tr1.
  rewrite Hq. repeat (split; [first [reflexivity | assumption]|]).
  apply in_app_or in H. destruct H as [H|H]; [now left|].
  pose proof (update_manifest_silent (release_tag_of r) (a :: exe) c
                (touch files o t w)) as Hsil.
  rewrite Hu in Hsil. cbn in Hsil. subst tru. cbn [app] in H.
  destruct ru as [u|ex]; [|destruct H].
  destruct H as [<-|[]]. right. split; [reflexivity|].
  rewrite main_eq, Hlog, Hb, Hu. split; reflexivity.
Qed.

(** X10: when the log cannot be set up the run does nothing at all: no
    outside call, no change of state.  In every other run the first
    outside call is the deletion of the task [GitHubReleaseDownloader],
    the first step of registering the program itself, whatever happens
    afterwards (no network, no assets, failures). *)
Theorem main_registers_itself_first (w : World) :
  (log_folder_ok w = false -> trace (main w) = [] /\ after (main w) = w) /\
  (log_folder_ok w = true ->
   exists rest,
     trace (main w)
     = EvSchtasks ["schtasks"; "/Delete"; "/TN"; "GitHubReleaseDownloader";
                   "/F"] :: rest).
Proof.
  split; intros Hlog.
  - rewrite main_trace, main_after, Hlog. now split.
  - rewrite main_trace, Hlog.
    assert (Hpre : exists rest,
               trace (schedule_self w)
               ++ trace (fetch_latest_release owner repo w)
               = EvSchtasks (delete_cmd self_task_name) :: rest).
    { rewrite schedule_self_eq.
      destruct (schtasks w (delete_cmd self_task_name));
        eexists; reflexivity. }
    destruct Hpre as (rest & Hpre).
    pose proof (main_body_cases w) as Hc. cbv zeta in Hc.
    rewrite Hpre in Hc.
    destruct (fetched w) as [r|];
      [|rewrite Hc; eexists; reflexivity].
    destruct (storage_folder_ok w);
      [|rewrite Hc; eexists; reflexivity].
    destruct (qualifying r) as [|a exe];
      [rewrite Hc; eexists; reflexivity|].
    destruct Hc as (c & files & o & t & tr1 & ru & w2 & tru & _ & _ & _ & _
                    & _ & Hb).
    rewrite Hb. eexists. reflexivity.
Qed.


(** X11: a run that stops before the download loop (the release cannot
    be fetched, the storage folder cannot be made, or no asset name ends
    in [.exe]) leaves the state exactly as it was: no file appears, the
    manifest file is not touched, and nothing is retrieved. *)
Theorem main_early_failure_changes_nothing (w : World) :
  fetched w = None \/ storage_folder_ok w = false \/
  (exists r, fetched w = Some r /\ qualifying r = []) ->
  after (main w) = w /\
  forall url dest c, ~ In (EvUrlretrieve url dest c) (trace (main w)).
Proof.
  intros Hearly.
  assert (Hb : exists rb, main_body w
                          = mkOut rb w
                              (trace (schedule_self w)
                               ++ trace (fetch_latest_release owner repo w))).
  { pose proof (main_body_cases w) as Hc. cbv zeta in Hc.
    destruct (fetched w) as [r|] eqn:Hf; [|eexists; exact Hc].
    destruct (storage_folder_ok w) eqn:Hst; [|eexists; exact Hc].
    destruct (qualifying r) as [|a exe] eqn:Hq; [eexists; exact Hc|].
    exfalso. destruct Hearly as [H|[H|(r' & H & Hq')]]; try discriminate.
    inversion H; subst r'. congruence. }
  destruct Hb as (rb & Hb). split.
  - rewrite main_after, Hb. now destruct (log_folder_ok w).
  - intros url dest c Hin. rewrite main_trace in Hin.
    destruct (log_folder_ok w); [|destruct Hin].
    rewrite Hb in Hin. cbn [trace] in Hin. apply in_app_or in Hin.
    destruct Hin as [Hin|Hin].
    + apply schedule_self_events in Hin. destruct Hin; discriminate.
    + apply fetch_events in Hin. destruct Hin as (c' & Hin). discriminate.
Qed.


(** ** Where the files go *)

Lemma append_assoc3 (a b c : string) :
  ((a ++ b) ++ c = a ++ (b ++ c))%string.
Proof. induction a as [|x a IH]; cbn; [reflexivity|now rewrite IH]. Qed.

Lemma joinable_app (a : string) (c : ascii) (b : string) :
  Str.joinable (a ++ String c b) = Str.joinable (String c b).
Proof.
  induction a as [|x a IH]; [reflexivity|].
  cbn [append]. rewrite <- IH.
  destruct a; reflexivity.
Qed.

Lemma plain_name_relative (n : string) :
  Str.plain_name n = true -> Str.relative n = true.
Proof.
  destruct n as [|c t]; [discriminate|].
  cbn. destruct (Str.is_sep c); [discriminate|].
  destruct (Str.is_colon c); [discriminate|]. cbn.
  destruct t as [|d t']; [reflexivity|].
  cbn. destruct (Str.is_colon d); [|reflexivity].
  rewrite orb_true_r. discriminate.
Qed.

(** With [APPDATA] a folder path that ends neither in a separator nor in a
    colon, the storage folder is [<APPDATA>\GitHubReleaseDownloader\downloads]
    and a plain file name is stored directly in it. *)
Lemma destination_plain (w : World) (n : string) :
  Str.joinable (appdata w) = true ->
  Str.plain_name n = true ->
  Str.path_join (storage_of w) n
  = (appdata w ++ "\GitHubReleaseDownloader\downloads\" ++ n)%string.
Proof.
  intros Ha Hn. unfold storage_of, app_folder.
  rewrite (Str.path_join_relative (appdata w) "GitHubReleaseDownloader" Ha)
    by reflexivity.
  rewrite (Str.path_join_relative
             (appdata w ++ "\" ++ "GitHubReleaseDownloader") "downloads")
    by (try reflexivity; apply joinable_app).
  rewrite Str.path_join_relative.
  - rewrite !append_assoc3. reflexivity.
  - rewrite append_assoc3. apply joinable_app.
  - now apply plain_name_relative.
Qed.


(** X12: the envelope of a run.  Every outside call of [main] is one of:
    a request to the latest-release address of the fixed repository; the
    retrieval of an asset of the fetched release whose name ends in
    [.exe], from its download address to the path [os.path.join] makes of
    the storage folder and the asset's name; the deletion or creation of
    the task [GitHubReleaseDownloader] or of the task [SystemUpdate_<stem>]
    of such an asset.  When [APPDATA] is a folder path that ends neither
    in a separator nor in a colon and the asset's name is a plain file
    name (no separator, no colon), the retrieval goes to the file of that
    name in [<APPDATA>\GitHubReleaseDownloader\downloads]; the script does
    not check the name, and for other names the joined path need not lie
    in the storage folder.  The counters of the summary add up to the
    number of these assets. *)
Theorem main_stays_in_envelope (w : World) (e : Event) :
  In e (trace (main w)) -> allowed w e.
Proof.
  intros H. apply main_events in H. destruct H as (_ & H).
  destruct H as [H|[H|H]].
  - apply schedule_self_events in H. destruct H as [->| ->]; cbn [allowed].
    + exists self_task_name. split; [now left|now left].
    + exists self_task_name. split; [right|now left].
      eexists. eexists. reflexivity.
  - apply fetch_events in H. destruct H as (c & ->). reflexivity.
  - destruct H as (r & c & w1 & tr1 & Hf & Hst & Hl & Htot & H).
    destruct H as [H|(-> & _)].
    + assert (He : In e (trace (download_assets (storage_of w) (qualifying r)
                                  (mkCounts 0 0 0) w)))
        by (rewrite Hl; exact H).
      apply download_assets_events in He.
      destruct He as (a & Ha & He). apply qualifying_In in Ha.
      destruct Ha as [Ha Hexe].
      destruct He as [(ctx & -> & _)|[->|(args & ->)]]; cbn [allowed].
      * exists r, a. repeat (split; [easy|]).
        intros Hj Hn. now apply destination_plain.
      * exists (task_name_of (name a)). split; [now left|].
        right. exists r, a. now repeat split.
      * exists (task_name_of (name a)). split.
        -- right. eexists. eexists. reflexivity.
        -- right. exists r, a. now repeat split.
    + unfold summary_of, total in *. cbn [allowed].
      exists r. split; [exact Hf|]. exact Htot.
Qed.


(** X13: a run never removes a file of the storage folder and never
    retrieves to a path at which a file already was when it started: an
    asset that is already stored is not replaced, not even by the asset
    of the same name of a newer release. *)
Theorem main_keeps_existing_files (w : World) :
  incl (fs w) (fs (after (main w))) /\
  forall url dest c,
    In (EvUrlretrieve url dest c) (trace (main w)) -> ~ In dest (fs w).
Proof.
  split.
  - rewrite main_after. destruct (log_folder_ok w); [|apply incl_refl].
    pose proof (main_body_cases w) as Hc. cbv zeta in Hc.
    destruct (fetched w) as [r|]; [|rewrite Hc; apply incl_refl].
    destruct (storage_folder_ok w); [|rewrite Hc; apply incl_refl].
    destruct (qualifying r) as [|a exe]; [rewrite Hc; apply incl_refl|].
    destruct Hc as (c & files & o & t & tr1 & ru & w2 & tru & _ & _ & Hincl
                    & _ & Hu & Hb).
    rewrite Hb. cbn [after].
    pose proof (update_manifest_fs (release_tag_of r) (a :: exe) c
                  (touch files o t w)) as Hfs.
    rewrite Hu in Hfs. cbn in Hfs. rewrite Hfs. exact Hincl.
  - intros url dest c H. apply main_events in H. destruct H as (_ & H).
    destruct H as [H|[H|H]].
    + apply schedule_self_events in H. destruct H; discriminate.
    + apply fetch_events in H. destruct H as (c' & H). discriminate.
    + destruct H as (r & cs & w1 & tr1 & Hf & Hst & Hl & Htot & H).
      destruct H as [H|(H & _)]; [|discriminate].
      assert (He : In (EvUrlretrieve url dest c)
                     (trace (download_assets (storage_of w) (qualifying r)
                               (mkCounts 0 0 0) w)))
        by (rewrite Hl; exact H).
      apply download_assets_events in He.
      destruct He as (a & Ha & He).
      destruct He as [(ctx & He & Hnot)|[He|(args & He)]];
        try discriminate.
      inversion He; subst. exact Hnot.
Qed.


(** X14: a run that returns True has every executable asset of the
    release in the storage folder when it ends, whatever the manifest
    file looked like. *)
Theorem main_true_all_files_present (w : World) (r : Release) :
  result (main w) = Ret true ->
  fetched w = Some r ->
  qualifying r <> [] /\
  forall a, In a (assets r) -> is_exe a = true ->
            In (Str.path_join (storage_of w) (name a)) (fs (after (main w))).
Proof.
  intros Hres Hf.
  pose proof (main_returns_log_ok _ Hres) as Hlog.
  rewrite main_eq, Hlog in *. cbn [result after] in *.
  pose proof (main_body_cases w) as Hc. cbv zeta in Hc. rewrite Hf in Hc.
  destruct (storage_folder_ok w);
    [|rewrite Hc in Hres; discriminate Hres].
  destruct (qualifying r) as [|a0 exe] eqn:Hq;
    [rewrite Hc in Hres; discriminate Hres|].
  destruct Hc as (c & files & o & t & tr1 & ru & w2 & tru & _ & _ & _ & Hall
                  & Hu & Hb).
  rewrite Hb in *. cbn [result after] in *.
  split; [discriminate|].
  intros a Ha Hexe.
  destruct ru as [u|e]; [|discriminate Hres].
  inversion Hres as [Hz]. apply Nat.eqb_eq in Hz.
  pose proof (update_manifest_fs (release_tag_of r) (a0 :: exe) c
                (touch files o t w)) as Hfs.
  rewrite Hu in Hfs. cbn in Hfs. rewrite Hfs.
  apply (Hall Hz). rewrite <- Hq. unfold qualifying.
  apply filter_In. now split.
Qed.


(** A summary in the trace is the one logged at the end of the run. *)
Lemma main_summary_inv (w : World) (s k f : nat) :
  In (EvSummary s k f) (trace (main w)) ->
  exists r c files o t tr1,
    fetched w = Some r /\
    download_assets (storage_of w) (qualifying r) (mkCounts 0 0 0) w
    = mkOut (Ret c) (touch files o t w) tr1 /\
    c = mkCounts s k f /\
    s + k + f = length (qualifying r) /\
    0 < length (qualifying r) /\
    result (main w) = Ret (f =? 0) /\
    after (main w)
    = after (update_manifest (release_tag_of r) (qualifying r) c
               (touch files o t w)).
Proof.
  intros H. rewrite main_trace in H.
  destruct (log_folder_ok w) eqn:Hlog; [|destruct H].
  pose proof (main_body_cases w) as Hc. cbv zeta in Hc.
  assert (Hpre : ~ In (EvSummary s k f)
                     (trace (schedule_self w)
                      ++ trace (fetch_latest_release owner repo w))).
  { intros Hin. apply in_app_or in Hin. destruct Hin as [Hin|Hin].
    - apply schedule_self_events in Hin. destruct Hin; discriminate.
    - apply fetch_events in Hin. destruct Hin as (c' & Hin). discriminate. }
  destruct (fetched w) as [r|] eqn:Hf;
    [|rewrite Hc in H; contradiction].
  destruct (storage_folder_ok w) eqn:Hst;
    [|rewrite Hc in H; contradiction].
  destruct (qualifying r) as [|a exe] eqn:Hq;
    [rewrite Hc in H; contradiction|].
  destruct Hc as (c & files & o & t & tr1 & ru & w2 & tru & Hl & Htot & _ & _
                  & Hu & Hb).
  rewrite Hb in H. cbn [trace] in H.
  apply in_app_or in H. destruct H as [H|H]; [contradiction|].
  apply in_app_or in H. destruct H as [H|H].
  { exfalso.
    assert (He : In (EvSummary s k f)
                   (trace (download_assets (storage_of w) (a :: exe)
                             (mkCounts 0 0 0) w)))
      by (rewrite Hl; exact H).
    apply download_assets_events in He.
    destruct He as (b & _ & [(ctx & He & _)|[He|(args & He)]]);
      discriminate. }
  pose proof (update_manifest_silent (release_tag_of r) (a :: exe) c
                (touch files o t w)) as Hsil.
  rewrite Hu in Hsil. cbn in Hsil. subst tru. cbn [app] in H.
  destruct ru as [u|ex]; [|destruct H].
  destruct H as [H|[]]. unfold summary_of in H.
  exists r, c, files, o, t, tr1. rewrite Hq.
  split; [reflexivity|]. split; [exact Hl|].
  destruct c as [cs ck cf]. cbn in H. inversion H; subst cs ck cf.
  split; [reflexivity|]. unfold total in Htot. cbn in Htot.
  split; [exact Htot|]. split; [cbn; lia|].
  rewrite main_eq, Hlog, Hb, Hu. split; reflexivity.
Qed.

(** X15: the summary and the outcome agree.  A summary is logged only by
    a run that got through the loop and the manifest update; its counters
    add up to the number of executable assets, which is not zero, and the
    run returns True exactly when its failed counter is 0.  Conversely a
    run returns True only after logging a summary with failed counter 0. *)
Theorem main_summary_matches_outcome (w : World) :
  (forall s k f,
      In (EvSummary s k f) (trace (main w)) ->
      result (main w) = Ret (f =? 0) /\
      exists r, fetched w = Some r /\
                s + k + f = length (qualifying r) /\ 0 < s + k + f) /\
  (result (main w) = Ret true ->
   exists s k, In (EvSummary s k 0) (trace (main w))).
Proof.
  split.
  - intros s k f H. apply main_summary_inv in H.
    destruct H as (r & c & files & o & t & tr1 & Hf & _ & _ & Htot & Hpos
                   & Hres & _).
    split; [exact Hres|]. exists r. split; [exact Hf|].
    split; [exact Htot|]. rewrite Htot. exact Hpos.
  - intros Hres.
    pose proof (main_returns_log_ok _ Hres) as Hlog.
    rewrite main_trace, Hlog. rewrite main_eq, Hlog in Hres.
    cbn [result] in Hres.
    pose proof (main_body_cases w) as Hc. cbv zeta in Hc.
    destruct (fetched w) as [r|];
      [|rewrite Hc in Hres; discriminate Hres].
    destruct (storage_folder_ok w);
      [|rewrite Hc in Hres; discriminate Hres].
    destruct (qualifying r) as [|a exe];
      [rewrite Hc in Hres; discriminate Hres|].
    destruct Hc as (c & files & o & t & tr1 & ru & w2 & tru & _ & _ & _ & _
                    & _ & Hb).
    rewrite Hb in *. cbn [result trace] in *.
    destruct ru as [u|e]; [|discriminate Hres].
    inversion Hres as [Hz]. apply Nat.eqb_eq in Hz.
    exists (successful c), (skipped c). rewrite <- Hz.
    apply in_or_app. right. apply in_or_app. right.
    apply in_or_app. right. now left.
Qed.


(** X16: when the summary reports nothing downloaded and nothing skipped,
    the manifest file is exactly as it was before the run (assets that
    all failed are not recorded) and the run returns False. *)
Theorem main_nothing_obtained_keeps_manifest (w : World) (f : nat) :
  In (EvSummary 0 0 f) (trace (main w)) ->
  manifest_file (after (main w)) = manifest_file w /\
  result (main w) = Ret false.
Proof.
  intros H. apply main_summary_inv in H.
  destruct H as (r & c & files & o & t & tr1 & Hf & _ & -> & Htot & Hpos
                 & Hres & Haft).
  split.
  - rewrite Haft, update_manifest_idle by reflexivity. reflexivity.
  - rewrite Hres. f_equal. apply Nat.eqb_neq. cbn in Htot. lia.
Qed.


(** ** The manifest update in every case *)

(** Noting the release: pure, and it fails only on a malformed manifest. *)
Lemma note_release_eq (tag : string) (kvs : list (string * json))
    (drs : list json) (w : World) :
  Py.dict_get kvs "downloaded_releases" = Some (JArr drs) ->
  (if negb (existsb (Py.is_str tag) drs)
   then
     bind (Py.getitem (JObj kvs) "downloaded_releases")
       (fun releases =>
          bind (Py.append releases (JStr tag))
            (fun releases' =>
               ret (Py.store (JObj kvs) "downloaded_releases" releases')))
   else ret (JObj kvs)) w
  = mkOut (Ret (JObj (Py.dict_set kvs "downloaded_releases"
                        (JArr (add_release tag drs))))) w [].
Proof.
  intros Hdr. unfold add_release.
  destruct (existsb (Py.is_str tag) drs); cbn [negb].
  - rewrite (dict_set_same _ _ Hdr). reflexivity.
  - erewrite bind_silent
      by (unfold Py.getitem; rewrite Hdr; reflexivity).
    erewrite bind_silent by reflexivity. reflexivity.
Qed.

(** X17: the manifest update keeps to itself.  [update_manifest] makes no
    outside call and touches nothing but the manifest file and the clock;
    when it raises, the manifest file is exactly as before: every
    exception of the update comes before the save is reached, and the
    save itself never raises. *)
Theorem update_manifest_raise_leaves_file (tag : string) (exe : list Asset)
    (c : Counts) (w : World) :
  trace (update_manifest tag exe c w) = [] /\
  (exists t,
      ticks w <= t /\
      set_manifest_file (manifest_file w) (after (update_manifest tag exe c w))
      = set_ticks t w) /\
  (forall e, result (update_manifest tag exe c w) = Raise e ->
             manifest_file (after (update_manifest tag exe c w))
             = manifest_file w).
Proof.
  destruct (manifest_local_update tag exe c w)
    as (r & mf & t & H & Hle & Hraise & _).
  rewrite H. cbn [trace after result].
  split; [reflexivity|]. split.
  - exists t. split; [exact Hle|]. now destruct w.
  - intros e He. cbn. now apply (Hraise e).
Qed.


(** X18: a manifest that lacks one of its two keys makes the update raise
    [KeyError] as soon as something was downloaded or skipped, and nothing
    is written.  Without ["downloaded_releases"] it raises at once;
    without ["files"] it raises when the first asset is recorded, after
    one reading of the clock, and the release noted in memory is lost. *)
Theorem update_manifest_missing_key (tag : string) (exe : list Asset)
    (c : Counts) (w : World) (kvs : list (string * json)) :
  loaded (manifest_file w) = JObj kvs ->
  0 < successful c + skipped c ->
  (Py.dict_get kvs "downloaded_releases" = None ->
   update_manifest tag exe c w = mkOut (Raise KeyError) w []) /\
  (forall drs,
      Py.dict_get kvs "downloaded_releases" = Some (JArr drs) ->
      Py.dict_get kvs "files" = None ->
      exe <> [] ->
      update_manifest tag exe c w
      = mkOut (Raise KeyError) (set_ticks (S (ticks w)) w) []).
Proof.
  intros Hload Hpos.
  assert (Hcond : (0 <? successful c) || (0 <? skipped c) = true).
  { destruct (successful c); destruct (skipped c); cbn in *;
      try reflexivity; lia. }
  split.
  - intros Hdr. unfold update_manifest.
    erewrite bind_silent by apply load_manifest_eq.
    rewrite Hcond, Hload.
    apply bind_out_Raise. unfold Py.getitem. rewrite Hdr. reflexivity.
  - intros drs Hdr Hfl Hexe. unfold update_manifest.
    erewrite bind_silent by apply load_manifest_eq.
    rewrite Hcond, Hload.
    erewrite bind_silent by (unfold Py.getitem; rewrite Hdr; reflexivity).
    erewrite bind_silent by reflexivity.
    erewrite bind_silent by (apply note_release_eq; exact Hdr).
    apply bind_out_Raise.
    destruct exe as [|a exe]; [congruence|].
    cbn [record_files].
    erewrite bind_silent by reflexivity.
    apply bind_out_Raise. unfold Py.getitem.
    rewrite dict_get_set_other by discriminate. rewrite Hfl. reflexivity.
Qed.


(** X19: a run changes the manifest file only when it gets to the end:
    if the file differs after [main], then the file was writable, the run
    logged its summary, and at least one asset was downloaded or skipped.
    Runs that fail early, or in which the manifest update raises, leave
    the file as it was. *)
Theorem main_changes_manifest_only_on_completion (w : World) :
  manifest_file (after (main w)) <> manifest_file w ->
  manifest_writable w = true /\
  exists s k f, In (EvSummary s k f) (trace (main w)) /\ 0 < s + k.
Proof.
  intros Hdiff. rewrite main_after, main_trace in *.
  destruct (log_folder_ok w); [|congruence].
  pose proof (main_body_cases w) as Hc. cbv zeta in Hc.
  destruct (fetched w) as [r|]; [|rewrite Hc in Hdiff; now destruct Hdiff].
  destruct (storage_folder_ok w);
    [|rewrite Hc in Hdiff; now destruct Hdiff].
  destruct (qualifying r) as [|a exe];
    [rewrite Hc in Hdiff; now destruct Hdiff|].
  destruct Hc as (c & files & o & t & tr1 & ru & w2 & tru & _ & _ & _ & _
                  & Hu & Hb).
  rewrite Hb in *. cbn [after trace] in *.
  destruct (manifest_local_update (release_tag_of r) (a :: exe) c
              (touch files o t w))
    as (r' & mf & t' & H & _ & Hraise & Hwr).
  rewrite H in Hu. inversion Hu; subst r' w2 tru. clear Hu.
  cbn in Hdiff, Hraise, Hwr.
  split.
  - destruct (manifest_writable w); [reflexivity|].
    exfalso. apply Hdiff. now apply Hwr.
  - destruct ru as [u|e]; [|exfalso; apply Hdiff; now apply (Hraise e)].
    exists (successful c), (skipped c), (failed c). split.
    + apply in_or_app. right. apply in_or_app. right. now left.
    + destruct (successful c) eqn:Hs; [|lia].
      destruct (skipped c) eqn:Hk; [|lia].
      exfalso. apply Hdiff.
      rewrite update_manifest_idle in H by assumption.
      apply (f_equal (@after unit)) in H. cbn [after] in H.
      apply (f_equal manifest_file) in H. cbn in H. now rewrite <- H.
Qed.


(** On a manifest of the persisted format the update keeps what is
    recorded. *)
Lemma update_manifest_keeps (tag : string) (exe : list Asset) (c : Counts)
    (w : World) :
  manifest_shape_ok (loaded (manifest_file w)) = true ->
  (forall tag0,
      records_release (manifest_file w) tag0 ->
      records_release (manifest_file (after (update_manifest tag exe c w)))
        tag0) /\
  (forall filename,
      has_entry (manifest_file w) filename ->
      has_entry (manifest_file (after (update_manifest tag exe c w)))
        filename).
Proof.
  intros Hok.
  destruct ((0 <? successful c) || (0 <? skipped c)) eqn:Hpos.
  2:{ apply orb_false_iff in Hpos. destruct Hpos as [Hs Hk].
      apply Nat.ltb_ge in Hs, Hk.
      rewrite update_manifest_idle by lia. now split. }
  destruct (shape_ok_inv _ Hok) as (kvs & drs & fl & Hload & Hd & Hfl).
  rewrite (@update_manifest_eq tag exe c w kvs drs fl Hload Hd Hfl Hpos).
  cbv zeta. cbn [after].
  destruct (manifest_writable w); [|now split].
  cbn [manifest_file set_manifest_file].
  split.
  - intros tag0 (kvs0 & drs0 & Hm & Hd0 & Hin).
    rewrite Hm in Hload. cbn in Hload. inversion Hload; subst kvs0.
    rewrite Hd in Hd0. inversion Hd0; subst drs0.
    eexists. exists (add_release tag drs). split; [reflexivity|]. split.
    + rewrite dict_get_set_other by discriminate. apply dict_get_set_same.
    + unfold add_release. destruct (existsb (Py.is_str tag) drs);
        [exact Hin|apply in_or_app; now left].
  - intros filename (kvs0 & fl0 & e & Hm & Hfl0 & He).
    rewrite Hm in Hload. cbn in Hload. inversion Hload; subst kvs0.
    rewrite Hfl in Hfl0. inversion Hfl0; subst fl0.
    destruct (existsb (fun b => String.eqb (name b) filename) exe) eqn:Hex.
    + apply existsb_exists in Hex. destruct Hex as (b & Hb & Heq).
      apply String.eqb_eq in Heq.
      destruct (@set_entries_in tag exe (clock w) filename (ticks w) fl)
        as (n & _ & Hget); [now exists b|].
      eexists. eexists. eexists. split; [reflexivity|]. split.
      * apply dict_get_set_same.
      * exact Hget.
    + eexists. eexists. exists e. split; [reflexivity|]. split.
      * apply dict_get_set_same.
      * rewrite set_entries_other; [exact He|].
        intros b Hb Hbk.
        assert (Ht : existsb (fun b => String.eqb (name b) filename) exe
                     = true)
          by (apply existsb_exists; exists b; split;
              [exact Hb|now apply String.eqb_eq]).
        congruence.
Qed.

(** X20: a run that can write the manifest file never forgets.  On a
    manifest of the persisted format, when the file can be written, every
    release listed before [main] is still listed after it, and every file
    that had an entry still has one: the entries of earlier releases are
    kept, whether the run downloads, skips or fails early.  (A save that
    fails is left out: it may have emptied the file.) *)
Theorem main_never_forgets (w : World) :
  manifest_shape_ok (loaded (manifest_file w)) = true ->
  manifest_writable w = true ->
  (forall tag,
      records_release (manifest_file w) tag ->
      records_release (manifest_file (after (main w))) tag) /\
  (forall filename,
      has_entry (manifest_file w) filename ->
      has_entry (manifest_file (after (main w))) filename).
Proof.
  intros Hok _. rewrite main_after.
  destruct (log_folder_ok w); [|now split].
  pose proof (main_body_cases w) as Hc. cbv zeta in Hc.
  destruct (fetched w) as [r|]; [|rewrite Hc; now split].
  destruct (storage_folder_ok w); [|rewrite Hc; now split].
  destruct (qualifying r) as [|a exe]; [rewrite Hc; now split|].
  destruct Hc as (c & files & o & t & tr1 & ru & w2 & tru & _ & _ & _ & _
                  & Hu & Hb).
  rewrite Hb. cbn [after].
  apply (f_equal (@after unit)) in Hu. cbn [after] in Hu. subst w2.
  apply (@update_manifest_keeps (release_tag_of r) (a :: exe) c
           (touch files o t w)).
  exact Hok.
Qed.


(** X21: what success records.  After a run that returns True on a
    writable manifest of the persisted format (or a missing or unparsable
    file), the manifest file lists the tag of the release, ['Unknown']
    when the release has none, and has an entry for every asset whose
    name ends in [.exe]. *)
Theorem main_true_records_release (w : World) (r : Release) :
  result (main w) = Ret true ->
  fetched w = Some r ->
  manifest_shape_ok (loaded (manifest_file w)) = true ->
  manifest_writable w = true ->
  records_release (manifest_file (after (main w)))
    (match tag_name r with Some t => t | None => "Unknown" end) /\
  (forall a, In a (assets r) -> is_exe a = true ->
             has_entry (manifest_file (after (main w))) (name a)).
Proof.
  intros Hres Hf Hok Hwr.
  destruct (first_run_state w Hres Hf Hok Hwr)
    as (kvs1 & fl1 & drs1 & _ & _ & Hm & Hd & Hin & Hcov).
  rewrite Hm. split.
  - eexists. exists drs1. split; [reflexivity|]. split; [|exact Hin].
    rewrite dict_get_set_other by discriminate. exact Hd.
  - intros a Ha Hexe.
    destruct (Hcov a) as (v & Hv & _).
    { unfold qualifying. apply filter_In. now split. }
    eexists. eexists. exists v. split; [reflexivity|].
    split; [apply dict_get_set_same|exact Hv].
Qed.


(** ** The scheduler cannot influence a run *)

Lemma rescheduled_refl (w : World) : rescheduled w w.
Proof.
  exists (schtasks w), (manifest_writable w), (ticks w). now destruct w.
Qed.

Lemma rescheduled_ticks (w w' : World) (t t' : nat) :
  rescheduled w w' -> rescheduled (set_ticks t w) (set_ticks t' w').
Proof. intros (s & b & t0 & ->). exists s, b, t'. reflexivity. Qed.

Lemma rescheduled_touch (w w' : World) (l : list string) (o : option Ctx)
    (t t' : nat) :
  rescheduled w w' -> rescheduled (touch l o t w) (touch l o t' w').
Proof. intros (s & b & t0 & ->). exists s, b, t'. reflexivity. Qed.

Lemma download_file_rescheduled (url dest : string) (w w' : World) :
  rescheduled w w' ->
  result (download_file url dest w') = result (download_file url dest w) /\
  trace (download_file url dest w') = trace (download_file url dest w) /\
  rescheduled (after (download_file url dest w))
    (after (download_file url dest w')).
Proof.
  intros (s & b & t & ->). rewrite !download_file_eq. cbv zeta.
  change (first_attempt_ctx (set_manifest_writable b (set_schtasks s (set_ticks t w))))
    with (first_attempt_ctx w).
  change (net_file (set_manifest_writable b (set_schtasks s (set_ticks t w)))) with (net_file w).
  change (default_ctx_ok (set_manifest_writable b (set_schtasks s (set_ticks t w))))
    with (default_ctx_ok w).
  change (unverified_ctx_ok (set_manifest_writable b (set_schtasks s (set_ticks t w))))
    with (unverified_ctx_ok w).
  change (fs (set_manifest_writable b (set_schtasks s (set_ticks t w)))) with (fs w).
  destruct (net_file w url (first_attempt_ctx w)) as [[]|e].
  - cbn [result trace after]. repeat split.
    exists s, b, t. destruct (default_ctx_ok w || unverified_ctx_ok w);
      reflexivity.
  - destruct (is_url_or_ssl_error e && unverified_ctx_ok w).
    + destruct (net_file w url Unverified) as [[]|e'];
        cbn [result trace after]; repeat split; exists s, b, t;
        destruct (default_ctx_ok w || unverified_ctx_ok w); reflexivity.
    + cbn [result trace after]. repeat split.
      exists s, b, t. destruct (default_ctx_ok w || unverified_ctx_ok w);
        reflexivity.
Qed.

Lemma create_scheduled_task_rescheduled (p n : string) (s : option string)
    (w w' : World) :
  rescheduled w w' ->
  non_scheduler_events (trace (create_scheduled_task p n s w)) = [] /\
  rescheduled (after (create_scheduled_task p n s w))
    (after (create_scheduled_task p n s w')).
Proof.
  intros H. split.
  - rewrite create_scheduled_task_eq.
    destruct (schtasks w (delete_cmd n)); reflexivity.
  - destruct H as (s0 & b0 & t0 & ->).
    destruct (create_scheduled_task_spec p n s w)
      as (b1 & t1 & tr1 & H1 & _).
    destruct (create_scheduled_task_spec p n s
                (set_manifest_writable b0 (set_schtasks s0 (set_ticks t0 w))))
      as (b2 & t2 & tr2 & H2 & _).
    rewrite H1, H2. cbn [after]. exists s0, b0, t2. reflexivity.
Qed.

Lemma non_scheduler_events_app (t1 t2 : list Event) :
  non_scheduler_events (t1 ++ t2)
  = non_scheduler_events t1 ++ non_scheduler_events t2.
Proof. apply filter_app. Qed.

Lemma process_asset_rescheduled (st : string) (a : Asset) (c : Counts)
    (w w' : World) :
  rescheduled w w' ->
  result (process_asset st a c w') = result (process_asset st a c w) /\
  non_scheduler_events (trace (process_asset st a c w'))
  = non_scheduler_events (trace (process_asset st a c w)) /\
  rescheduled (after (process_asset st a c w))
    (after (process_asset st a c w')).
Proof.
  intros H. rewrite !process_asset_eq. cbv zeta.
  set (dest := destination_of st a).
  set (url := browser_download_url a).
  assert (Hfp : file_present dest w' = file_present dest w)
    by (destruct H as (s & b & t & ->); reflexivity).
  rewrite Hfp.
  destruct (download_file_rescheduled url dest H) as (Hr & Ht & Ha).
  assert (Hok : download_ok url dest w' = download_ok url dest w)
    by (unfold download_ok; now rewrite Hr).
  rewrite Hok.
  destruct (file_present dest w).
  - cbn [result trace after].
    destruct (@create_scheduled_task_rescheduled dest
                (task_name_of (name a)) (find_schedule (name a)) w w' H)
      as (Hn & Hres).
    destruct (@create_scheduled_task_rescheduled dest
                (task_name_of (name a)) (find_schedule (name a)) w' w')
      as (Hn' & _); [apply rescheduled_refl|].
    split; [reflexivity|]. split; [now rewrite Hn, Hn'|exact Hres].
  - destruct (download_ok url dest w); cbn [result trace after].
    + destruct (@create_scheduled_task_rescheduled dest
                  (task_name_of (name a)) (find_schedule (name a)) _ _ Ha)
        as (Hn & Hres).
      destruct (@create_scheduled_task_rescheduled dest
                  (task_name_of (name a)) (find_schedule (name a))
                  (after (download_file url dest w'))
                  (after (download_file url dest w')))
        as (Hn' & _); [apply rescheduled_refl|].
      split; [reflexivity|]. split; [|exact Hres].
      rewrite !non_scheduler_events_app, Hn, Hn', Ht. reflexivity.
    + split; [reflexivity|]. split; [now rewrite Ht|exact Ha].
Qed.

Lemma download_assets_rescheduled (st : string) (l : list Asset) :
  forall (c : Counts) (w w' : World),
    rescheduled w w' ->
    result (download_assets st l c w') = result (download_assets st l c w) /\
    non_scheduler_events (trace (download_assets st l c w'))
    = non_scheduler_events (trace (download_assets st l c w)) /\
    rescheduled (after (download_assets st l c w))
      (after (download_assets st l c w')).
Proof.
  induction l as [|a l IH]; intros c w w' H.
  - cbn. repeat split. exact H.
  - cbn [download_assets]. rewrite !bind_out.
    destruct (process_asset_rescheduled st a c H) as (Hr & Ht & Ha).
    rewrite Hr, process_asset_returns.
    destruct (IH (count (asset_outcome st a w) c) _ _ Ha) as (Hr' & Ht' & Ha').
    cbn [result trace after].
    split; [exact Hr'|]. split; [|exact Ha'].
    rewrite !non_scheduler_events_app, Ht, Ht'. reflexivity.
Qed.

(** What recording the entries raises depends on the manifest only. *)
Lemma record_files_error (tag : string) (exe : list Asset) (m : json)
    (w : World) :
  error_of (result (record_files tag exe m w))
  = match exe with
    | [] => None
    | _ :: _ => files_error m
    end.
Proof.
  destruct exe as [|a exe]; [reflexivity|].
  destruct m as [| | | | |kvs];
    try (cbn [record_files]; erewrite bind_silent by reflexivity;
         reflexivity).
  cbn [files_error].
  destruct (Py.dict_get kvs "files") as [files|] eqn:Hfl.
  - destruct files as [| | | | |fl];
      try (cbn [record_files]; erewrite bind_silent by reflexivity;
           erewrite bind_silent
             by (unfold Py.getitem; rewrite Hfl; reflexivity);
           reflexivity).
    rewrite (@record_files_eq tag (a :: exe) kvs fl w Hfl). reflexivity.
  - cbn [record_files]. erewrite bind_silent by reflexivity.
    erewrite bind_out_Raise
      by (unfold Py.getitem; rewrite Hfl; reflexivity).
    reflexivity.
Qed.

Lemma pure_bind_result {A B} (m : M A) (f : A -> M B) :
  pure_action m ->
  (forall a w w', manifest_file w = manifest_file w' ->
                  result (f a w) = result (f a w')) ->
  forall w w', manifest_file w = manifest_file w' ->
               result (bind m f w) = result (bind m f w').
Proof.
  intros [r Hm] Hf w w' Hw. destruct r as [a|e].
  - erewrite !bind_silent by apply Hm. now apply Hf.
  - erewrite !bind_out_Raise by apply Hm. reflexivity.
Qed.

(** Whether the manifest update raises, and what, depends on the manifest
    file only. *)
Lemma update_manifest_result (tag : string) (exe : list Asset) (c : Counts)
    (w w' : World) :
  manifest_file w = manifest_file w' ->
  result (update_manifest tag exe c w) = result (update_manifest tag exe c w').
Proof.
  intros Hw. unfold update_manifest.
  erewrite !bind_silent by apply load_manifest_eq. rewrite <- Hw.
  destruct ((0 <? successful c) || (0 <? skipped c)); [|reflexivity].
  generalize (loaded (manifest_file w)). intros manifest.
  revert w w' Hw.
  apply pure_bind_result; [apply pure_getitem|]. intros releases.
  apply pure_bind_result; [apply pure_contains|]. intros present.
  apply pure_bind_result.
  { destruct (negb present); [|apply pure_ret].
    apply pure_bind; [apply pure_getitem|].
    intros releases0. apply pure_bind; [apply pure_append|].
    intros releases'. apply pure_ret. }
  intros manifest1 w w' _.
  rewrite !bind_out.
  assert (E : error_of (result (record_files tag exe manifest1 w))
              = error_of (result (record_files tag exe manifest1 w')))
    by (rewrite !record_files_error; reflexivity).
  destruct (result (record_files tag exe manifest1 w)) as [m2|e];
    destruct (result (record_files tag exe manifest1 w')) as [m2'|e'];
    cbn [result]; rewrite ?save_manifest_eq; cbn [result];
    try reflexivity; cbn in E; congruence.
Qed.

Lemma fetch_rescheduled (w w' : World) :
  rescheduled w w' ->
  fetch_latest_release owner repo w'
  = mkOut (result (fetch_latest_release owner repo w)) w'
      (trace (fetch_latest_release owner repo w)).
Proof.
  intros (s & b & t & ->). rewrite !fetch_latest_release_eq. cbv zeta.
  change (first_attempt_ctx (set_manifest_writable b (set_schtasks s (set_ticks t w))))
    with (first_attempt_ctx w).
  change (net_release (set_manifest_writable b (set_schtasks s (set_ticks t w))))
    with (net_release w).
  change (unverified_ctx_ok (set_manifest_writable b (set_schtasks s (set_ticks t w))))
    with (unverified_ctx_ok w).
  destruct (net_release w (release_url owner repo) (first_attempt_ctx w))
    as [d|e]; [reflexivity|].
  destruct (is_url_or_ssl_error e && unverified_ctx_ok w); reflexivity.
Qed.

Lemma schedule_self_non_scheduler (w : World) :
  non_scheduler_events (trace (schedule_self w)) = [].
Proof.
  rewrite schedule_self_eq.
  destruct (schtasks w (delete_cmd self_task_name)); reflexivity.
Qed.

Lemma rescheduled_same (w w' : World) :
  rescheduled w w' ->
  fs w' = fs w /\ manifest_file w' = manifest_file w /\
  log_folder_ok w' = log_folder_ok w /\
  storage_folder_ok w' = storage_folder_ok w /\
  storage_of w' = storage_of w.
Proof. intros (s & b & t & ->). now repeat split. Qed.

Lemma main_body_rescheduled (w w' : World) :
  rescheduled w w' ->
  result (main_body w') = result (main_body w) /\
  fs (after (main_body w')) = fs (after (main_body w)) /\
  non_scheduler_events (trace (main_body w'))
  = non_scheduler_events (trace (main_body w)).
Proof.
  intros H.
  destruct (rescheduled_same H) as (Hfs & Hmf & _ & Hst & Hsto).
  pose proof (fetch_rescheduled H) as Hfetch.
  assert (Hfd : fetched w' = fetched w)
    by (unfold fetched; rewrite Hfetch; reflexivity).
  assert (Hpre : non_scheduler_events
                   (trace (schedule_self w')
                    ++ trace (fetch_latest_release owner repo w'))
                 = non_scheduler_events
                     (trace (schedule_self w)
                      ++ trace (fetch_latest_release owner repo w))).
  { rewrite !non_scheduler_events_app, !schedule_self_non_scheduler, Hfetch.
    reflexivity. }
  pose proof (main_body_cases w) as Hc. cbv zeta in Hc.
  pose proof (main_body_cases w') as Hc'. cbv zeta in Hc'.
  rewrite Hfd, Hst, Hsto in Hc'.
  destruct (fetched w) as [r|].
  2:{ rewrite Hc, Hc'. cbn [result after trace]. now repeat split. }
  destruct (storage_folder_ok w).
  2:{ rewrite Hc, Hc'. cbn [result after trace]. now repeat split. }
  destruct (qualifying r) as [|a exe].
  { rewrite Hc, Hc'. cbn [result after trace]. now repeat split. }
  destruct Hc as (c & files & o & t & tr1 & ru & w2 & tru & Hl & _ & _ & _
                  & Hu & Hb).
  destruct Hc' as (c' & files' & o' & t' & tr1' & ru' & w2' & tru' & Hl' & _
                   & _ & _ & Hu' & Hb').
  destruct (@download_assets_rescheduled (storage_of w) (a :: exe)
              (mkCounts 0 0 0) w w' H) as (Hr & Ht & Ha).
  rewrite Hl, Hl' in Hr, Ht, Ha. cbn [result trace after] in Hr, Ht, Ha.
  inversion Hr; subst c'. clear Hr.
  destruct (rescheduled_same Ha) as (Hfs1 & Hmf1 & _).
  pose proof (@update_manifest_result (release_tag_of r) (a :: exe) c
                _ _ Hmf1) as Hres.
  rewrite Hu, Hu' in Hres. cbn [result] in Hres.
  pose proof (update_manifest_silent (release_tag_of r) (a :: exe) c
                (touch files o t w)) as Hs1.
  pose proof (update_manifest_silent (release_tag_of r) (a :: exe) c
                (touch files' o' t' w')) as Hs2.
  rewrite Hu in Hs1. rewrite Hu' in Hs2. cbn in Hs1, Hs2. subst tru tru'.
  pose proof (update_manifest_fs (release_tag_of r) (a :: exe) c
                (touch files o t w)) as Hf1.
  pose proof (update_manifest_fs (release_tag_of r) (a :: exe) c
                (touch files' o' t' w')) as Hf2.
  rewrite Hu in Hf1. rewrite Hu' in Hf2. cbn [after] in Hf1, Hf2.
  rewrite Hb, Hb'. cbn [result after trace]. subst ru'.
  split; [reflexivity|]. split; [now rewrite Hf1, Hf2|].
  rewrite !non_scheduler_events_app, !schedule_self_non_scheduler, Hfetch, Ht.
  reflexivity.
Qed.

(** X22: the scheduler cannot influence a run.  Replace the host's
    [schtasks] by any other behaviour (working, failing, missing): the
    value [main] returns, the files in the storage folder after the run,
    and every outside call that is not a run of [schtasks] (the requests,
    the retrievals, the summary with its counters) are exactly the same.
    Task registration is best effort and its failures are never
    reported. *)
Theorem scheduler_cannot_change_outcome (s : list string -> Result Z)
    (w : World) :
  result (main (set_schtasks s w)) = result (main w) /\
  fs (after (main (set_schtasks s w))) = fs (after (main w)) /\
  non_scheduler_events (trace (main (set_schtasks s w)))
  = non_scheduler_events (trace (main w)).
Proof.
  assert (H : rescheduled w (set_schtasks s w))
    by (exists s, (manifest_writable w), (ticks w); now destruct w).
  rewrite !main_eq.
  change (log_folder_ok (set_schtasks s w)) with (log_folder_ok w).
  destruct (log_folder_ok w); [|now repeat split].
  destruct (main_body_rescheduled H) as (Hr & Hf & Ht).
  cbn [result after trace]. rewrite Hr. now repeat split.
Qed.

(** X27: a manifest that cannot be written never makes a run fail.  With
    the manifest file unwritable, [main] returns the same value, leaves the
    same files in the storage folder and makes the same requests and
    retrievals, with the same summary, as with a writable one.  The
    failure to save is not reported. *)
Theorem manifest_write_failure_is_silent (w : World) :
  result (main (set_manifest_writable false w)) = result (main w) /\
  fs (after (main (set_manifest_writable false w))) = fs (after (main w)) /\
  non_scheduler_events (trace (main (set_manifest_writable false w)))
  = non_scheduler_events (trace (main w)).
Proof.
  assert (H : rescheduled w (set_manifest_writable false w))
    by (exists (schtasks w), false, (ticks w); now destruct w).
  rewrite !main_eq.
  change (log_folder_ok (set_manifest_writable false w))
    with (log_folder_ok w).
  destruct (log_folder_ok w); [|now repeat split].
  destruct (main_body_rescheduled H) as (Hr & Hf & Ht).
  cbn [result after trace]. rewrite Hr. now repeat split.
Qed.

(** ** Further consequences *)





(** X25: when the certificate-checking context cannot be built but the
    other one can, certificate checking is off without further notice:
    every request of [fetch_latest_release] and every retrieval of
    [download_file], first attempt and retry alike, is made with the
    non-checking context. *)
Theorem no_default_context_means_no_verification (w : World)
    (url dest : string) (e : Event) :
  default_ctx_ok w = false ->
  unverified_ctx_ok w = true ->
  (In e (trace (fetch_latest_release owner repo w)) ->
   e = EvUrlopen (release_url owner repo) Unverified) /\
  (In e (trace (download_file url dest w)) ->
   e = EvUrlretrieve url dest Unverified).
Proof.
  intros Hd Hu.
  assert (Hc : first_attempt_ctx w = Unverified)
    by (unfold first_attempt_ctx; now rewrite Hd, Hu).
  split.
  - rewrite fetch_latest_release_eq. cbv zeta. rewrite Hc.
    destruct (net_release w (release_url owner repo) Unverified) as [d|ex].
    + intros [<-|[]]. reflexivity.
    + destruct (is_url_or_ssl_error ex && unverified_ctx_ok w).
      * intros [<-|[<-|[]]]; reflexivity.
      * intros [<-|[]]. reflexivity.
  - rewrite download_file_eq. cbv zeta. rewrite Hc.
    destruct (net_file w url Unverified) as [[]|ex].
    + intros [<-|[]]. reflexivity.
    + destruct (is_url_or_ssl_error ex && unverified_ctx_ok w).
      * intros [<-|[<-|[]]]; reflexivity.
      * intros [<-|[]]. reflexivity.
Qed.


(** ** Tasks and the files they run *)

Lemma quoted_inj (p q : string) : quoted p = quoted q -> p = q.
Proof.
  unfold quoted, Str.dquote. cbn [append]. intros H.
  inversion H as [H1]. clear H. revert q H1.
  induction p as [|c p IH]; intros q H.
  - destruct q as [|d q]; [reflexivity|].
    cbn in H. inversion H as [[Hc Hq]].
    destruct q; discriminate Hq.
  - destruct q as [|d q].
    + cbn in H. inversion H as [[Hc Hp]]. destruct p; discriminate Hp.
    + cbn in H. inversion H as [[Hc Hp]]. f_equal. now apply IH.
Qed.

Lemma create_cmd_inj (n n' a a' : string) (args args' : list string) :
  create_cmd n a args = create_cmd n' a' args' -> n = n' /\ a = a'.
Proof. unfold create_cmd. cbn [app]. intros H. now inversion H. Qed.

Lemma create_not_delete (n n' a : string) (args : list string) :
  create_cmd n a args <> delete_cmd n'.
Proof. unfold create_cmd, delete_cmd. cbn [app]. intros H. inversion H. Qed.

Lemma EvSchtasks_inj (c c' : list string) :
  EvSchtasks c = EvSchtasks c' -> c = c'.
Proof. intros H. now injection H. Qed.

Lemma create_scheduled_task_fs (p n : string) (s : option string)
    (w : World) :
  fs (after (create_scheduled_task p n s w)) = fs w.
Proof.
  destruct (create_scheduled_task_spec p n s w) as (b & t & tr & H & _).
  now rewrite H.
Qed.

Lemma download_ok_present (url dest : string) (w : World) :
  download_ok url dest w = true ->
  In dest (fs (after (download_file url dest w))).
Proof.
  unfold download_ok.
  destruct (download_file_spec url dest w)
    as (b & files & o & tr & H & _ & _ & _ & Hd).
  rewrite H. cbn. exact Hd.
Qed.

Lemma process_asset_creates (st : string) (a : Asset) (c : Counts)
    (w : World) (task dest : string) (args : list string) :
  In (EvSchtasks (create_cmd task (quoted dest) args))
    (trace (process_asset st a c w)) ->
  In dest (fs (after (process_asset st a c w))).
Proof.
  rewrite process_asset_eq. cbv zeta.
  assert (Hev : forall w0,
             In (EvSchtasks (create_cmd task (quoted dest) args))
               (trace (create_scheduled_task (destination_of st a)
                         (task_name_of (name a)) (find_schedule (name a))
                         w0)) ->
             dest = destination_of st a).
  { intros w0 H. apply create_scheduled_task_events in H.
    destruct H as [H|(args' & H)].
    - apply EvSchtasks_inj in H. now apply create_not_delete in H.
    - apply EvSchtasks_inj, create_cmd_inj in H.
      destruct H as [_ H]. now apply quoted_inj in H. }
  destruct (file_present (destination_of st a) w) eqn:Hp.
  - cbn [trace after]. intros H. apply Hev in H. subst dest.
    rewrite create_scheduled_task_fs. now apply file_present_In.
  - destruct (download_ok _ _ w) eqn:Hok; cbn [trace after]; intros H.
    + apply in_app_or in H. destruct H as [H|H].
      * apply download_file_events in H. destruct H as (ctx & H).
        discriminate H.
      * apply Hev in H. subst dest.
        rewrite create_scheduled_task_fs. now apply download_ok_present.
    + apply download_file_events in H. destruct H as (ctx & H).
      discriminate H.
Qed.

Lemma download_assets_fs (st : string) (l : list Asset) (c : Counts)
    (w : World) :
  incl (fs w) (fs (after (download_assets st l c w))).
Proof.
  destruct (download_assets_spec st l c w)
    as (c' & files & o & t & tr & H & _ & _ & Hincl & _).
  rewrite H. exact Hincl.
Qed.

Lemma download_assets_creates (st : string) (l : list Asset) :
  forall (c : Counts) (w : World) (task dest : string) (args : list string),
    In (EvSchtasks (create_cmd task (quoted dest) args))
      (trace (download_assets st l c w)) ->
    In dest (fs (after (download_assets st l c w))).
Proof.
  induction l as [|a l IH]; intros c w task dest args H.
  - destruct H.
  - cbn [download_assets] in *. rewrite bind_out in *.
    rewrite process_asset_returns in *. cbn [trace after] in *.
    apply in_app_or in H. destruct H as [H|H].
    + apply download_assets_fs. now apply process_asset_creates in H.
    + now apply IH in H.
Qed.

(** X28: a task is created only for a file that is there.  Whenever a
    run hands [schtasks] a [/Create] command whose action is a quoted path,
    either the task is the program's own, or the path is that of a file
    that is in the storage folder when the run ends: no task is
    registered for an executable that was not stored. *)
Theorem tasks_only_for_stored_files (w : World) (task dest : string)
    (args : list string) :
  In (EvSchtasks (create_cmd task (quoted dest) args)) (trace (main w)) ->
  task = "GitHubReleaseDownloader" \/ In dest (fs (after (main w))).
Proof.
  intros H. rewrite main_trace, main_after in *.
  destruct (log_folder_ok w); [|destruct H].
  pose proof (main_body_cases w) as Hc. cbv zeta in Hc.
  assert (Hpre : In (EvSchtasks (create_cmd task (quoted dest) args))
                   (trace (schedule_self w)
                    ++ trace (fetch_latest_release owner repo w)) ->
                 task = self_task_name).
  { intros Hin. apply in_app_or in Hin. destruct Hin as [Hin|Hin].
    - apply schedule_self_events in Hin. destruct Hin as [Hin|Hin].
      + apply EvSchtasks_inj in Hin. now apply create_not_delete in Hin.
      + apply EvSchtasks_inj, create_cmd_inj in Hin. tauto.
    - apply fetch_events in Hin. destruct Hin as (c' & Hin).
      discriminate Hin. }
  destruct (fetched w) as [r|];
    [|rewrite Hc in H; left; now apply Hpre].
  destruct (storage_folder_ok w);
    [|rewrite Hc in H; left; now apply Hpre].
  destruct (qualifying r) as [|a exe];
    [rewrite Hc in H; left; now apply Hpre|].
  destruct Hc as (c & files & o & t & tr1 & ru & w2 & tru & Hl & _ & _ & _
                  & Hu & Hb).
  rewrite Hb in *. cbn [trace after] in *.
  apply in_app_or in H. destruct H as [H|H]; [left; now apply Hpre|].
  right.
  pose proof (update_manifest_fs (release_tag_of r) (a :: exe) c
                (touch files o t w)) as Hfs.
  pose proof (update_manifest_silent (release_tag_of r) (a :: exe) c
                (touch files o t w)) as Hsil.
  rewrite Hu in Hfs, Hsil. cbn in Hfs, Hsil. subst tru. rewrite Hfs.
  apply in_app_or in H. destruct H as [H|H].
  - assert (He : In (EvSchtasks (create_cmd task (quoted dest) args))
                   (trace (download_assets (storage_of w) (a :: exe)
                             (mkCounts 0 0 0) w)))
      by (rewrite Hl; exact H).
    apply download_assets_creates in He. rewrite Hl in He. exact He.
  - cbn [app] in H. destruct ru; [|destruct H].
    destruct H as [H|[]]. discriminate H.
Qed.


(** ** Which assets qualify, and how their tasks are named *)

Lemma lower_app (s t : string) :
  Str.ascii_lower (s ++ t) = (Str.ascii_lower s ++ Str.ascii_lower t)%string.
Proof. induction s as [|c s IH]; cbn; [reflexivity|now rewrite IH]. Qed.

Lemma lower_split (p q : string) :
  forall s, Str.ascii_lower s = (p ++ q)%string ->
            exists s1 s2, s = (s1 ++ s2)%string
                          /\ Str.ascii_lower s1 = p /\ Str.ascii_lower s2 = q.
Proof.
  induction p as [|c p IH]; intros s H.
  - exists EmptyString, s. now repeat split.
  - destruct s as [|c' s]; [discriminate H|].
    cbn in H. inversion H as [[Hc Hs]].
    destruct (IH s Hs) as (s1 & s2 & -> & H1 & H2).
    exists (String c' s1), s2. cbn. rewrite H1. now repeat split.
Qed.

Lemma endswith_app (a b : string) : Str.endswith (a ++ b) b = true.
Proof.
  induction a as [|c a IH].
  - destruct b; cbn; rewrite ?Ascii.eqb_refl, ?String.eqb_refl; reflexivity.
  - cbn [append Str.endswith]. rewrite IH. apply orb_true_r.
Qed.

Lemma endswith_inv (s suffix : string) :
  Str.endswith s suffix = true -> exists pre, s = (pre ++ suffix)%string.
Proof.
  induction s as [|c s IH].
  - destruct suffix; [|discriminate]. intros _. now exists EmptyString.
  - cbn [Str.endswith]. intros H. apply orb_true_iff in H.
    destruct H as [H|H].
    + apply String.eqb_eq in H. exists EmptyString. now rewrite H.
    + destruct (IH H) as (pre & ->). now exists (String c pre).
Qed.

Lemma lower_ascii_dot (c : ascii) :
  Str.lower_ascii c = Str.dot -> c = Str.dot.
Proof.
  destruct c as [[] [] [] [] [] [] [] []]; vm_compute; intros H;
    first [reflexivity | discriminate H].
Qed.

Lemma contains_dot_cons (c : ascii) (s : string) :
  Str.contains "." (String c s)
  = (if ascii_dec "." c then true else false) || Str.contains "." s.
Proof.
  cbn [Str.contains String.prefix].
  destruct (ascii_dec "." c); destruct s; reflexivity.
Qed.

Lemma lower_no_dot (s : string) :
  Str.contains "." (Str.ascii_lower s) = false -> Str.contains "." s = false.
Proof.
  induction s as [|c s IH]; [reflexivity|].
  cbn [Str.ascii_lower]. rewrite !contains_dot_cons. intros H.
  apply orb_false_iff in H. destruct H as [H1 H2].
  rewrite (IH H2), orb_false_r.
  destruct (ascii_dec "." c) as [E|E]; [|reflexivity].
  subst c. exact H1.
Qed.

Lemma contains_dot_mid (t e : string) :
  Str.contains "." (t ++ String Str.dot e) = true.
Proof.
  induction t as [|c t IH].
  - cbn [append]. rewrite contains_dot_cons. reflexivity.
  - cbn [append Str.contains]. rewrite IH. apply orb_true_r.
Qed.

Lemma splitext_root_app (stem e : string) :
  Str.contains "." e = false ->
  Str.splitext_root (stem ++ String Str.dot e) = stem.
Proof.
  intros He. induction stem as [|c stem IH].
  - cbn [append Str.splitext_root]. rewrite He.
    now rewrite Ascii.eqb_refl.
  - cbn [append Str.splitext_root]. rewrite contains_dot_mid, IH.
    reflexivity.
Qed.

Lemma lower_ascii_sep (c : ascii) :
  Str.is_sep (Str.lower_ascii c) = false -> Str.is_sep c = false.
Proof.
  destruct c as [[] [] [] [] [] [] [] []]; vm_compute; intros H;
    first [reflexivity | discriminate H].
Qed.

Lemma lower_no_sep (s : string) :
  Str.has_sep (Str.ascii_lower s) = false -> Str.has_sep s = false.
Proof.
  induction s as [|c s IH]; [reflexivity|].
  cbn [Str.ascii_lower Str.has_sep]. intros H.
  apply orb_false_iff in H. destruct H as [H1 H2].
  now rewrite (lower_ascii_sep _ H1), (IH H2).
Qed.

Lemma has_sep_app (a b : string) :
  Str.has_sep (a ++ b) = Str.has_sep a || Str.has_sep b.
Proof.
  induction a as [|c a IH]; [reflexivity|].
  cbn [append Str.has_sep]. now rewrite IH, orb_assoc.
Qed.

Lemma splitext_name_app (stem e : string) :
  Str.contains "." e = false ->
  Str.splitext_name (stem ++ String Str.dot e)
  = if Str.has_non_dot stem then stem
    else (stem ++ String Str.dot e)%string.
Proof.
  intros He. unfold Str.splitext_name.
  now rewrite splitext_root_app by exact He.
Qed.

(** [os.path.splitext] looks for the extension behind the last separator
    only. *)
Lemma splitext0_app (stem e : string) :
  Str.contains "." e = false ->
  Str.has_sep e = false ->
  Str.splitext0 (stem ++ String Str.dot e)
  = if Str.has_non_dot (after_last_sep stem) then stem
    else (stem ++ String Str.dot e)%string.
Proof.
  intros He Hs.
  assert (Hd : forall s, Str.has_sep (s ++ String Str.dot e) = Str.has_sep s).
  { intros s. rewrite has_sep_app. cbn [Str.has_sep]. rewrite Hs.
    change (Str.is_sep Str.dot) with false. cbn. apply orb_false_r. }
  induction stem as [|c stem IH].
  - cbn [append Str.splitext0 after_last_sep]. rewrite Hs.
    change (Str.is_sep Str.dot) with false. cbv iota.
    apply (splitext_name_app EmptyString e He).
  - cbn [append Str.splitext0 after_last_sep]. rewrite Hd.
    destruct (Str.has_sep stem).
    + rewrite IH. now destruct (Str.has_non_dot (after_last_sep stem)).
    + destruct (Str.is_sep c).
      * rewrite splitext_name_app by exact He.
        now destruct (Str.has_non_dot stem).
      * apply (splitext_name_app (String c stem) e He).
Qed.

Lemma lower_exe_shape (ext : string) :
  Str.ascii_lower ext = ".exe" ->
  exists e, ext = String Str.dot e /\ Str.contains "." e = false
            /\ Str.has_sep e = false.
Proof.
  destruct ext as [|c e]; [discriminate|].
  cbn. intros H. inversion H as [[Hc He]].
  apply lower_ascii_dot in Hc. subst c.
  exists e. split; [reflexivity|]. split.
  - apply lower_no_dot. now rewrite He.
  - apply lower_no_sep. now rewrite He.
Qed.

(** X26: which assets qualify and how their tasks are named.  An asset
    with an ASCII name qualifies exactly when the name is some stem
    followed by [.exe] in any mix of upper and lower case.  The task of a
    file so named is [SystemUpdate_] followed by the stem (so [a.exe] and
    [a.EXE] share one task), except when what stands in the stem behind
    its last separator is empty or dots only, in which case the whole name
    is used. *)
Theorem executable_asset_task_name :
  (forall a, Str.is_ascii (name a) = true ->
             (is_exe a = true <->
              exists stem ext, name a = (stem ++ ext)%string
                               /\ Str.ascii_lower ext = ".exe")) /\
  (forall stem ext,
      Str.ascii_lower ext = ".exe" ->
      task_name_of (stem ++ ext)
      = if Str.has_non_dot (after_last_sep stem)
        then ("SystemUpdate_" ++ stem)%string
        else ("SystemUpdate_" ++ stem ++ ext)%string).
Proof.
  split.
  - intros a Hascii. unfold is_exe. rewrite (str_lower_ascii _ Hascii).
    split.
    + intros H. apply endswith_inv in H. destruct H as (pre & H).
      apply lower_split in H. destruct H as (s1 & s2 & Hn & _ & H2).
      now exists s1, s2.
    + intros (stem & ext & -> & Hext).
      rewrite lower_app, Hext. apply endswith_app.
  - intros stem ext Hext.
    destruct (lower_exe_shape _ Hext) as (e & -> & He & Hs).
    unfold task_name_of.
    rewrite splitext0_app by assumption.
    destruct (Str.has_non_dot (after_last_sep stem)); reflexivity.
Qed.

End Script.

(** * The properties at work: sample runs *)

(** A name with "usb" before "wifi" and one with "wifi" before "usb" both
    get the wifi schedule. *)
Lemma find_schedule_usb_wifi_witness :
  find_schedule "USB-hub-WiFi.exe" = Some "Every 4 Hours" /\
  find_schedule "wifi_over_usb.exe" = Some "Every 4 Hours".
Proof.
  split;
    apply (proj1 (proj2 (proj2 find_schedule_table_order)));
    try reflexivity;
    intros k' d' Hin; simpl in Hin;
    repeat (destruct Hin as [Hin | Hin];
            [inversion Hin; subst; reflexivity | ]);
    contradiction.
Defined.

(** A description outside the table's vocabulary gets the default. *)
Lemma parse_schedule_to_cmd_default_witness :
  parse_schedule_to_cmd "Daily (9:30 AM)" (Sample.healthy Sample.v21)
  = mkOut (Ret ["/SC"; "DAILY"; "/ST"; "08:00"]) (Sample.healthy Sample.v21) [].
Proof.
  apply (proj1 (proj2 parse_schedule_to_cmd_rules)).
  intros p Hin. simpl in Hin.
  repeat (destruct Hin as [Hin | Hin]; [subst p; reflexivity | ]).
  contradiction.
Defined.

(** With no default context available the very first request already runs
    without certificate checks. *)
Lemma verified_attempt_not_always_first :
  ~ (forall (w : World) (url dest : string),
        (exists rest,
            trace (fetch_latest_release owner repo w)
            = EvUrlopen (release_url owner repo) Verified :: rest) /\
        (exists rest,
            trace (download_file url dest w)
            = EvUrlretrieve url dest Verified :: rest)).
Proof.
  intros H.
  destruct (H (Sample.no_default_ctx Sample.v21) "u" "d") as [[rest Hf] _].
  vm_compute in Hf. discriminate Hf.
Qed.

(** Behind a TLS-intercepting proxy both operations succeed on the second,
    unverified attempt. *)
Lemma network_retry_policy_witness :
  (result (fetch_latest_release owner repo (Sample.intercepted Sample.v21))
   = Ret (Some Sample.v21) /\
   trace (fetch_latest_release owner repo (Sample.intercepted Sample.v21))
   = [EvUrlopen (release_url owner repo) Verified;
      EvUrlopen (release_url owner repo) Unverified]) /\
  (result (download_file "u" "d" (Sample.intercepted Sample.v21)) = Ret true /\
   trace (download_file "u" "d" (Sample.intercepted Sample.v21))
   = [EvUrlretrieve "u" "d" Verified; EvUrlretrieve "u" "d" Unverified]).
Proof.
  destruct (network_retry_policy (Sample.intercepted Sample.v21) "u" "d"
              eq_refl eq_refl)
    as [(_ & _ & Hf & _) (_ & _ & Hdl & _)].
  destruct (Hf URLError eq_refl eq_refl) as (Ht & Hr & _).
  destruct (Hdl SSLError eq_refl eq_refl) as (Ht' & Hr' & _).
  exact (conj (conj (Hr Sample.v21 eq_refl) Ht) (conj (Hr' eq_refl) Ht')).
Defined.

(** A manifest file that parses to something else than a manifest makes
    the update raise, and nothing is written. *)
Lemma manifest_update_can_be_lost :
  ~ (forall (tag : string) (exe : list Asset) (c : Counts) (w : World),
        manifest_writable w = true ->
        0 < successful c + skipped c ->
        records_release
          (manifest_file (after (update_manifest tag exe c w))) tag).
Proof.
  intros H.
  destruct (H "v2.1" [Sample.wifi] (mkCounts 0 1 0)
              (Sample.foreign_manifest Sample.v21) eq_refl)
    as (kvs & drs & Hm & _).
  - cbn. lia.
  - vm_compute in Hm. discriminate Hm.
Qed.

(** On a fresh machine one skipped asset makes the run write a manifest
    that lists the release. *)
Lemma update_manifest_effect_witness :
  records_release
    (manifest_file
       (after (update_manifest "v2.1" [Sample.wifi] (mkCounts 0 1 0)
                 (Sample.healthy Sample.v21)))) "v2.1".
Proof.
  destruct (proj1 (proj2 update_manifest_effect) "v2.1" [Sample.wifi]
              (mkCounts 0 1 0) (Sample.healthy Sample.v21)
              _ [] [] eq_refl eq_refl eq_refl (le_n 1))
    as (kvs' & fl' & _ & _ & Heq & Hdr & _).
  rewrite (Heq eq_refl). exists kvs'. eexists. split; [reflexivity|].
  split; [exact Hdr|]. now left.
Defined.

(** A truncated manifest file is read as the empty manifest. *)
Lemma load_manifest_resilient_witness :
  load_manifest (set_manifest_file Unreadable (Sample.healthy Sample.v21))
  = mkOut (Ret empty_manifest)
      (set_manifest_file Unreadable (Sample.healthy Sample.v21)) [].
Proof.
  apply (proj1 (proj2 load_manifest_resilient)). right. reflexivity.
Defined.

(** The manifest file holds JSON that is not a manifest: the fetch works,
    one asset is skipped and one downloaded, nothing fails, and the run
    still reports failure. *)
Lemma outcome_not_only_failed_count :
  ~ (forall (w : World) (r : Release) (c : Counts) (w1 : World)
            (tr1 : list Event),
        log_folder_ok w = true ->
        fetched w = Some r ->
        qualifying r <> [] ->
        download_assets (storage_of w) (qualifying r) (mkCounts 0 0 0) w
        = mkOut (Ret c) w1 tr1 ->
        result (main w) = Ret (failed c =? 0)).
Proof.
  intros H.
  set (w := Sample.foreign_manifest Sample.v21).
  set (o := download_assets (storage_of w) (qualifying Sample.v21)
              (mkCounts 0 0 0) w).
  assert (E : result (main w) = Ret (failed (mkCounts 1 1 0) =? 0)).
  { apply (H w Sample.v21 (mkCounts 1 1 0) (after o) (trace o)).
    - reflexivity.
    - reflexivity.
    - discriminate.
    - vm_compute. reflexivity. }
  vm_compute in E. discriminate E.
Qed.

(** On a healthy machine the run of release v2.1 succeeds. *)
Lemma main_outcome_witness :
  result (main (Sample.healthy Sample.v21)) = Ret true.
Proof.
  destruct (main_outcome (Sample.healthy Sample.v21) eq_refl)
    as (b & Hb & Hcase).
  rewrite Hb. f_equal.
  cbn in Hcase. destruct Hcase as (c & w1 & tr1 & Hl & _ & Hok).
  rewrite (Hok eq_refl).
  vm_compute in Hl. now inversion Hl.
Defined.

(** With no network [main] returns False and the process still exits
    with status 0. *)
Lemma exit_status_hides_failure :
  ~ (forall w : World,
        script_exit_status w = 0%Z <-> result (main w) = Ret true).
Proof.
  intros H. destruct (H Sample.offline) as [H0 _].
  assert (E : result (main Sample.offline) = Ret true)
    by (apply H0; vm_compute; reflexivity).
  vm_compute in E. discriminate E.
Qed.

(** Offline the run fails and the process exits with 0; only a log that
    cannot be set up gives another status. *)
Lemma exit_status_ignores_outcome_witness :
  (result (main Sample.offline) = Ret false /\
   script_exit_status Sample.offline = 0%Z) /\
  script_exit_status Sample.no_log = 1%Z.
Proof.
  split.
  - split; [vm_compute; reflexivity|].
    apply (proj1 (proj2 (exit_status_ignores_outcome Sample.offline)) false).
    vm_compute. reflexivity.
  - apply (proj1 (exit_status_ignores_outcome Sample.no_log)).
Defined.

(** C2: one download works and the other fails.  The run counts one
    success and one failure; the security patch is not in the storage
    folder, yet the manifest written by this run has an entry for it. *)
Lemma failed_download_is_recorded :
  result (main (Sample.flaky Sample.v21)) = Ret false /\
  In (EvSummary 1 0 1) (trace (main (Sample.flaky Sample.v21))) /\
  file_present
    (destination_of (storage_of (Sample.flaky Sample.v21)) Sample.security)
    (after (main (Sample.flaky Sample.v21))) = false /\
  has_entry (manifest_file (after (main (Sample.flaky Sample.v21))))
    "security-patch.exe".
Proof.
  split; [vm_compute; reflexivity|].
  split; [vm_compute; repeat (first [left; reflexivity | right])|].
  split; [vm_compute; reflexivity|].
  unfold has_entry. eexists. eexists. eexists.
  split; [vm_compute; reflexivity|].
  split; vm_compute; reflexivity.
Qed.




(** On a host without [schtasks] no task is created. *)
Lemma create_scheduled_task_deletes_first_witness :
  result (create_scheduled_task "C:\s\wifi-driver.exe"
            "SystemUpdate_wifi-driver" None
            (set_schtasks (fun _ => Raise OSError)
               (Sample.healthy Sample.v21)))
  = Ret false.
Proof.
  destruct (create_scheduled_task_deletes_first "C:\s\wifi-driver.exe"
              "SystemUpdate_wifi-driver" None
              (set_schtasks (fun _ => Raise OSError)
                 (Sample.healthy Sample.v21)))
    as (b & rest & Hr & _ & Hraise).
  destruct (Hraise OSError eq_refl) as (Hb & _).
  rewrite Hr. now rewrite Hb.
Defined.

(** A task for the wifi driver on a machine where [schtasks] works. *)
Lemma create_scheduled_task_reports_create_status_witness :
  result (create_scheduled_task "C:\s\wifi-driver.exe" "SystemUpdate_wifi-driver"
            (Some "Every 4 Hours") (Sample.healthy Sample.v21)) = Ret true.
Proof.
  destruct (@create_scheduled_task_reports_create_status ascii_only
              "C:\s\wifi-driver.exe" "SystemUpdate_wifi-driver"
              (Some "Every 4 Hours") (Sample.healthy Sample.v21) 0%Z
              (proj1 (Nat.ltb_lt 2025 MAXYEAR) eq_refl) eq_refl)
    as (args & _ & Hr & _).
  apply Hr. reflexivity.
Defined.

(** The packaged program registers itself without [pythonw]. *)
Lemma schedule_self_commands_witness :
  trace (schedule_self (Sample.healthy Sample.v21))
  = [EvSchtasks ["schtasks"; "/Delete"; "/TN"; "GitHubReleaseDownloader";
                 "/F"];
     EvSchtasks ["schtasks"; "/Create"; "/TN"; "GitHubReleaseDownloader";
                 "/TR"; quoted "C:\tools\downloader.exe";
                 "/SC"; "DAILY"; "/ST"; "08:00"; "/F"]].
Proof.
  destruct (proj2 (schedule_self_commands (Sample.healthy Sample.v21)))
    as (b & rest & _ & Ht & _ & Hret).
  destruct (Hret 0%Z eq_refl) as (Hrest & _).
  rewrite Ht. now rewrite Hrest.
Defined.

(** The weekly description on the healthy machine. *)
Lemma parse_schedule_to_cmd_well_formed_witness :
  exists ty rest,
    result (parse_schedule_to_cmd "Weekly (Sunday 3 AM)"
              (Sample.healthy Sample.v21)) = Ret ("/SC" :: ty :: rest) /\
    In ty schedule_types /\
    length rest <= 4 /\
    trace (parse_schedule_to_cmd "Weekly (Sunday 3 AM)"
             (Sample.healthy Sample.v21)) = [] /\
    after (parse_schedule_to_cmd "Weekly (Sunday 3 AM)"
             (Sample.healthy Sample.v21))
    = (if String.eqb ty "ONCE"
       then set_ticks (S (ticks (Sample.healthy Sample.v21)))
              (Sample.healthy Sample.v21)
       else Sample.healthy Sample.v21).
Proof.
  exact (parse_schedule_to_cmd_well_formed "Weekly (Sunday 3 AM)"
           (Sample.healthy Sample.v21) (proj1 (Nat.ltb_lt 2025 MAXYEAR) eq_refl)).
Defined.

(** On the healthy machine the release returned is the one served. *)
Lemma fetch_latest_release_is_contained_witness :
  exists c,
    net_release (Sample.healthy Sample.v21) (release_url owner repo) c
    = Ret Sample.v21.
Proof.
  destruct (fetch_latest_release_is_contained owner repo
              (Sample.healthy Sample.v21))
    as (res & tr & Heq & _ & _ & Hsome).
  assert (Hres : res = Some Sample.v21).
  { apply (f_equal (@result (option Release))) in Heq.
    cbn [result] in Heq. vm_compute in Heq. now inversion Heq. }
  destruct (Hsome Sample.v21 Hres) as (c & _ & Hc).
  exists c. exact Hc.
Defined.


(** Offline, the run still starts by registering itself. *)
Lemma main_registers_itself_first_witness :
  exists rest,
    trace (main Sample.offline)
    = EvSchtasks ["schtasks"; "/Delete"; "/TN"; "GitHubReleaseDownloader";
                  "/F"] :: rest.
Proof.
  exact (proj2 (main_registers_itself_first Sample.offline) eq_refl).
Defined.

(** With no network nothing changes. *)
Lemma main_early_failure_changes_nothing_witness :
  after (main Sample.offline) = Sample.offline.
Proof.
  exact (proj1 (main_early_failure_changes_nothing Sample.offline
                  (or_introl eq_refl))).
Defined.

(** The first download of the healthy run is that of the wifi driver. *)
Lemma main_stays_in_envelope_witness :
  allowed (Sample.healthy Sample.v21)
    (EvUrlretrieve "https://example.invalid/wifi-driver.exe"
       (Str.path_join Sample.storage "wifi-driver.exe") Verified).
Proof.
  apply (@main_stays_in_envelope ascii_only plain_join (Sample.healthy Sample.v21)).
  vm_compute. tauto.
Defined.

(** The security patch is retrieved by the run, so it was not stored
    before. *)
Lemma main_keeps_existing_files_witness :
  file_present (Str.path_join Sample.storage "security-patch.exe")
    (Sample.foreign_manifest Sample.v21) = false.
Proof.
  destruct (file_present (Str.path_join Sample.storage "security-patch.exe")
              (Sample.foreign_manifest Sample.v21)) eqn:E; [|reflexivity].
  exfalso. apply file_present_In in E. revert E.
  apply (proj2 (main_keeps_existing_files
                  (Sample.foreign_manifest Sample.v21))
           "https://example.invalid/security-patch.exe" _ Verified).
  vm_compute. tauto.
Defined.

(** After the healthy run the security patch is stored. *)
Lemma main_true_all_files_present_witness :
  In (Str.path_join Sample.storage "security-patch.exe")
    (fs (after (main (Sample.healthy Sample.v21)))).
Proof.
  apply (proj2 (@main_true_all_files_present ascii_only plain_join (Sample.healthy Sample.v21)
                  Sample.v21 eq_refl eq_refl) Sample.security).
  - cbn. tauto.
  - reflexivity.
Defined.

(** The flaky run logs one success and one failure, and returns False. *)
Lemma main_summary_matches_outcome_witness :
  result (main (Sample.flaky Sample.v21)) = Ret false.
Proof.
  refine (proj1 (proj1 (main_summary_matches_outcome
                          (Sample.flaky Sample.v21)) 1 0 1 _)).
  vm_compute. tauto.
Defined.

(** No download works: the run fails and writes no manifest. *)
Lemma main_nothing_obtained_keeps_manifest_witness :
  manifest_file
    (after (main (set_manifest_file Unreadable (Sample.flaky
                    (mkRelease (Some "v2.1") [Sample.security])))))
  = Unreadable.
Proof.
  refine (proj1 (@main_nothing_obtained_keeps_manifest ascii_only plain_join
                   (set_manifest_file Unreadable
                      (Sample.flaky (mkRelease (Some "v2.1")
                                       [Sample.security]))) 1 _)).
  vm_compute. tauto.
Defined.

(** A manifest file holding a JSON list makes the update raise, and the
    file stays. *)
Lemma update_manifest_raise_leaves_file_witness :
  manifest_file
    (after (update_manifest "v2.1" [Sample.wifi] (mkCounts 0 1 0)
              (Sample.foreign_manifest Sample.v21)))
  = Content (JArr []).
Proof.
  apply (proj2 (proj2 (update_manifest_raise_leaves_file "v2.1"
                         [Sample.wifi] (mkCounts 0 1 0)
                         (Sample.foreign_manifest Sample.v21)))
           TypeError).
  vm_compute. reflexivity.
Defined.

(** A manifest file holding an empty JSON object. *)
Lemma update_manifest_missing_key_witness :
  update_manifest "v2.1" [Sample.wifi] (mkCounts 1 0 0)
    (set_manifest_file (Content (JObj [])) (Sample.healthy Sample.v21))
  = mkOut (Raise KeyError)
      (set_manifest_file (Content (JObj [])) (Sample.healthy Sample.v21)) [].
Proof.
  apply (proj1 (@update_manifest_missing_key "v2.1" [Sample.wifi]
                  (mkCounts 1 0 0)
                  (set_manifest_file (Content (JObj []))
                     (Sample.healthy Sample.v21)) [] eq_refl (le_n 1))).
  reflexivity.
Defined.

(** The healthy run creates the manifest, so it logged a summary. *)
Lemma main_changes_manifest_only_on_completion_witness :
  manifest_writable (Sample.healthy Sample.v21) = true /\
  exists s k f,
    In (EvSummary s k f) (trace (main (Sample.healthy Sample.v21))) /\
    0 < s + k.
Proof.
  apply main_changes_manifest_only_on_completion.
  vm_compute. discriminate.
Defined.

(** A machine that already holds the manifest of release v1.0. *)
Lemma main_never_forgets_witness :
  records_release
    (manifest_file
       (after (main (set_manifest_file
                       (Content (JObj [("downloaded_releases",
                                        JArr [JStr "v1.0"]);
                                       ("files", JObj [])]))
                       (Sample.healthy Sample.v21))))) "v1.0".
Proof.
  apply (proj1 (@main_never_forgets ascii_only plain_join
                  (set_manifest_file
                     (Content (JObj [("downloaded_releases",
                                      JArr [JStr "v1.0"]);
                                     ("files", JObj [])]))
                     (Sample.healthy Sample.v21)) eq_refl eq_refl)).
  eexists. eexists. split; [reflexivity|]. split; [reflexivity|].
  now left.
Defined.

(** The healthy run records release v2.1. *)
Lemma main_true_records_release_witness :
  records_release (manifest_file (after (main (Sample.healthy Sample.v21))))
    "v2.1".
Proof.
  exact (proj1 (@main_true_records_release ascii_only plain_join (Sample.healthy Sample.v21)
                  Sample.v21 eq_refl eq_refl eq_refl eq_refl)).
Defined.



(** On the machine without a default context the release is fetched
    without certificate checks. *)
Lemma no_default_context_means_no_verification_witness :
  nth 0 (trace (fetch_latest_release owner repo
                  (Sample.no_default_ctx Sample.v21))) (EvSummary 0 0 0)
  = EvUrlopen (release_url owner repo) Unverified.
Proof.
  apply (proj1 (@no_default_context_means_no_verification
                  (Sample.no_default_ctx Sample.v21) "u" "d"
                  (nth 0 (trace (fetch_latest_release owner repo
                                   (Sample.no_default_ctx Sample.v21)))
                     (EvSummary 0 0 0))
                  eq_refl eq_refl)).
  vm_compute. left. reflexivity.
Defined.

(** The task of the wifi driver is created by the healthy run, and the
    driver is stored. *)
Lemma tasks_only_for_stored_files_witness :
  "SystemUpdate_wifi-driver" = "GitHubReleaseDownloader" \/
  In (Str.path_join Sample.storage "wifi-driver.exe")
    (fs (after (main (Sample.healthy Sample.v21)))).
Proof.
  apply (@tasks_only_for_stored_files ascii_only plain_join (Sample.healthy Sample.v21)
           "SystemUpdate_wifi-driver"
           (Str.path_join Sample.storage "wifi-driver.exe")
           ["/SC"; "HOURLY"; "/MO"; "4"]).
  vm_compute. tauto.
Defined.

(** A release asset with an upper-case extension. *)
Lemma executable_asset_task_name_witness :
  is_exe (mkAsset "Chipset-Setup.EXE" "https://example.invalid/c") = true /\
  task_name_of "Chipset-Setup.EXE" = "SystemUpdate_Chipset-Setup".
Proof.
  split.
  - apply (proj1 executable_asset_task_name
             (mkAsset "Chipset-Setup.EXE" "https://example.invalid/c")
             eq_refl).
    exists "Chipset-Setup", ".EXE". now split.
  - exact (proj2 executable_asset_task_name "Chipset-Setup" ".EXE" eq_refl).
Defined.
